(** * deepsphere-weather: validation utilities of [modules/utils_io.py]
      and the tutorial script [tutorials/w_verif.py]

    A shallow embedding of the checks that the autoregressive (AR) training
    pipeline runs on its labelled arrays, and of the dimension bookkeeping of
    [get_AR_model_diminfo].

    Conventions of the embedding:
    - a Python call either returns a value or raises; it is a value of
      [result], and sequencing is the bind of that error monad;
    - a Python [int] is a [Z]; a [numpy.datetime64] is the [Z] count of its
      ticks since the epoch (NaT is not a timestep and is not represented),
      and the difference of two is a [numpy.timedelta64]: an int64, with
      wrap-around; a [datetime.datetime] is its count of microseconds, and
      the difference of two is exact;
    - a one-dimensional numpy array is the list of its elements tagged with
      its dtype ([ndarray]);
    - an xarray object is the ordered list of its dimensions, each with its
      index (coordinate) array; a Dataset also carries its data variables;
    - a [dict] with string keys is a [gmap string _];
    - text written by [print] is not part of the result and is left out;
    - what numpy leaves to its release or to its parser of datetime strings
      is a parameter ([release], [np_datetime64]), and so are the conversion
      and the comparison of arrays of objects ([objects]).

    [get_AR_model_diminfo] is embedded twice: as a function of the values of
    its arguments, and ([Store]) as a computation on a store of Python
    objects, where the identity and the mutation of lists and dictionaries
    are explicit.  The tutorial script ([Tutorial]) is embedded as a
    computation on the dictionary of its global names. *)

From Stdlib Require Import ZArith Lia.
From stdpp Require Import gmap strings list fin_maps sorting.

Local Open Scope Z_scope.
Local Open Scope string_scope.
Local Open Scope list_scope.

(** ** Exceptions and the error monad *)

(** An argument of [str.format]: a string, or a sequence of names. *)
Inductive fmtarg :=
  | AStr (s : string)
  | ANames (l : list string).

(** The message of an exception: a literal, or a template with the
    arguments [format] substitutes into it. *)
Inductive message :=
  | Msg (s : string)
  | Fmt (template : string) (args : list fmtarg).

Inductive exn :=
  | ValueError (m : message)
  | TypeError (m : message)
  | KeyError (k : string)
  | NameError (name : string).

Inductive result (A : Type) :=
  | Return (a : A)
  | Raise (e : exn).
Arguments Return {A} a.
Arguments Raise {A} e.

Definition bind {A B} (c : result A) (k : A → result B) : result B :=
  match c with
  | Return a => k a
  | Raise e => Raise e
  end.

#[global] Instance result_ret : MRet result := @Return.
#[global] Instance result_bind : MBind result := λ A B k c, bind c k.

(** [if cond: raise e] *)
Definition raise_if (cond : bool) (e : exn) : result unit :=
  if cond then Raise e else Return tt.

(** A list comprehension whose body may raise. *)
Fixpoint mapM {A B} (f : A → result B) (l : list A) : result (list B) :=
  match l with
  | [] => Return []
  | x :: l' => y ← f x; ys ← mapM f l'; Return (y :: ys)
  end.

Definition is_Return {A} (r : result A) : Prop := ∃ a, r = Return a.

Definition is_ValueError {A} (r : result A) : Prop := ∃ m, r = Raise (ValueError m).

(** ** numpy arrays and xarray objects *)

(** A one-dimensional numpy array, by dtype. *)
Inductive ndarray :=
  | NdStr (l : list string)
  | NdInt (l : list Z)
  | NdTime (l : list Z).

(** An element of [ndarray.tolist()]. *)
Inductive label :=
  | LStr (s : string)
  | LInt (z : Z)
  | LTime (t : Z).

Definition tolist (a : ndarray) : list label :=
  match a with
  | NdStr l => LStr <$> l
  | NdInt l => LInt <$> l
  | NdTime l => LTime <$> l
  end.

Definition nd_len (a : ndarray) : nat :=
  match a with
  | NdStr l => length l
  | NdInt l => length l
  | NdTime l => length l
  end.

(** A value of a floating-point data variable, by class. *)
Inductive float :=
  | FNum (m e : Z)
  | FNaN
  | FInf (negative : bool).

(** [xr.DataArray]: the dimensions in order, each with its index. *)
Record DataArray := { da_coords : list (string * ndarray) }.

(** [xr.Dataset]: the dimensions with their indexes, and the data variables
    with their (flattened) values. *)
Record Dataset := {
  ds_coords : list (string * ndarray);
  ds_data_vars : list (string * list float)
}.

(** A Python object passed where an xarray object or [None] is expected. *)
Inductive pyobj :=
  | PyNone
  | PyDataArray (da : DataArray)
  | PyDataset (ds : Dataset)
  | PyOther.

Definition is_None (o : pyobj) : bool :=
  match o with PyNone => true | _ => false end.

Definition isinstance_DataArray (o : pyobj) : bool :=
  match o with PyDataArray _ => true | _ => false end.

Definition isinstance_Dataset (o : pyobj) : bool :=
  match o with PyDataset _ => true | _ => false end.

(** [list(da.dims)] *)
Definition da_dims (da : DataArray) : list string := (da_coords da).*1.

(** [list(ds.dims.keys())] *)
Definition ds_dims (ds : Dataset) : list string := (ds_coords ds).*1.

(** [obj[name].values] for the index of a dimension. *)
Fixpoint coord_values (cs : list (string * ndarray)) (name : string) : result ndarray :=
  match cs with
  | [] => Raise (KeyError name)
  | (d, a) :: cs' => if decide (d = name) then Return a else coord_values cs' name
  end.

(** [np.isin(element, test_elements, invert=invert)] *)
Definition np_isin (element test_elements : list string) (invert : bool) : list bool :=
  (λ e, xorb invert (bool_decide (e ∈ test_elements))) <$> element.

(** [a[mask]] for a boolean mask of the length of [a]. *)
Fixpoint np_mask {A} (a : list A) (mask : list bool) : list A :=
  match a, mask with
  | x :: a', b :: mask' => if b then x :: np_mask a' mask' else np_mask a' mask'
  | _, _ => []
  end.

(** ** Dimension names *)

Definition time_dim : string := "time".
Definition node_dim : string := "node".
Definition variable_dim : string := "feature".

Definition check_dimnames_DataArray (da : pyobj) (required_dimnames : list string)
    (da_name : string) : result unit :=
  match da with
  | PyDataArray da =>
      let da_dims := da_dims da in
      let missing_dims := np_mask required_dimnames (np_isin required_dimnames da_dims true) in
      raise_if (bool_decide (0 < length missing_dims)%nat)
        (ValueError (Fmt "The {} must have also the '{}' dimension"
                         [AStr da_name; ANames missing_dims]))
  | _ => Raise (TypeError (Msg "'da' must be an xarray DataArray"))
  end.

Definition check_dimnames_Dataset (ds : pyobj) (required_dimnames : list string)
    (ds_name : string) : result unit :=
  match ds with
  | PyDataset ds =>
      let ds_dims := ds_dims ds in
      let missing_dims := np_mask required_dimnames (np_isin required_dimnames ds_dims true) in
      raise_if (bool_decide (0 < length missing_dims)%nat)
        (ValueError (Fmt "The {} must have also the '{}' dimension"
                         [AStr ds_name; ANames missing_dims]))
  | _ => Raise (TypeError (Msg "'ds' must be an xarray Dataset"))
  end.

(** [if obj is not None: check] *)
Definition unless_None (o : pyobj) (check : result unit) : result unit :=
  if is_None o then Return tt else check.

Definition _check_AR_DataArray_dimnames (da_dynamic da_bc da_static : pyobj) : result unit :=
  unless_None da_dynamic
    (check_dimnames_DataArray da_dynamic [time_dim; node_dim; variable_dim] "dynamic DataArray") ;;
  unless_None da_static
    (check_dimnames_DataArray da_static [node_dim; variable_dim] "static DataArray") ;;
  unless_None da_bc
    (check_dimnames_DataArray da_bc [time_dim; node_dim; variable_dim] "bc DataArray").

Definition _check_AR_Dataset_dimnames (ds_dynamic ds_bc ds_static : pyobj) : result unit :=
  unless_None ds_dynamic
    (check_dimnames_Dataset ds_dynamic [time_dim; node_dim] "dynamic Dataset") ;;
  unless_None ds_static
    (check_dimnames_Dataset ds_static [node_dim] "static Dataset") ;;
  unless_None ds_bc
    (check_dimnames_Dataset ds_bc [time_dim; node_dim] "bc Dataset").

(** ** Dimension information of an AR model *)

(** A value of the [AR_settings] dictionary. *)
Inductive setting :=
  | SList (l : list Z)
  | SInt (z : Z).

(** [len(AR_settings[key])] *)
Definition len_setting (AR_settings : gmap string setting) (key : string) : result Z :=
  match AR_settings !! key with
  | None => Raise (KeyError key)
  | Some (SList l) => Return (Z.of_nat (length l))
  | Some (SInt _) => Raise (TypeError (Msg "object of type 'int' has no len()"))
  end.

(** A value of the dimension-information dictionary. *)
Inductive dimval :=
  | DInt (z : Z)
  | DLabels (l : list label)
  | DNames (l : list string)
  | DShape (l : list Z).

#[global] Instance label_eq_dec : EqDecision label.
Proof. solve_decision. Defined.
#[global] Instance dimval_eq_dec : EqDecision dimval.
Proof. solve_decision. Defined.

(** [obj[variable_dim].values.tolist()] and the dimension list of a
    DataArray argument; any other object has no such item. *)
Definition da_of (o : pyobj) : result DataArray :=
  match o with
  | PyDataArray da => Return da
  | _ => Raise (TypeError (Msg "object is not subscriptable"))
  end.

(** [dict[k]] *)
Definition getitem {V} (d : gmap string V) (k : string) : result V :=
  match d !! k with
  | Some v => Return v
  | None => Raise (KeyError k)
  end.

(** The variables of an optional DataArray: its dimension list (or [None])
    and the labels of its 'feature' index. *)
Definition optional_variables (o : pyobj) (required_dimnames : list string)
    (name : string) : result (option (list string) * list label) :=
  if is_None o then Return (None, [])
  else
    check_dimnames_DataArray o required_dimnames name ;;
    da ← da_of o;
    let dims := da_dims da in
    values ← coord_values (da_coords da) variable_dim;
    Return (Some dims, tolist values).

Definition get_AR_model_diminfo (da_dynamic da_static da_bc : pyobj)
    (AR_settings : option (gmap string setting)) : result (gmap string dimval) :=
  raise_if (negb (isinstance_DataArray da_dynamic))
    (ValueError (Msg "The dynamic DataArray is necessary for AR models.")) ;;
  (* Dynamic variables *)
  check_dimnames_DataArray da_dynamic [time_dim; node_dim; variable_dim] "dynamic DataArray" ;;
  dyn ← da_of da_dynamic;
  values ← coord_values (da_coords dyn) variable_dim;
  let dynamic_variables := tolist values in
  let n_dynamic_variables := Z.of_nat (length dynamic_variables) in
  let dims_dynamic := da_dims dyn in
  (* Static variables *)
  '(dims_static, static_variables) ←
    optional_variables da_static [node_dim; variable_dim] "static DataArray";
  let n_static_variables := Z.of_nat (length static_variables) in
  (* Boundary condition variables *)
  '(dims_bc, bc_variables) ←
    optional_variables da_bc [time_dim; node_dim; variable_dim] "bc DataArray";
  let n_bc_variables := Z.of_nat (length bc_variables) in
  (* Check dims_bc order is the same as dims_dynamic *)
  match dims_bc with
  | Some dims_bc =>
      raise_if (negb (bool_decide (dims_dynamic = dims_bc)))
        (ValueError (Msg "Dimension order of dynamic and bc DataArrays must be equal."))
  | None => Return tt
  end ;;
  (* Define feature dimensions *)
  let input_feature_dim := n_static_variables + n_bc_variables + n_dynamic_variables in
  let output_feature_dim := n_dynamic_variables in
  let input_features := static_variables ++ bc_variables ++ dynamic_variables in
  let output_features := dynamic_variables in
  (* Define number of nodes *)
  nodes ← coord_values (da_coords dyn) "node";
  let input_node_dim := Z.of_nat (nd_len nodes) in
  let output_node_dim := Z.of_nat (nd_len nodes) in
  (* Define dimension order *)
  let dim_order := "sample" :: da_dims dyn in
  match AR_settings with
  | Some AR_settings =>
      (* Define time dimensions *)
      input_time_dim ← len_setting AR_settings "input_k";
      output_time_dim ← len_setting AR_settings "output_k";
      (* Define input-ouput tensor shape *)
      let dim_input : gmap string Z :=
        <["feature" := input_feature_dim]>
          (<["time" := input_time_dim]> (<["node" := input_node_dim]> ∅)) in
      input_shape ← mapM (getitem dim_input) (tail dim_order);
      let dim_output : gmap string Z :=
        <["feature" := output_feature_dim]>
          (<["time" := output_time_dim]> (<["node" := output_node_dim]> ∅)) in
      output_shape ← mapM (getitem dim_input) (tail dim_order);
      Return (<["input_feature_dim" := DInt input_feature_dim]>
             (<["output_feature_dim" := DInt output_feature_dim]>
             (<["input_features" := DLabels input_features]>
             (<["output_features" := DLabels output_features]>
             (<["input_time_dim" := DInt input_time_dim]>
             (<["output_time_dim" := DInt output_time_dim]>
             (<["input_node_dim" := DInt input_node_dim]>
             (<["output_node_dim" := DInt output_node_dim]>
             (<["dim_order" := DNames dim_order]>
             (<["input_shape" := DShape input_shape]>
             (<["output_shape" := DShape output_shape]> ∅)))))))))))
  | None =>
      Return (<["input_feature_dim" := DInt input_feature_dim]>
             (<["output_feature_dim" := DInt output_feature_dim]>
             (<["input_features" := DLabels input_features]>
             (<["output_features" := DLabels output_features]>
             (<["input_node_dim" := DInt input_node_dim]>
             (<["output_node_dim" := DInt output_node_dim]>
             (<["dim_order" := DNames dim_order]> ∅)))))))
  end.

(** ** Timesteps *)

(** An element of a Python list given as timesteps. *)
Inductive pyelem :=
  | EDatetime (t : Z)      (* datetime.datetime *)
  | EDatetime64 (t : Z)    (* np.datetime64 *)
  | EOther.

(** An object given as timesteps. *)
Inductive timesteps_obj :=
  | TStr (s : string)
  | TNone
  | TDatetime (t : Z)              (* a single datetime.datetime *)
  | TDatetime64 (t : Z)            (* a single np.datetime64 *)
  | TList (l : list pyelem)
  | TArray (a : ndarray)           (* a one-dimensional numpy array *)
  | TArrayND (shape : list nat)    (* a numpy array of another rank *)
  | TOther (len : option nat)      (* any other object, with its length if it has one *)
  | TObjectArray (l : list Z).     (* a one-dimensional numpy array of dtype object
                                      that holds datetime.datetime objects *)

(** A one-dimensional array of timesteps as [np.array] builds it: of dtype
    datetime64, or of dtype object with the objects themselves. *)
Inductive timesteps_array :=
  | ArrDatetime64 (l : list Z)
  | ArrObject (l : list pyelem).

(** [a.size] *)
Definition arr_size (a : timesteps_array) : nat :=
  match a with
  | ArrDatetime64 l => length l
  | ArrObject l => length l
  end.

(** The releases of numpy differ in what [==] does on two arrays whose shapes
    do not broadcast: before 1.25 it warns and gives the scalar [False], from
    1.25 on it raises. *)
Inductive numpy_release :=
  | numpy_before_1_25
  | numpy_from_1_25.

(** The result of [a == b] on arrays. *)
Inductive comparison :=
  | CmpArray (l : list bool)
  | CmpScalar (b : bool).

Definition is_datetime (v : pyelem) : bool :=
  match v with EDatetime _ | EDatetime64 _ => true | EOther => false end.

(** The counts of the elements of a list that holds [np.datetime64] only. *)
Fixpoint datetime64s (l : list pyelem) : option (list Z) :=
  match l with
  | [] => Some []
  | EDatetime64 t :: l' => ts ← datetime64s l'; Some (t :: ts)
  | _ => None
  end.

(** [np.array(l)] for a list of datetimes: a datetime64 array when every
    element is a [np.datetime64], an array of the objects as soon as one is a
    [datetime.datetime]. *)
Definition np_array (l : list pyelem) : timesteps_array :=
  match datetime64s l with
  | Some ts => ArrDatetime64 ts
  | None => ArrObject l
  end.

(** [len(timesteps)] *)
Definition len_timesteps (timesteps : timesteps_obj) : result nat :=
  match timesteps with
  | TList l => Return (length l)
  | TArray a => Return (nd_len a)
  | TArrayND (n :: _) => Return n
  | TOther (Some n) => Return n
  | TStr s => Return (String.length s)
  | TObjectArray l => Return (length l)
  | _ => Raise (TypeError (Msg "object has no len()"))
  end.

(** An integer as an int64: the arithmetic of datetime64 and timedelta64
    wraps around modulo 2^64. *)
Definition int64 (z : Z) : Z :=
  (z + 9223372036854775808) `mod` 18446744073709551616 - 9223372036854775808.

(** [np.diff(a)] on a datetime64 array: the timedelta64 from each element to
    the next. *)
Fixpoint np_diff (a : list Z) : list Z :=
  match a with
  | x :: (y :: _) as a' => int64 (y - x) :: np_diff a'
  | _ => []
  end.

(** [y - x] on two objects: a [datetime.timedelta] for two
    [datetime.datetime], a [np.timedelta64] for two [np.datetime64], and no
    subtraction between the two kinds. *)
Definition sub_object (y x : pyelem) : result Z :=
  match y, x with
  | EDatetime y, EDatetime x => Return (y - x)
  | EDatetime64 y, EDatetime64 x => Return (int64 (y - x))
  | _, _ => Raise (TypeError (Msg "unsupported operand type(s) for -"))
  end.

(** [np.diff(a)] on an array of objects. *)
Fixpoint np_diff_object (a : list pyelem) : result (list Z) :=
  match a with
  | x :: (y :: _) as a' => d ← sub_object y x; ds ← np_diff_object a'; Return (d :: ds)
  | _ => Return []
  end.

(** [np.diff(a)] *)
Definition np_diff_array (a : timesteps_array) : result (list Z) :=
  match a with
  | ArrDatetime64 l => Return (np_diff l)
  | ArrObject l => np_diff_object l
  end.

(** One more occurrence of [x] in the sorted table of values and counts. *)
Fixpoint unique_insert (x : Z) (u : list (Z * nat)) : list (Z * nat) :=
  match u with
  | [] => [(x, 1%nat)]
  | (y, c) :: u' =>
      if decide (x = y) then (y, S c) :: u'
      else if decide (x < y) then (x, 1%nat) :: u
      else (y, c) :: unique_insert x u'
  end.

(** [np.unique(a, return_counts=True)]: the sorted distinct values and the
    number of occurrences of each. *)
Definition np_unique (a : list Z) : list Z * list nat :=
  let u := foldr unique_insert [] a in (u.*1, u.*2).

(** [np.all] *)
Definition np_all (c : comparison) : bool :=
  match c with
  | CmpArray l => forallb id l
  | CmpScalar b => b
  end.

(** The builtin [all], which iterates over its argument. *)
Definition builtin_all (c : comparison) : result bool :=
  match c with
  | CmpArray l => Return (forallb id l)
  | CmpScalar _ => Raise (TypeError (Msg "'bool' object is not iterable"))
  end.

Section numpy.

(** [np.datetime64(s)] for a string: its count, or the error of the parser. *)
Variable np_datetime64 : string → result Z.

Variable release : numpy_release.

(** [a == b] on one-dimensional arrays: elementwise on equal lengths, an array
    of length one is broadcast against the other. *)
Definition np_eq (a b : list label) : result comparison :=
  if decide (length a = length b) then
    Return (CmpArray (zip_with (λ x y, bool_decide (x = y)) a b))
  else
    match a, b with
    | [x], _ => Return (CmpArray ((λ y, bool_decide (x = y)) <$> b))
    | _, [y] => Return (CmpArray ((λ x, bool_decide (x = y)) <$> a))
    | _, _ =>
        match release with
        | numpy_before_1_25 => Return (CmpScalar false)
        | numpy_from_1_25 =>
            Raise (ValueError (Msg "operands could not be broadcast together"))
        end
    end.

Definition _check_timesteps (timesteps : timesteps_obj) : result timesteps_array :=
  match timesteps with
  | TStr s => t ← np_datetime64 s; Return (ArrDatetime64 [t])
  | TNone => Raise (ValueError (Msg "'timesteps' is None."))
  | _ =>
      n ← len_timesteps timesteps;
      if decide (n = 0%nat) then Raise (ValueError (Msg "'timesteps' is empty."))
      else
        match timesteps with
        | TDatetime t => Return (np_array [EDatetime t])
        | TDatetime64 t => Return (np_array [EDatetime64 t])
        | TList l =>
            if forallb is_datetime l then Return (np_array l)
            else Raise (ValueError
                   (Msg "The list must contain np.datetime64 or datetime.datetime objects."))
        | TArray (NdTime l) => Return (ArrDatetime64 l)
        | TArray _ | TArrayND _ | TObjectArray _ =>
            Raise (ValueError (Msg "The numpy array must contain datetime objects."))
        | _ => Raise (ValueError (Msg "Unvalid timesteps specification."))
        end
  end.

Definition check_no_missing_timesteps (timesteps : timesteps_obj) (verbose : bool)
    : result unit :=
  timesteps ← _check_timesteps timesteps;
  (* Check if there are data *)
  raise_if (bool_decide (arr_size timesteps = 0%nat)) (ValueError (Msg "No data available !")) ;;
  (* Check if missing timesteps *)
  dt ← np_diff_array timesteps;
  let unique := np_unique dt in
  let dts := unique.1 in
  let counts := unique.2 in
  raise_if (bool_decide (1 < length counts)%nat)
    (ValueError (Msg "The process has been interrupted")).

(** ** Finite values *)

Definition isnan (x : float) : bool :=
  match x with FNaN => true | _ => false end.

Definition isinf (x : float) : bool :=
  match x with FInf _ => true | _ => false end.

(** [mask.sum()] of a boolean array. *)
Definition np_sum (mask : list bool) : Z :=
  Z.of_nat (length (filter (λ b, b = true) mask)).

(** The loop that collects the variables whose mask is not all false:
    [for var in ...: if mask[var].sum().values != 0: append; flag = True]. *)
Definition flagged_variables (masks : list (string * list bool)) : list string * bool :=
  foldl (λ '(list_vars, flag_raise_error) '(var, mask),
           if decide (np_sum mask ≠ 0) then (list_vars ++ [var], true)
           else (list_vars, flag_raise_error))
        ([], false) masks.

Definition check_finite_Dataset (ds : pyobj) : result unit :=
  match ds with
  | PyDataset ds =>
      (* Check no NaN values *)
      let ds_isnan := prod_map id (map isnan) <$> ds_data_vars ds in
      let nan := flagged_variables ds_isnan in
      let list_vars_with_nan := nan.1 in
      let flag_raise_error := nan.2 in
      raise_if flag_raise_error
        (ValueError (Fmt "The variables {} contain NaN values" [ANames list_vars_with_nan])) ;;
      (* Check no Inf values *)
      let ds_isinf := prod_map id (map isinf) <$> ds_data_vars ds in
      let inf := flagged_variables ds_isinf in
      let list_vars_with_inf := inf.1 in
      let flag_raise_error := inf.2 in
      raise_if flag_raise_error
        (ValueError (Fmt "The variables {} contain Inf values." [ANames list_vars_with_inf]))
  | _ => Raise (TypeError (Msg "'ds' must be an xarray Dataset."))
  end.

(** ** Checks of the arrays of an AR model *)

(** [da['time'].values] *)
Definition da_time_values (o : pyobj) : result ndarray :=
  da ← da_of o; coord_values (da_coords da) "time".

(** [check_no_missing_timesteps(da['time'].values, verbose=verbose)] *)
Definition da_check_time (o : pyobj) (verbose : bool) : result unit :=
  values ← da_time_values o; check_no_missing_timesteps (TArray values) verbose.

(** [a['time'].values == b['time'].values] *)
Definition da_same_timesteps (a b : pyobj) : result comparison :=
  va ← da_time_values a; vb ← da_time_values b; np_eq (tolist va) (tolist vb).

(** The checks of [check_AR_DataArrays] on each array and on the time
    alignment of the dynamic and boundary-condition arrays. *)
Definition check_AR_DataArrays_alignment
    (da_training_dynamic da_validation_dynamic da_training_bc da_validation_bc
     da_static : pyobj) (verbose : bool) : result unit :=
  (* Check da_dynamic is provided *)
  raise_if (negb (isinstance_DataArray da_training_dynamic))
    (ValueError (Msg "The dynamic DataArray is necessary for AR models.")) ;;
  raise_if (negb (is_None da_validation_bc) && negb (isinstance_DataArray da_validation_dynamic))
    (ValueError (Msg "The validation dynamic DataArray is necessary for AR models.")) ;;
  (* Check dimension names *)
  _check_AR_DataArray_dimnames da_training_dynamic da_training_bc da_static ;;
  _check_AR_DataArray_dimnames da_validation_dynamic da_validation_bc da_static ;;
  (* Check that the required DataArrays are provided *)
  unless_None da_validation_dynamic
    (raise_if (negb (is_None da_training_bc) && is_None da_validation_bc)
       (ValueError (Msg "If boundary conditions data are provided for the training, must be provided also for validation!"))) ;;
  (* Check no missing timesteps *)
  da_check_time da_training_dynamic verbose ;;
  unless_None da_validation_dynamic (da_check_time da_validation_dynamic verbose) ;;
  unless_None da_training_bc (da_check_time da_training_bc false) ;;
  unless_None da_validation_bc (da_check_time da_validation_bc false) ;;
  (* Check time alignment of training and validation DataArray *)
  unless_None da_training_bc
    (same ← da_same_timesteps da_training_dynamic da_training_bc;
     let all_same_timesteps := np_all same in
     raise_if (negb all_same_timesteps)
       (ValueError (Msg "The training dynamic DataArray and the training boundary conditions DataArray does not have the same timesteps!"))) ;;
  if negb (is_None da_validation_dynamic) && negb (is_None da_validation_bc) then
    same ← da_same_timesteps da_validation_dynamic da_validation_bc;
    let all_same_timesteps := np_all same in
    raise_if (negb all_same_timesteps)
      (ValueError (Msg "The validation dynamic DataArray and the validation boundary conditions DataArray does not have the same timesteps!"))
  else Return tt.

(** The last check of [check_AR_DataArrays]: the dimension information of
    the training and of the validation arrays coincide. *)
Definition check_AR_DataArrays_diminfo
    (da_training_dynamic da_validation_dynamic da_training_bc da_validation_bc
     da_static : pyobj) : result unit :=
  unless_None da_validation_dynamic
    (dim_info_training ← get_AR_model_diminfo da_training_dynamic da_static da_training_bc None;
     dim_info_validation ←
       get_AR_model_diminfo da_validation_dynamic da_static da_validation_bc None;
     raise_if (negb (bool_decide (dim_info_training = dim_info_validation)))
       (ValueError (Msg "The dimension order of training and validation DataArrays do not coincide!"))).

Definition check_AR_DataArrays
    (da_training_dynamic da_validation_dynamic da_training_bc da_validation_bc
     da_static : pyobj) (verbose : bool) : result unit :=
  check_AR_DataArrays_alignment da_training_dynamic da_validation_dynamic
    da_training_bc da_validation_bc da_static verbose ;;
  check_AR_DataArrays_diminfo da_training_dynamic da_validation_dynamic
    da_training_bc da_validation_bc da_static.

(** [ds['time'].values] *)
Definition ds_time_values (o : pyobj) : result ndarray :=
  match o with
  | PyDataset ds => coord_values (ds_coords ds) "time"
  | PyDataArray da => coord_values (da_coords da) "time"
  | _ => Raise (TypeError (Msg "object is not subscriptable"))
  end.

Definition ds_check_time (o : pyobj) (verbose : bool) : result unit :=
  values ← ds_time_values o; check_no_missing_timesteps (TArray values) verbose.

Definition ds_same_timesteps (a b : pyobj) : result comparison :=
  va ← ds_time_values a; vb ← ds_time_values b; np_eq (tolist va) (tolist vb).

Definition check_AR_Datasets
    (ds_training_dynamic ds_validation_dynamic ds_static ds_training_bc
     ds_validation_bc : pyobj) (verbose : bool) : result unit :=
  (* Check dimension names *)
  _check_AR_Dataset_dimnames ds_training_dynamic ds_training_bc ds_static ;;
  _check_AR_Dataset_dimnames ds_validation_dynamic ds_validation_bc ds_static ;;
  (* Check that the required Datasets are provided *)
  unless_None ds_validation_dynamic
    (raise_if (negb (is_None ds_training_bc) && is_None ds_validation_bc)
       (ValueError (Msg "If boundary conditions data are provided for the training, must be provided also for validation!"))) ;;
  (* Check no missing timesteps *)
  ds_check_time ds_training_dynamic verbose ;;
  unless_None ds_validation_dynamic (ds_check_time ds_validation_dynamic verbose) ;;
  unless_None ds_training_bc (ds_check_time ds_training_bc false) ;;
  unless_None ds_validation_bc (ds_check_time ds_validation_bc false) ;;
  (* Check time alignment of training and validation dataset *)
  unless_None ds_training_bc
    (same_timesteps ← ds_same_timesteps ds_training_dynamic ds_training_bc;
     all_same ← builtin_all same_timesteps;
     raise_if (negb all_same)
       (ValueError (Msg "The training dynamic Dataset and the training boundary conditions Dataset does not have the same timesteps!"))) ;;
  if negb (is_None ds_validation_dynamic) && negb (is_None ds_validation_bc) then
    same_timesteps ← ds_same_timesteps ds_validation_dynamic ds_validation_bc;
    all_same ← builtin_all same_timesteps;
    raise_if (negb all_same)
      (ValueError (Msg "The validation dynamic Dataset and the validation boundary conditions Dataset does not have the same timesteps!"))
  else Return tt.

End numpy.

(** ** The same function on a store of Python objects

    [get_AR_model_diminfo] once more, with the objects it is given and the
    lists, dictionaries and tuples it creates placed in a store: arguments are
    references, a new list or dictionary is allocated at a fresh location, and
    [d[k] = v] updates the dictionary at its location.  The checks on xarray
    objects are the ones above, applied to the objects found in the store. *)
Module Store.

(** A location of the store. *)
Abbreviation loc := nat (only parsing).

(** A value: [None], an atom ([int], [str] or datetime), a tuple of integers,
    or a reference to an object of the store. *)
Inductive value :=
  | VNone
  | VAtom (a : label)
  | VTuple (t : list Z)
  | VRef (l : loc).

#[global] Instance value_eq_dec : EqDecision value.
Proof. solve_decision. Defined.

(** An object of the store. *)
Inductive object :=
  | OList (items : list value)
  | ODict (items : gmap string value)
  | OArray (da : DataArray)
  | ODataset (ds : Dataset)
  | OOther.

(** The store: the objects in use, by location. *)
Abbreviation heap := (gmap nat object) (only parsing).

(** A computation on the store, which returns or raises. *)
Definition M (A : Type) : Type := heap → result A * heap.

Definition ret {A} (a : A) : M A := λ h, (Return a, h).

Definition mbind {A B} (c : M A) (k : A → M B) : M B :=
  λ h, match c h with
       | (Return a, h') => k a h'
       | (Raise e, h') => (Raise e, h')
       end.

#[global] Instance M_ret : MRet M := @ret.
#[global] Instance M_bind : MBind M := λ A B k c, mbind c k.

(** A computation that does not touch the store. *)
Definition lift {A} (r : result A) : M A := λ h, (r, h).

(** The object at a location. *)
Definition deref (l : loc) : M object :=
  λ h, match h !! l with
       | Some o => (Return o, h)
       | None => (Raise (KeyError "dangling reference"), h)
       end.

(** A new object, at a location that is not in use. *)
Definition alloc (o : object) : M value :=
  λ h, let l := fresh (dom h) in (Return (VRef l), <[l := o]> h).

(** [d[k] = v] *)
Definition setitem (d : value) (k : string) (v : value) : M unit :=
  match d with
  | VRef l =>
      o ← deref l;
      match o with
      | ODict items => λ h, (Return tt, <[l := ODict (<[k := v]> items)]> h)
      | _ => lift (Raise (TypeError (Msg "object does not support item assignment")))
      end
  | _ => lift (Raise (TypeError (Msg "object does not support item assignment")))
  end.

(** [d[k]] on a dictionary. *)
Definition getitem (d : value) (k : string) : M value :=
  match d with
  | VRef l =>
      o ← deref l;
      match o with
      | ODict items =>
          match items !! k with
          | Some v => ret v
          | None => lift (Raise (KeyError k))
          end
      | _ => lift (Raise (TypeError (Msg "object is not subscriptable")))
      end
  | _ => lift (Raise (TypeError (Msg "object is not subscriptable")))
  end.

(** The items of a list. *)
Definition items_of (v : value) : M (list value) :=
  match v with
  | VRef l =>
      o ← deref l;
      match o with
      | OList items => ret items
      | _ => lift (Raise (TypeError (Msg "object is not a list")))
      end
  | _ => lift (Raise (TypeError (Msg "object is not a list")))
  end.

(** [len(v)] *)
Definition len (v : value) : M Z :=
  match v with
  | VRef l =>
      o ← deref l;
      match o with
      | OList items => ret (Z.of_nat (length items))
      | ODict items => ret (Z.of_nat (size items))
      | _ => lift (Raise (TypeError (Msg "object of type 'int' has no len()")))
      end
  | VTuple t => ret (Z.of_nat (length t))
  | VAtom (LStr s) => ret (Z.of_nat (String.length s))
  | _ => lift (Raise (TypeError (Msg "object of type 'int' has no len()")))
  end.

(** The xarray object (or [None]) an argument stands for. *)
Definition load (v : value) : M pyobj :=
  match v with
  | VNone => ret PyNone
  | VRef l =>
      o ← deref l;
      match o with
      | OArray da => ret (PyDataArray da)
      | ODataset ds => ret (PyDataset ds)
      | _ => ret PyOther
      end
  | _ => ret PyOther
  end.

(** An integer as a value. *)
Definition VInt (z : Z) : value := VAtom (LInt z).

(** [list(da.dims)] and [da[variable_dim].values.tolist()] as new lists. *)
Definition new_names (names : list string) : M value :=
  alloc (OList ((λ s, VAtom (LStr s)) <$> names)).

Definition new_labels (labels : list label) : M value :=
  alloc (OList (VAtom <$> labels)).

(** The integer held by a value of a dictionary of sizes. *)
Definition int_of (v : value) : M Z :=
  match v with
  | VAtom (LInt z) => ret z
  | _ => lift (Raise (TypeError (Msg "an integer is required")))
  end.

(** [[table[k] for k in keys]] *)
Fixpoint comprehension (table : value) (keys : list value) : M (list Z) :=
  match keys with
  | [] => ret []
  | VAtom (LStr k) :: keys' =>
      v ← getitem table k; z ← int_of v; zs ← comprehension table keys'; ret (z :: zs)
  | _ :: _ => lift (Raise (TypeError (Msg "unhashable key")))
  end.

(** The variables of an optional DataArray: its dimension list (or [None])
    and the list of the labels of its 'feature' index. *)
Definition optional_variables (da : value) (required_dimnames : list string)
    (name : string) : M (value * value) :=
  o ← load da;
  if is_None o then
    static_variables ← alloc (OList []);
    ret (VNone, static_variables)
  else
    lift (check_dimnames_DataArray o required_dimnames name) ;;
    a ← lift (da_of o);
    dims ← new_names (da_dims a);
    values ← lift (coord_values (da_coords a) variable_dim);
    variables ← new_labels (tolist values);
    ret (dims, variables).

Definition get_AR_model_diminfo (da_dynamic da_static da_bc AR_settings : value) : M value :=
  dyn ← load da_dynamic;
  lift (raise_if (negb (isinstance_DataArray dyn))
          (ValueError (Msg "The dynamic DataArray is necessary for AR models."))) ;;
  (* Dynamic variables *)
  lift (check_dimnames_DataArray dyn [time_dim; node_dim; variable_dim] "dynamic DataArray") ;;
  a ← lift (da_of dyn);
  values ← lift (coord_values (da_coords a) variable_dim);
  dynamic_variables ← new_labels (tolist values);
  n_dynamic_variables ← len dynamic_variables;
  dims_dynamic ← new_names (da_dims a);
  (* Static variables *)
  '(dims_static, static_variables) ←
    optional_variables da_static [node_dim; variable_dim] "static DataArray";
  n_static_variables ← len static_variables;
  (* Boundary condition variables *)
  '(dims_bc, bc_variables) ←
    optional_variables da_bc [time_dim; node_dim; variable_dim] "bc DataArray";
  n_bc_variables ← len bc_variables;
  (* Check dims_bc order is the same as dims_dynamic *)
  match dims_bc with
  | VNone => ret tt
  | _ =>
      x ← items_of dims_dynamic; y ← items_of dims_bc;
      lift (raise_if (negb (bool_decide (x = y)))
              (ValueError (Msg "Dimension order of dynamic and bc DataArrays must be equal.")))
  end ;;
  (* Define feature dimensions *)
  let input_feature_dim := n_static_variables + n_bc_variables + n_dynamic_variables in
  let output_feature_dim := n_dynamic_variables in
  s ← items_of static_variables; b ← items_of bc_variables; d ← items_of dynamic_variables;
  input_features ← alloc (OList (s ++ b ++ d));
  let output_features := dynamic_variables in
  (* Define number of nodes *)
  nodes ← lift (coord_values (da_coords a) "node");
  let input_node_dim := Z.of_nat (nd_len nodes) in
  let output_node_dim := Z.of_nat (nd_len nodes) in
  (* Define dimension order *)
  dims ← new_names (da_dims a); dims ← items_of dims;
  dim_order ← alloc (OList (VAtom (LStr "sample") :: dims));
  match AR_settings with
  | VNone =>
      alloc (ODict (<["input_feature_dim" := VInt input_feature_dim]>
                   (<["output_feature_dim" := VInt output_feature_dim]>
                   (<["input_features" := input_features]>
                   (<["output_features" := output_features]>
                   (<["input_node_dim" := VInt input_node_dim]>
                   (<["output_node_dim" := VInt output_node_dim]>
                   (<["dim_order" := dim_order]> ∅))))))))
  | _ =>
      (* Define time dimensions *)
      input_k ← getitem AR_settings "input_k"; input_time_dim ← len input_k;
      output_k ← getitem AR_settings "output_k"; output_time_dim ← len output_k;
      (* Define input-ouput tensor shape *)
      dim_input ← alloc (ODict ∅);
      setitem dim_input "node" (VInt input_node_dim) ;;
      setitem dim_input "time" (VInt input_time_dim) ;;
      setitem dim_input "feature" (VInt input_feature_dim) ;;
      order ← items_of dim_order;
      input_shape ← comprehension dim_input (tail order);
      dim_output ← alloc (ODict ∅);
      setitem dim_output "node" (VInt output_node_dim) ;;
      setitem dim_output "time" (VInt output_time_dim) ;;
      setitem dim_output "feature" (VInt output_feature_dim) ;;
      order ← items_of dim_order;
      output_shape ← comprehension dim_input (tail order);
      alloc (ODict (<["input_feature_dim" := VInt input_feature_dim]>
                   (<["output_feature_dim" := VInt output_feature_dim]>
                   (<["input_features" := input_features]>
                   (<["output_features" := output_features]>
                   (<["input_time_dim" := VInt input_time_dim]>
                   (<["output_time_dim" := VInt output_time_dim]>
                   (<["input_node_dim" := VInt input_node_dim]>
                   (<["output_node_dim" := VInt output_node_dim]>
                   (<["dim_order" := dim_order]>
                   (<["input_shape" := VTuple input_shape]>
                   (<["output_shape" := VTuple output_shape]> ∅))))))))))))
  end.

End Store.

(** ** The tutorial script [tutorials/w_verif.py]

    The script run as a module: its statements in order, on the dictionary of
    the global names.  The libraries it calls are not modelled: importing a
    module, reading an attribute, calling, subscripting and adding are
    operations of an arbitrary [library].  What the script itself decides is
    which names it reads and binds, and in which order. *)
Module Tutorial.

(** A value of the script: a literal, a builtin, or an object of a library. *)
Inductive pyvalue :=
  | PStr (s : string)
  | PInt (z : Z)
  | PFloat (literal : string)
  | PBool (b : bool)
  | PList (l : list string)     (* a list of strings *)
  | PEmptyDict                  (* [{}] *)
  | PBuiltin (name : string)
  | PForeign (id : nat).

Record library := {
  import_module : string → result pyvalue;
  getattr : pyvalue → string → result pyvalue;
  call : pyvalue → list pyvalue → list (string * pyvalue) → result pyvalue;
  subscript : pyvalue → pyvalue → result pyvalue;
  add : pyvalue → pyvalue → result pyvalue
}.

(** The built-in functions of Python. *)
Definition builtins : list string :=
  ["abs"; "aiter"; "all"; "anext"; "any"; "ascii"; "bin"; "bool"; "breakpoint";
   "bytearray"; "bytes"; "callable"; "chr"; "classmethod"; "compile"; "complex";
   "delattr"; "dict"; "dir"; "divmod"; "enumerate"; "eval"; "exec"; "filter";
   "float"; "format"; "frozenset"; "getattr"; "globals"; "hasattr"; "hash";
   "help"; "hex"; "id"; "input"; "int"; "isinstance"; "issubclass"; "iter";
   "len"; "list"; "locals"; "map"; "max"; "memoryview"; "min"; "next";
   "object"; "oct"; "open"; "ord"; "pow"; "print"; "property"; "range"; "repr";
   "reversed"; "round"; "set"; "setattr"; "slice"; "sorted"; "staticmethod";
   "str"; "sum"; "super"; "tuple"; "type"; "vars"; "zip"; "__import__"].

(** The global names of the module. *)
Abbreviation globals := (gmap string pyvalue) (only parsing).

(** A statement or an expression: it reads and binds global names, and
    returns or raises. *)
Definition M (A : Type) : Type := gmap string pyvalue → result (A * gmap string pyvalue).

Definition ret {A} (a : A) : M A := λ g, Return (a, g).

Definition mbind {A B} (c : M A) (k : A → M B) : M B :=
  λ g, match c g with
       | Return (a, g') => k a g'
       | Raise e => Raise e
       end.

#[global] Instance M_ret : MRet M := @ret.
#[global] Instance M_bind : MBind M := λ A B k c, mbind c k.

(** An operation of a library. *)
Definition lift {A} (r : result A) : M A :=
  λ g, match r with
       | Return a => Return (a, g)
       | Raise e => Raise e
       end.

(** A name in an expression: a global, else a builtin, else NameError. *)
Definition name (x : string) : M pyvalue :=
  λ g, match g !! x with
       | Some v => Return (v, g)
       | None =>
           if bool_decide (x ∈ builtins) then Return (PBuiltin x, g)
           else Raise (NameError x)
       end.

(** [x = v] *)
Definition assign (x : string) (v : pyvalue) : M unit :=
  λ g, Return (tt, <[x := v]> g).

(** The arguments of a call, evaluated from left to right. *)
Fixpoint args (es : list (M pyvalue)) : M (list pyvalue) :=
  match es with
  | [] => ret []
  | e :: es' => v ← e; vs ← args es'; ret (v :: vs)
  end.

Fixpoint kwargs (es : list (string * M pyvalue)) : M (list (string * pyvalue)) :=
  match es with
  | [] => ret []
  | (k, e) :: es' => v ← e; vs ← kwargs es'; ret ((k, v) :: vs)
  end.

Section script.

Variable lib : library.

(** [import module as x] *)
Definition import_as (module x : string) : M unit :=
  m ← lift (import_module lib module); assign x m.

(** [e.a] *)
Definition attr (e : M pyvalue) (a : string) : M pyvalue :=
  o ← e; lift (getattr lib o a).

(** [f(positional..., keyword=...)]: the callee first, then the arguments. *)
Definition invoke (f : M pyvalue) (positional : list (M pyvalue))
    (keyword : list (string * M pyvalue)) : M pyvalue :=
  fv ← f; ps ← args positional; ks ← kwargs keyword; lift (call lib fv ps ks).

(** [e[i]] *)
Definition item (e i : M pyvalue) : M pyvalue :=
  o ← e; k ← i; lift (subscript lib o k).

(** [a + b] *)
Definition plus (a b : M pyvalue) : M pyvalue :=
  x ← a; y ← b; lift (add lib x y).

Definition str (s : string) : M pyvalue := ret (PStr s).
Definition int (z : Z) : M pyvalue := ret (PInt z).
Definition float (literal : string) : M pyvalue := ret (PFloat literal).

(** [x = e] *)
Definition set (x : string) (e : M pyvalue) : M unit := v ← e; assign x v.

(** An expression statement. *)
Definition expr (e : M pyvalue) : M unit := e ;; ret tt.

Definition w_verif : M unit :=
  import_as "pygsp" "pg" ;;
  import_as "cartopy.crs" "ccrs" ;;
  set "data_dir" (str "/home/ghiggi/Projects/DeepSphere/ToyData/Healpix_400km") ;;
  set "ds" (invoke (attr (name "xr") "open_zarr")
              [invoke (attr (attr (name "os") "path") "join")
                 [name "data_dir"; str "Dataset"; str "dynamic.zarr"] []] []) ;;
  set "ds" (invoke (attr (name "ds") "isel") []
              [("time", invoke (name "slice") [int 0; int 10] [])]) ;;
  set "ds" (invoke (attr (name "ds") "load") [] []) ;;
  set "ds1" (invoke (attr (name "ds") "copy") [] []) ;;
  set "ds1" (plus (name "ds") (float "0.15")) ;;
  set "pred" (name "ds1") ;;
  set "obs" (name "ds") ;;
  set "exclude_dim" (str "leadtime") ;;
  set "exclude_dim" (invoke (name "frozenset") [ret PEmptyDict] []) ;;
  set "aggregating_dims" (str "time") ;;
  set "thr" (float "0.0000001") ;;
  (* Compute deterministic metric (at each node, each leadtime) *)
  set "ds_skill" (invoke (name "deterministic") [name "pred"; name "obs"]
                    [("forecast_type", str "continuous");
                     ("aggregating_dims", name "aggregating_dims");
                     ("exclude_dim", name "exclude_dim")]) ;;
  (* Add information related to mesh area *)
  set "ds_skill"
    (invoke (attr (attr (name "ds_skill") "sphere") "add_nodes_from_pygsp") []
       [("pygsp_graph",
         invoke (attr (attr (name "pg") "graphs") "SphereHealpix") []
           [("subdivisions", int 16); ("k", int 20); ("nest", ret (PBool false))])]) ;;
  set "ds_skill"
    (invoke (attr (attr (name "ds_skill") "sphere") "add_SphericalVoronoiMesh") []
       [("x", str "lon"); ("y", str "lat")]) ;;
  (* Compute skill summary statics *)
  set "ds_global_skill"
    (invoke (name "global_summary") [name "ds_skill"] [("area_coords", str "area")]) ;;
  set "ds_latitudinal_skill"
    (invoke (name "latitudinal_summary") [name "ds_skill"]
       [("lat_dim", str "lat"); ("lon_dim", str "lon"); ("lat_res", int 5)]) ;;
  set "ds_longitudinal_skill"
    (invoke (name "longitudinal_summary") [name "ds_skill"]
       [("lat_dim", str "lat"); ("lon_dim", str "lon"); ("lon_res", int 5)]) ;;
  (* Example *)
  expr (invoke (attr (item (name "ds_skill") (str "t850")) "to_dataset") [str "skill"] []) ;;
  expr (invoke (attr (item (name "ds_global_skill") (str "t850")) "to_dataset")
          [str "skill"] []) ;;
  expr (invoke (attr (item (name "ds_latitudinal_skill") (str "t850")) "to_dataset")
          [str "skill"] []) ;;
  expr (invoke (attr (item (name "ds_longitudinal_skill") (str "t850")) "to_dataset")
          [str "skill"] []) ;;
  (* Spatial skill maps (long-term) *)
  expr (invoke (name "plot_skill_maps") [name "ds_skill"; name "figs_dir"]
          [("crs_proj", invoke (attr (name "ccrs") "Robinson") [] []);
           ("suffix", str ""); ("prefix", str "")]) ;;
  (* Global skill stats vs. leadtime *)
  set "skills" (ret (PList ["BIAS"; "RMSE"; "rSD"; "pearson_R2"])) ;;
  expr (invoke
          (attr (invoke (attr (invoke (attr (name "ds_global_skill") "to_array") [] []) "sel")
                   [] [("skill", name "skills")]) "plot")
          [] [("col", str "variable"); ("row", str "skill")]).

End script.

End Tutorial.

(** ** Vocabulary of the statements *)

(** Every required name is a dimension of the array. *)
Definition has_dims (required : list string) (da : DataArray) : Prop :=
  ∀ r, r ∈ required → r ∈ da_dims da.

(** An optional array as the Python argument: [None] when absent. *)
Definition optional (o : option DataArray) : pyobj :=
  match o with
  | Some da => PyDataArray da
  | None => PyNone
  end.

(** The index of a dimension, empty when the array has no such dimension. *)
Definition index_of (name : string) (da : DataArray) : ndarray :=
  match coord_values (da_coords da) name with
  | Return a => a
  | Raise _ => NdStr []
  end.

(** The variables of an array: the labels along its 'feature' dimension. *)
Definition variables (da : DataArray) : list label := tolist (index_of "feature" da).

(** The variables of an optional array: none when it is absent. *)
Definition optional_vars (o : option DataArray) : list label :=
  match o with
  | Some da => variables da
  | None => []
  end.

(** The number of nodes of an array. *)
Definition n_nodes (da : DataArray) : Z := Z.of_nat (nd_len (index_of "node" da)).

(** The part of the dimension information that does not depend on
    [AR_settings]. *)
Definition diminfo_features (dyn : DataArray) (static bc : option DataArray)
    (d : gmap string dimval) : Prop :=
  d !! "input_features"
    = Some (DLabels (optional_vars static ++ optional_vars bc ++ variables dyn)) ∧
  d !! "input_feature_dim"
    = Some (DInt (Z.of_nat (length (optional_vars static))
                  + Z.of_nat (length (optional_vars bc))
                  + Z.of_nat (length (variables dyn)))) ∧
  d !! "output_features" = Some (DLabels (variables dyn)) ∧
  d !! "output_feature_dim" = Some (DInt (Z.of_nat (length (variables dyn)))) ∧
  d !! "input_node_dim" = Some (DInt (n_nodes dyn)) ∧
  d !! "output_node_dim" = Some (DInt (n_nodes dyn)) ∧
  d !! "dim_order" = Some (DNames ("sample" :: da_dims dyn)).

(** The size of the input (or output) tensor along a dimension, from its
    node, time and feature sizes. *)
Definition size_along (node time feature : Z) (dim : string) : option Z :=
  if decide (dim = "node") then Some node
  else if decide (dim = "time") then Some time
  else if decide (dim = "feature") then Some feature
  else None.

(** ** Sample data *)

Definition sample_dynamic : DataArray :=
  {| da_coords := [("time", NdTime [0; 6; 12]); ("node", NdInt [0; 1; 2; 3]);
                   ("feature", NdStr ["t850"; "z500"])] |}.

Definition sample_static : DataArray :=
  {| da_coords := [("node", NdInt [0; 1; 2; 3]); ("feature", NdStr ["orog"])] |}.

Definition sample_bc : DataArray :=
  {| da_coords := [("time", NdTime [0; 6; 12]); ("node", NdInt [0; 1; 2; 3]);
                   ("feature", NdStr ["tisr"])] |}.

(** [{'input_k': [-2, -1], 'output_k': [0]}] *)
Definition sample_settings : gmap string setting :=
  <["input_k" := SList [-2; -1]]> (<["output_k" := SList [0]]> ∅).

(** [d] is the difference of two consecutive timesteps. *)
Definition consecutive_difference (timesteps : list Z) (d : Z) : Prop :=
  ∃ i a b, timesteps !! i = Some a ∧ timesteps !! S i = Some b ∧ d = b - a.

(** The consecutive differences take two or more distinct values. *)
Definition has_gaps (timesteps : list Z) : Prop :=
  ∃ d1 d2, consecutive_difference timesteps d1 ∧ consecutive_difference timesteps d2 ∧ d1 ≠ d2.

(** A parser of datetime strings that accepts nothing. *)
Definition no_datetime64 (s : string) : result Z :=
  Raise (ValueError (Msg "Error parsing datetime string")).

(** The dictionary [get_AR_model_diminfo] returns for the sample dynamic and
    static arrays with the sample settings. *)
Definition sample_diminfo : gmap string dimval :=
  list_to_map
    [("input_feature_dim", DInt 3); ("output_feature_dim", DInt 2);
     ("input_features", DLabels [LStr "orog"; LStr "t850"; LStr "z500"]);
     ("output_features", DLabels [LStr "t850"; LStr "z500"]);
     ("input_time_dim", DInt 2); ("output_time_dim", DInt 1);
     ("input_node_dim", DInt 4); ("output_node_dim", DInt 4);
     ("dim_order", DNames ["sample"; "time"; "node"; "feature"]);
     ("input_shape", DShape [2; 4; 3]); ("output_shape", DShape [2; 4; 3])].

(** Some data variable of the Dataset holds a value of the class [p]. *)
Definition contains (p : float → bool) (ds : Dataset) : Prop :=
  ∃ var data x, (var, data) ∈ ds_data_vars ds ∧ x ∈ data ∧ p x = true.

(** The names of the data variables that hold a value of the class [p], in
    the order of the Dataset. *)
Definition variables_with (p : float → bool) (ds : Dataset) : list string :=
  (filter (λ vd, existsb p vd.2 = true) (ds_data_vars ds)).*1.

Definition is_finite (x : float) : Prop :=
  match x with FNum _ _ => True | _ => False end.

(** Every value of every data variable is finite. *)
Definition all_finite (ds : Dataset) : Prop :=
  ∀ var data x, (var, data) ∈ ds_data_vars ds → x ∈ data → is_finite x.

(** A Dataset with a NaN in [t850] and an infinity in [z500]. *)
Definition sample_dataset : Dataset :=
  {| ds_coords := [("time", NdTime [0; 6]); ("node", NdInt [0; 1])];
     ds_data_vars := [("t850", [FNum 271 0; FNaN; FNum 265 0; FNum 3 (-1)]);
                      ("z500", [FNum 5 3; FInf false; FNum 51 2; FNum 5 3])] |}.

(** A dynamic array whose time index repeats one timestep, and a bc array
    with that single timestep. *)
Definition repeated_dynamic : DataArray :=
  {| da_coords := [("time", NdTime [0; 0]); ("node", NdInt [0; 1; 2; 3]);
                   ("feature", NdStr ["t850"; "z500"])] |}.

Definition single_bc : DataArray :=
  {| da_coords := [("time", NdTime [0]); ("node", NdInt [0; 1; 2; 3]);
                   ("feature", NdStr ["tisr"])] |}.

(** The same two time axes in Datasets. *)
Definition repeated_dynamic_ds : Dataset :=
  {| ds_coords := [("time", NdTime [0; 0]); ("node", NdInt [0; 1; 2; 3])];
     ds_data_vars := [("t850", repeat (FNum 271 0) 8)] |}.

Definition single_bc_ds : Dataset :=
  {| ds_coords := [("time", NdTime [0]); ("node", NdInt [0; 1; 2; 3])];
     ds_data_vars := [("tisr", repeat (FNum 0 0) 4)] |}.

(** Datasets with three and with two 6-hourly timesteps. *)
Definition three_steps_ds : Dataset :=
  {| ds_coords := [("time", NdTime [0; 6; 12]); ("node", NdInt [0; 1])];
     ds_data_vars := [("t850", repeat (FNum 271 0) 6)] |}.

Definition two_steps_ds : Dataset :=
  {| ds_coords := [("time", NdTime [0; 6]); ("node", NdInt [0; 1])];
     ds_data_vars := [("tisr", repeat (FNum 0 0) 4)] |}.

(** A validation array on the dimensions of the sample dynamic array whose
    second variable differs. *)
Definition sample_validation : DataArray :=
  {| da_coords := [("time", NdTime [18; 24]); ("node", NdInt [0; 1; 2; 3]);
                   ("feature", NdStr ["t850"; "q700"])] |}.

(** A validation array with the variables of the sample dynamic array, on
    later timesteps. *)
Definition later_validation : DataArray :=
  {| da_coords := [("time", NdTime [18; 24; 30]); ("node", NdInt [0; 1; 2; 3]);
                   ("feature", NdStr ["t850"; "z500"])] |}.

(** A check that returns or raises ValueError. *)
Definition checked (c : result unit) : Prop := c = Return tt ∨ is_ValueError c.

(** ** Vocabulary of the statements on the store *)

(** The result and the final store of a computation satisfy [Q]. *)
Definition wp {A} (c : Store.M A) (h : Store.heap) (Q : result A → Store.heap → Prop) : Prop :=
  Q (c h).1 (c h).2.

(** From any store that has the objects of [h0] unchanged, the computation
    ends in such a store. *)
Definition keeps {A} (h0 : Store.heap) (c : Store.M A) : Prop :=
  ∀ h, h0 ⊆ h → h0 ⊆ (c h).2.

(** The xarray object (or [None]) an argument stands for in a store. *)
Definition object_at (h : Store.heap) (v : Store.value) : pyobj :=
  match v with
  | Store.VNone => PyNone
  | Store.VRef l =>
      match h !! l with
      | Some (Store.OArray da) => PyDataArray da
      | Some (Store.ODataset ds) => PyDataset ds
      | _ => PyOther
      end
  | _ => PyOther
  end.

(** A value that is not a reference, or a reference to an object of the
    store. *)
Definition valid (h : Store.heap) (v : Store.value) : Prop :=
  match v with
  | Store.VRef l => is_Some (h !! l)
  | _ => True
  end.

(** The value is a reference to a list with these items. *)
Definition list_at (h : Store.heap) (v : Store.value) (items : list Store.value) : Prop :=
  ∃ l, v = Store.VRef l ∧ h !! l = Some (Store.OList items).

(** A value of the [AR_settings] dictionary in the store: an integer, or a
    reference to a list of integers. *)
Definition setting_at (h : Store.heap) (v : Store.value) (s : setting) : Prop :=
  match s with
  | SList zs => list_at h v (Store.VInt <$> zs)
  | SInt z => v = Store.VInt z
  end.

(** The [AR_settings] argument stands for [None] or for a dictionary of
    settings. *)
Definition settings_at (h : Store.heap) (v : Store.value)
    (AR_settings : option (gmap string setting)) : Prop :=
  match AR_settings with
  | None => v = Store.VNone
  | Some settings =>
      ∃ l items, v = Store.VRef l ∧ h !! l = Some (Store.ODict items) ∧
                 ∀ k, option_Forall2 (setting_at h) (items !! k) (settings !! k)
  end.

(** A list of names is a list of [str] labels. *)
Definition canon (x : dimval) : dimval :=
  match x with
  | DNames l => DLabels (LStr <$> l)
  | _ => x
  end.

(** What a value of the returned dictionary reads as: an integer, a tuple,
    or the list of atoms behind a reference. *)
Definition reads_as (h : Store.heap) (v : Store.value) (x : dimval) : Prop :=
  match x with
  | DInt z => v = Store.VInt z
  | DShape t => v = Store.VTuple t
  | DLabels ls => list_at h v (Store.VAtom <$> ls)
  | DNames _ => False
  end.

(** The value is a reference to a dictionary that reads as [d], key by key:
    the value Python's [==] compares. *)
Definition dict_reads (h : Store.heap) (v : Store.value) (d : gmap string dimval) : Prop :=
  ∃ l items, v = Store.VRef l ∧ h !! l = Some (Store.ODict items) ∧
             ∀ k, option_Forall2 (reads_as h) (items !! k) (d !! k).

(** The outcome of the call on the store is the outcome of the function on
    the values of the arguments. *)
Definition same_outcome (h : Store.heap) (r : result Store.value)
    (p : result (gmap string dimval)) : Prop :=
  match r, p with
  | Return v, Return d => dict_reads h v (canon <$> d)
  | Raise e, Raise e' => e = e'
  | _, _ => False
  end.

(** A store with the sample dynamic and static arrays and the sample
    settings {'input_k': [-2, -1], 'output_k': [0]}. *)
Definition sample_heap : Store.heap :=
  <[0%nat := Store.OArray sample_dynamic]>
  (<[1%nat := Store.OArray sample_static]>
  (<[2%nat := Store.ODict (<["input_k" := Store.VRef 3%nat]>
                          (<["output_k" := Store.VRef 4%nat]> ∅))]>
  (<[3%nat := Store.OList [Store.VInt (-2); Store.VInt (-1)]]>
  (<[4%nat := Store.OList [Store.VInt 0]]> ∅)))).

(** The dimension list of an optional array in the store: [None], or a list
    of names. *)
Definition dims_at (h : Store.heap) (v : Store.value) (dims : option (list string)) : Prop :=
  match dims with
  | None => v = Store.VNone
  | Some names => list_at h v ((λ s, Store.VAtom (LStr s)) <$> names)
  end.

(** Two calls have the same outcome: both raise the same exception, or both
    return a dictionary and the two dictionaries read as the same one. *)
Definition same_results (h : Store.heap) (r1 r2 : result Store.value) : Prop :=
  match r1, r2 with
  | Return v1, Return v2 => ∃ d, dict_reads h v1 d ∧ dict_reads h v2 d
  | Raise e1, Raise e2 => e1 = e2
  | _, _ => False
  end.

(** The variables of an optional array, on the store and as values. *)
Definition same_variables (h : Store.heap) (r : result (Store.value * Store.value))
    (p : result (option (list string) * list label)) : Prop :=
  match p, r with
  | Return (pdims, pvars), Return (dims, vars) =>
      dims_at h dims pdims ∧ list_at h vars (Store.VAtom <$> pvars)
  | Raise e, Raise e' => e = e'
  | _, _ => False
  end.
(** ** Indices of a subset of timesteps *)

(** What [_get_subset_timesteps_idxs] raises: an exception of the checks
    above, or a [ValueError] or a [Warning] built from a text and the list of
    the timesteps that were not found (the elements of the array given). *)
Inductive exception :=
  | Exn (e : exn)
  | ValueErrorWith (text : string) (timesteps : timesteps_array)
  | WarningWith (text : string) (timesteps : timesteps_array).

Inductive outcome (A : Type) :=
  | Returned (a : A)
  | Raised (e : exception).
Arguments Returned {A} a.
Arguments Raised {A} e.

(** [np.isin(element, test_elements, invert=invert)] on arrays of datetimes. *)
Definition np_isin_time (element test_elements : list Z) (invert : bool) : list bool :=
  (λ e, xorb invert (bool_decide (e ∈ test_elements))) <$> element.

(** [enumerate(a)] *)
Definition enumerate {A} (a : list A) : list (nat * A) := zip (seq 0 (length a)) a.

(** What numpy and Python do with arrays of objects is not modelled: the
    conversions between an array of objects and a datetime64 array, the
    membership of an object in a set and [np.isin] on objects are operations
    of an arbitrary [objects]. *)
Record objects := {
  (* [a.astype(dtype)] of an array of objects, for a datetime64 dtype *)
  astype_datetime64 : list pyelem → result (list Z);
  (* [a.astype(object)] of a datetime64 array *)
  astype_object : list Z → list pyelem;
  (* [v in set(a)] *)
  in_set : pyelem → list pyelem → bool;
  (* [np.isin(element, test_elements, invert=True)] *)
  isin_invert : list pyelem → list pyelem → list bool
}.

(** The elements of an array, as iterating over it gives them. *)
Definition elements (a : timesteps_array) : list pyelem :=
  match a with
  | ArrDatetime64 l => EDatetime64 <$> l
  | ArrObject l => l
  end.

Section subset.

Variable np_datetime64 : string → result Z.

(** [astype(timesteps.dtype)] on one element of a datetime64 array: the
    count of a datetime of [subset_timesteps] in the precision of
    [timesteps]. *)
Variable astype : Z → Z.

Variable obj : objects.

(** [subset_timesteps.astype(timesteps.dtype)] *)
Definition astype_as (subset_timesteps timesteps : timesteps_array) : result timesteps_array :=
  match timesteps, subset_timesteps with
  | ArrDatetime64 _, ArrDatetime64 subset => Return (ArrDatetime64 (astype <$> subset))
  | ArrDatetime64 _, ArrObject subset =>
      subset ← astype_datetime64 obj subset; Return (ArrDatetime64 subset)
  | ArrObject _, ArrDatetime64 subset => Return (ArrObject (astype_object obj subset))
  | ArrObject _, ArrObject subset => Return (ArrObject subset)
  end.

(** [[idx for idx, v in enumerate(timesteps) if v in set(subset_timesteps)]]:
    two [np.datetime64] of one precision are equal when their counts are. *)
Definition matching_idxs (timesteps subset_timesteps : timesteps_array) : list nat :=
  match timesteps, subset_timesteps with
  | ArrDatetime64 timesteps, ArrDatetime64 subset_timesteps =>
      (filter (λ iv, iv.2 ∈ subset_timesteps) (enumerate timesteps)).*1
  | _, _ =>
      (filter (λ iv, in_set obj iv.2 (elements subset_timesteps) = true)
         (enumerate (elements timesteps))).*1
  end.

(** [subset_timesteps[np.isin(subset_timesteps, timesteps, invert=True)]] *)
Definition not_in (subset_timesteps timesteps : timesteps_array) : timesteps_array :=
  match subset_timesteps, timesteps with
  | ArrDatetime64 subset_timesteps, ArrDatetime64 timesteps =>
      ArrDatetime64 (np_mask subset_timesteps (np_isin_time subset_timesteps timesteps true))
  | ArrDatetime64 subset_timesteps, _ =>
      ArrDatetime64 (np_mask subset_timesteps
                       (isin_invert obj (EDatetime64 <$> subset_timesteps) (elements timesteps)))
  | ArrObject subset_timesteps, _ =>
      ArrObject (np_mask subset_timesteps (isin_invert obj subset_timesteps (elements timesteps)))
  end.

Definition _get_subset_timesteps_idxs (timesteps subset_timesteps : timesteps_obj)
    (strict_match : bool) : outcome (list nat) :=
  match _check_timesteps np_datetime64 subset_timesteps with
  | Raise e => Raised (Exn e)
  | Return subset_timesteps =>
      match _check_timesteps np_datetime64 timesteps with
      | Raise e => Raised (Exn e)
      | Return timesteps =>
          (* same precision required for comparison *)
          match astype_as subset_timesteps timesteps with
          | Raise e => Raised (Exn e)
          | Return subset_timesteps =>
              let subset_idxs := matching_idxs timesteps subset_timesteps in
              if decide (length subset_idxs = 0%nat) then
                Raised (Exn (ValueError
                  (Msg "The 'subset_timesteps' are not within the available 'timesteps'.")))
              else if decide (length subset_idxs ≠ arr_size subset_timesteps) then
                let timesteps_not_in := not_in subset_timesteps timesteps in
                if strict_match then
                  Raised (ValueErrorWith
                    "The following 'subset_timesteps' are not within 'timesteps':"
                    timesteps_not_in)
                else
                  Raised (WarningWith
                    "The following 'subset_timesteps' are not within 'timesteps':"
                    timesteps_not_in)
              else Returned subset_idxs
          end
      end
  end.

End subset.

(** ** Vocabulary of the further statements *)

(** [d] is the timedelta64 between two consecutive timesteps of a datetime64
    array: their difference as an int64. *)
Definition consecutive_timedelta (timesteps : list Z) (d : Z) : Prop :=
  ∃ i a b, timesteps !! i = Some a ∧ timesteps !! S i = Some b ∧ d = int64 (b - a).

(** The consecutive timedelta64 take two or more distinct values. *)
Definition has_gaps64 (timesteps : list Z) : Prop :=
  ∃ d1 d2, consecutive_timedelta timesteps d1 ∧ consecutive_timedelta timesteps d2 ∧ d1 ≠ d2.

(** Every difference of two consecutive timesteps fits in an int64. *)
Definition fits_int64 (timesteps : list Z) : Prop :=
  ∀ d, consecutive_difference timesteps d →
       -9223372036854775808 ≤ d < 9223372036854775808.

(** The timesteps of a datetime64 array are one timedelta64 apart. *)
Definition steady (timesteps : list Z) : Prop :=
  ∃ step, ∀ d, consecutive_timedelta timesteps d → d = step.

(** The timesteps are a constant step apart: an arithmetic progression, of
    any step (positive, zero or negative). *)
Definition arithmetic (timesteps : list Z) : Prop :=
  ∃ t0 step, ∀ i t, timesteps !! i = Some t → t = t0 + Z.of_nat i * step.

(** The time index of an array is regular: an array of datetimes, not empty
    and with one timedelta64 between consecutive timesteps. *)
Definition regular_time (coords : list (string * ndarray)) : Prop :=
  ∃ ts, coord_values coords "time" = Return (NdTime ts) ∧ ts ≠ [] ∧ steady ts.

(** What [np.all(a == b)] accepts on two time axes: the same axis, or one
    axis of a single timestep and the other made of that timestep only. *)
Definition aligned (a b : list Z) : Prop :=
  a = b ∨ (∃ t, a = [t] ∧ ∀ x, x ∈ b → x = t) ∨ (∃ t, b = [t] ∧ ∀ x, x ∈ a → x = t).

(** The timesteps at the given positions. *)
Definition timesteps_at (ts : list Z) (idxs : list nat) : list Z :=
  (λ i, ts !!! i) <$> idxs.

(** The strict and the lenient call agree: the same indices, the same
    exception of the checks, or a [ValueError] for the one and a [Warning]
    with the same content for the other. *)
Definition strict_as_lenient (strict lenient : outcome (list nat)) : Prop :=
  match strict, lenient with
  | Returned a, Returned b => a = b
  | Raised (Exn e), Raised (Exn e') => e = e'
  | Raised (ValueErrorWith text missing), Raised (WarningWith text' missing') =>
      text = text' ∧ missing = missing'
  | _, _ => False
  end.

(** An optional Dataset as the Python argument: [None] when absent. *)
Definition optional_dataset (o : option Dataset) : pyobj :=
  match o with
  | Some ds => PyDataset ds
  | None => PyNone
  end.

(** Every required name is a dimension of the Dataset. *)
Definition ds_has_dims (required : list string) (ds : Dataset) : Prop :=
  ∀ r, r ∈ required → r ∈ ds_dims ds.

(** An argument of [check_AR_DataArrays] as it is after a normal return:
    [None], or a DataArray with the required dimensions and, when 'time' is
    one of them, a time index of datetimes one timedelta64 apart. *)
Definition checked_array (required : list string) (o : pyobj) : Prop :=
  o = PyNone ∨
  ∃ da, o = PyDataArray da ∧ has_dims required da ∧
        ("time" ∈ required → regular_time (da_coords da)).

(** The same for an argument of [check_AR_Datasets]. *)
Definition checked_dataset (required : list string) (o : pyobj) : Prop :=
  o = PyNone ∨
  ∃ ds, o = PyDataset ds ∧ ds_has_dims required ds ∧
        ("time" ∈ required → regular_time (ds_coords ds)).

(** The timesteps of the time index of an argument (none if it has no such
    index). *)
Definition time_axis (o : pyobj) : list Z :=
  match o with
  | PyDataArray da =>
      match coord_values (da_coords da) "time" with
      | Return (NdTime ts) => ts
      | _ => []
      end
  | PyDataset ds =>
      match coord_values (ds_coords ds) "time" with
      | Return (NdTime ts) => ts
      | _ => []
      end
  | _ => []
  end.

(** A dynamic or bc DataArray as the checks want it: with the dimensions
    'time', 'node' and 'feature' and a regular time index. *)
Definition ready (da : DataArray) : Prop :=
  has_dims ["time"; "node"; "feature"] da ∧ regular_time (da_coords da).

(** A dynamic array with a dimension of pressure levels. *)
Definition sample_levels : DataArray :=
  {| da_coords := [("time", NdTime [0; 6; 12]); ("level", NdInt [500; 850]);
                   ("node", NdInt [0; 1; 2; 3]); ("feature", NdStr ["t"; "z"])] |}.

(** The sizes of a tensor along the dimensions [dims], in their order. *)
Definition shape_along (node time feature : Z) (dims : list string) (shape : list Z) : Prop :=
  Forall2 (λ k z, size_along node time feature k = Some z) dims shape.

(** A dynamic or bc Dataset as the checks want it: with the dimensions 'time'
    and 'node' and a regular time index. *)
Definition ready_dataset (ds : Dataset) : Prop :=
  ds_has_dims ["time"; "node"] ds ∧ regular_time (ds_coords ds).

(** The timestep at position [i] of [timesteps] is one of
    [subset_timesteps], as [_get_subset_timesteps_idxs] tests it. *)
Definition selected (obj : objects) (timesteps subset_timesteps : timesteps_array) (i : nat)
    : Prop :=
  match timesteps, subset_timesteps with
  | ArrDatetime64 ts, ArrDatetime64 subset => ∃ v, ts !! i = Some v ∧ v ∈ subset
  | _, _ =>
      ∃ v, elements timesteps !! i = Some v ∧
           in_set obj v (elements subset_timesteps) = true
  end.

#[global] Instance pyelem_eq_dec : EqDecision pyelem.
Proof. solve_decision. Defined.

(** Objects that are equal when they are of one kind and have one count, and
    a conversion that keeps the counts. *)
Definition sample_objects : objects :=
  {| astype_datetime64 :=
       mapM (λ v, match v with
                  | EDatetime t | EDatetime64 t => Return t
                  | EOther => Raise (TypeError (Msg "Could not convert object to NumPy datetime"))
                  end);
     astype_object := fmap EDatetime;
     in_set := λ v a, bool_decide (v ∈ a);
     isin_invert := λ element test_elements,
       (λ e, negb (bool_decide (e ∈ test_elements))) <$> element |}.

(** ** Vocabulary of the statements on the script *)

(** The names the script reads without binding them. *)
Definition free_names : list string :=
  ["xr"; "os"; "deterministic"; "global_summary"; "latitudinal_summary";
   "longitudinal_summary"; "plot_skill_maps"; "figs_dir"].

(** Every operation of the library returns. *)
Definition total (lib : Tutorial.library) : Prop :=
  (∀ m, is_Return (Tutorial.import_module lib m)) ∧
  (∀ o a, is_Return (Tutorial.getattr lib o a)) ∧
  (∀ f ps ks, is_Return (Tutorial.call lib f ps ks)) ∧
  (∀ o k, is_Return (Tutorial.subscript lib o k)) ∧
  (∀ a b, is_Return (Tutorial.add lib a b)).

(** The names of [names] are bound. *)
Definition bound (names : list string) (g : gmap string Tutorial.pyvalue) : Prop :=
  ∀ x, x ∈ names → is_Some (g !! x).

(** With the name [x] unbound, the computation does not return. *)
Definition fails_without {A} (x : string) (c : Tutorial.M A) : Prop :=
  ∀ g, g !! x = None → ¬ is_Return (c g).

(** The computation does not bind the name [x]. *)
Definition keeps_unbound {A} (x : string) (c : Tutorial.M A) : Prop :=
  ∀ g a g', g !! x = None → c g = Return (a, g') → g' !! x = None.

(** With the names of [names] bound, the expression has a value and binds
    nothing. *)
Definition evaluates (names : list string) (e : Tutorial.M Tutorial.pyvalue) : Prop :=
  ∀ g, bound names g → ∃ v, e g = Return (v, g).

(** With the names of [names] bound, the statement completes, and the names
    of [names'] are bound after it. *)
Definition runs_to (names : list string) (c : Tutorial.M unit) (names' : list string) : Prop :=
  ∀ g, bound names g → ∃ g', c g = Return (tt, g') ∧ bound names' g'.

(** With the names of [names] bound, the statements complete. *)
Definition completes (names : list string) (c : Tutorial.M unit) : Prop :=
  ∀ g, bound names g → is_Return (c g).

(** A library whose operations return an object, always the same. *)
Definition sample_library : Tutorial.library :=
  {| Tutorial.import_module := λ _, Return (Tutorial.PForeign 0);
     Tutorial.getattr := λ _ _, Return (Tutorial.PForeign 0);
     Tutorial.call := λ _ _ _, Return (Tutorial.PForeign 0);
     Tutorial.subscript := λ _ _, Return (Tutorial.PForeign 0);
     Tutorial.add := λ _ _, Return (Tutorial.PForeign 0) |}.

(** The global names of a session that has bound the names the script reads. *)
Definition sample_globals : gmap string Tutorial.pyvalue :=
  list_to_map ((λ x, (x, Tutorial.PForeign 1)) <$> free_names).

(** * Properties *)

Lemma bind_Return {A B} (c : result A) (k : A → result B) b :
  c ≫= k = Return b ↔ ∃ a, c = Return a ∧ k a = Return b.
Proof.
  destruct c as [a|e]; simpl; split.
  - intros H. by exists a.
  - by intros (a' & [= <-] & H).
  - intros [=].
  - by intros (a' & [=] & _).
Qed.

Lemma raise_if_Return cond e : raise_if cond e = Return tt ↔ cond = false.
Proof. destruct cond; simpl; split; congruence. Qed.

Lemma raise_if_Raise cond e e' : raise_if cond e = Raise e' ↔ cond = true ∧ e' = e.
Proof. destruct cond; simpl; split; try intros [? ?]; try congruence. intros [= ->]. done. Qed.

Lemma np_mask_isin_invert (required dims : list string) :
  np_mask required (np_isin required dims true) = filter (λ r, r ∉ dims) required.
Proof.
  induction required as [|r required IH]; [done|].
  cbn [np_isin fmap list_fmap np_mask]. fold (np_isin required dims true).
  rewrite filter_cons. rewrite IH.
  destruct (decide (r ∈ dims)) as [Hin|Hin].
  - rewrite bool_decide_eq_true_2 by done. simpl.
    by rewrite decide_False by (intros ?; contradiction).
  - rewrite bool_decide_eq_false_2 by done. simpl.
    by rewrite decide_True by done.
Qed.

Lemma missing_dims_nil (required dims : list string) :
  np_mask required (np_isin required dims true) = [] ↔ ∀ r, r ∈ required → r ∈ dims.
Proof.
  rewrite np_mask_isin_invert. split.
  - intros Hnil r Hr. destruct (decide (r ∈ dims)) as [|Hn]; [done|].
    assert (r ∈ filter (λ r, r ∉ dims) required) as Hf by (by apply list_elem_of_filter).
    rewrite Hnil in Hf. by apply elem_of_nil in Hf.
  - intros Hall. apply elem_of_nil_inv. intros r [Hn Hr]%list_elem_of_filter.
    by apply Hn, Hall.
Qed.

Lemma check_dimnames_DataArray_Return da required name :
  check_dimnames_DataArray (PyDataArray da) required name = Return tt ↔ has_dims required da.
Proof.
  unfold check_dimnames_DataArray, has_dims. rewrite raise_if_Return, bool_decide_eq_false.
  rewrite <- missing_dims_nil.
  destruct (np_mask _ _); simpl; split; try done; try lia.
Qed.

Lemma check_dimnames_DataArray_cases da required name :
  check_dimnames_DataArray (PyDataArray da) required name = Return tt ∨
  is_ValueError (check_dimnames_DataArray (PyDataArray da) required name).
Proof.
  unfold check_dimnames_DataArray, raise_if, is_ValueError.
  case_bool_decide; eauto.
Qed.

Lemma coord_values_Return cs name :
  name ∈ cs.*1 ↔ is_Return (coord_values cs name).
Proof.
  unfold is_Return. induction cs as [|[d a] cs IH]; simpl.
  - split; [by intros ?%elem_of_nil | by intros [? [=]]].
  - rewrite elem_of_cons. destruct (decide (d = name)) as [->|Hne].
    + split; eauto.
    + rewrite <- IH. split; [intros [?|?]; [congruence|done] | eauto].
Qed.

(** Membership in a list given by its elements. *)
Ltac in_list := repeat first [apply list_elem_of_here | apply list_elem_of_further].

Lemma coord_values_index_of da name :
  name ∈ da_dims da → coord_values (da_coords da) name = Return (index_of name da).
Proof.
  intros [a Ha]%coord_values_Return. unfold index_of. by rewrite Ha.
Qed.

Lemma optional_variables_Some da required name :
  has_dims required da → "feature" ∈ required →
  optional_variables (PyDataArray da) required name = Return (Some (da_dims da), variables da).
Proof.
  intros Hdims Hf. unfold optional_variables. simpl is_None. cbv iota.
  apply check_dimnames_DataArray_Return with (name := name) in Hdims as Hck.
  rewrite Hck. change (Return tt ≫= ?k) with (k tt). cbv beta.
  simpl da_of. change (Return da ≫= ?k) with (k da). cbv beta zeta.
  unfold variable_dim, variables.
  rewrite (coord_values_index_of da "feature") by (by apply Hdims). done.
Qed.

Lemma get_AR_model_diminfo_unfold dyn static bc AR_settings :
  has_dims ["time"; "node"; "feature"] dyn →
  (∀ s, static = Some s → has_dims ["node"; "feature"] s) →
  (∀ b, bc = Some b → has_dims ["time"; "node"; "feature"] b ∧ da_dims b = da_dims dyn) →
  get_AR_model_diminfo (PyDataArray dyn) (optional static) (optional bc) AR_settings =
    let input_feature_dim :=
      Z.of_nat (length (optional_vars static)) + Z.of_nat (length (optional_vars bc))
      + Z.of_nat (length (variables dyn)) in
    let output_feature_dim := Z.of_nat (length (variables dyn)) in
    let input_features := optional_vars static ++ optional_vars bc ++ variables dyn in
    let dim_order := "sample" :: da_dims dyn in
    match AR_settings with
    | Some AR_settings =>
        input_time_dim ← len_setting AR_settings "input_k";
        output_time_dim ← len_setting AR_settings "output_k";
        let dim_input : gmap string Z :=
          <["feature" := input_feature_dim]>
            (<["time" := input_time_dim]> (<["node" := n_nodes dyn]> ∅)) in
        input_shape ← mapM (getitem dim_input) (da_dims dyn);
        output_shape ← mapM (getitem dim_input) (da_dims dyn);
        Return (<["input_feature_dim" := DInt input_feature_dim]>
               (<["output_feature_dim" := DInt output_feature_dim]>
               (<["input_features" := DLabels input_features]>
               (<["output_features" := DLabels (variables dyn)]>
               (<["input_time_dim" := DInt input_time_dim]>
               (<["output_time_dim" := DInt output_time_dim]>
               (<["input_node_dim" := DInt (n_nodes dyn)]>
               (<["output_node_dim" := DInt (n_nodes dyn)]>
               (<["dim_order" := DNames dim_order]>
               (<["input_shape" := DShape input_shape]>
               (<["output_shape" := DShape output_shape]> ∅)))))))))))
    | None =>
        Return (<["input_feature_dim" := DInt input_feature_dim]>
               (<["output_feature_dim" := DInt output_feature_dim]>
               (<["input_features" := DLabels input_features]>
               (<["output_features" := DLabels (variables dyn)]>
               (<["input_node_dim" := DInt (n_nodes dyn)]>
               (<["output_node_dim" := DInt (n_nodes dyn)]>
               (<["dim_order" := DNames dim_order]> ∅)))))))
    end.
Proof.
  intros Hdyn Hstatic Hbcs. unfold get_AR_model_diminfo.
  simpl isinstance_DataArray. simpl negb. simpl raise_if.
  apply check_dimnames_DataArray_Return with (name := "dynamic DataArray") in Hdyn as Hck.
  unfold time_dim, node_dim, variable_dim in *. 
  change (Return tt ≫= ?k) with (k tt). cbv beta.
  rewrite Hck. change (Return tt ≫= ?k) with (k tt). cbv beta.
  simpl da_of. change (Return dyn ≫= ?k) with (k dyn). cbv beta.
  assert (coord_values (da_coords dyn) "feature" = Return (index_of "feature" dyn)) as ->.
  { apply coord_values_index_of. apply Hdyn. in_list. }
  assert (coord_values (da_coords dyn) "node" = Return (index_of "node" dyn)) as Hnode.
  { apply coord_values_index_of. apply Hdyn. in_list. }
  change (Return ?a ≫= ?k) with (k a). cbv beta zeta.
  assert (optional_variables (optional static) ["node"; "feature"] "static DataArray"
          = Return (from_option (λ s, Some (da_dims s)) None static, optional_vars static)) as ->.
  { destruct static as [s|]; [|done]. simpl.
    apply optional_variables_Some; [by apply Hstatic | in_list]. }
  change (Return ?a ≫= ?k) with (k a). cbv beta zeta iota.
  assert (optional_variables (optional bc) ["time"; "node"; "feature"] "bc DataArray"
          = Return (from_option (λ s, Some (da_dims s)) None bc, optional_vars bc)) as ->.
  { destruct bc as [b|]; [|done]. simpl.
    apply optional_variables_Some; [by apply Hbcs | in_list]. }
  change (Return ?a ≫= ?k) with (k a). cbv beta zeta iota.
  assert (match from_option (λ s, Some (da_dims s)) None bc with
          | Some dims_bc =>
              raise_if (negb (bool_decide (da_dims dyn = dims_bc)))
                (ValueError (Msg "Dimension order of dynamic and bc DataArrays must be equal."))
          | None => Return tt
          end = Return tt) as ->.
  { destruct bc as [b|]; [|done]. simpl. destruct (Hbcs b eq_refl) as [_ ->].
    by rewrite bool_decide_eq_true_2. }
  change (Return ?a ≫= ?k) with (k a). cbv beta.
  rewrite Hnode.
  change (Return ?a ≫= ?k) with (k a). cbv beta.
  reflexivity.
Qed.

(** C1. For a dynamic DataArray with the dimensions 'time', 'node' and
    'feature', an optional static DataArray with 'node' and 'feature' and an
    optional bc DataArray with the three dimensions in the order of the
    dynamic one, [get_AR_model_diminfo] called without [AR_settings] returns
    a dictionary, and every dictionary it returns (with or without
    [AR_settings]) has: [input_features] the static, then the bc, then the
    dynamic variables; [input_feature_dim] the sum of the three counts;
    [output_features] and [output_feature_dim] the dynamic variables and
    their number; both node entries the length of the 'node' index; and
    [dim_order] 'sample' followed by the dimensions of the dynamic array.  An
    absent array contributes no variable. *)
Theorem get_AR_model_diminfo_features
    (dyn : DataArray) (static bc : option DataArray) :
  has_dims ["time"; "node"; "feature"] dyn →
  (∀ s, static = Some s → has_dims ["node"; "feature"] s) →
  (∀ b, bc = Some b → has_dims ["time"; "node"; "feature"] b ∧ da_dims b = da_dims dyn) →
  is_Return (get_AR_model_diminfo (PyDataArray dyn) (optional static) (optional bc) None) ∧
  (∀ AR_settings d,
     get_AR_model_diminfo (PyDataArray dyn) (optional static) (optional bc) AR_settings
       = Return d →
     diminfo_features dyn static bc d) ∧
  optional_vars None = [].
Proof.
  intros Hdyn Hst Hbcs. split; [|split; [|done]].
  - rewrite get_AR_model_diminfo_unfold by done. by eexists.
  - intros AR_settings d. rewrite get_AR_model_diminfo_unfold by done. cbv zeta.
    destruct AR_settings as [ar|].
    + intros (input_time_dim & _ & (output_time_dim & _ & (input_shape & _ &
        (output_shape & _ & [= <-])%bind_Return)%bind_Return)%bind_Return)%bind_Return.
      unfold diminfo_features. by repeat split.
    + intros [= <-]. unfold diminfo_features. by repeat split.
Qed.

Lemma has_dims_forallb required da :
  forallb (λ r, bool_decide (r ∈ da_dims da)) required = true → has_dims required da.
Proof.
  intros H r Hr. rewrite forallb_forall in H.
  apply list_elem_of_In in Hr. by apply H, bool_decide_eq_true in Hr.
Qed.

Lemma get_AR_model_diminfo_features_witness :
  is_Return (get_AR_model_diminfo (PyDataArray sample_dynamic)
               (optional (Some sample_static)) (optional None) None) ∧
  (∀ AR_settings d,
     get_AR_model_diminfo (PyDataArray sample_dynamic)
       (optional (Some sample_static)) (optional None) AR_settings = Return d →
     diminfo_features sample_dynamic (Some sample_static) None d) ∧
  optional_vars None = [].
Proof.
  apply (get_AR_model_diminfo_features sample_dynamic (Some sample_static) None).
  - apply has_dims_forallb. reflexivity.
  - intros s [= <-]. apply has_dims_forallb. reflexivity.
  - intros b [=].
Defined.

Lemma mapM_getitem_Return (dim_input : gmap string Z) (dims : list string) shape :
  mapM (getitem dim_input) dims = Return shape ↔
  Forall2 (λ k z, dim_input !! k = Some z) dims shape.
Proof.
  revert shape. induction dims as [|k dims IH]; intros shape; simpl.
  - split; [intros [= <-]; constructor | by intros ->%Forall2_nil_inv_l].
  - rewrite bind_Return. split.
    + intros (z & Hz & (zs & Hzs & [= <-])%bind_Return).
      constructor; [|by apply IH].
      unfold getitem in Hz. by destruct (dim_input !! k); simplify_eq.
    + intros (z & zs & Hz & Hzs & ->)%Forall2_cons_inv_l.
      exists z. unfold getitem. rewrite Hz. split; [done|].
      apply bind_Return. exists zs. split; [by apply IH|done].
Qed.

Lemma lookup_dim_input (node time feature : Z) (k : string) :
  (<["feature" := feature]> (<["time" := time]> (<["node" := node]> (∅ : gmap string Z)))) !! k
  = size_along node time feature k.
Proof.
  unfold size_along.
  destruct (decide (k = "node")) as [->|?]; [done|].
  destruct (decide (k = "time")) as [->|?]; [done|].
  destruct (decide (k = "feature")) as [->|?]; [done|].
  by rewrite !lookup_insert_ne.
Qed.

Lemma len_setting_Return AR_settings key n :
  len_setting AR_settings key = Return n ↔
  ∃ l, AR_settings !! key = Some (SList l) ∧ n = Z.of_nat (length l).
Proof.
  unfold len_setting. destruct (AR_settings !! key) as [[l|z]|]; split.
  - intros [= <-]. eauto.
  - intros (l' & [= <-] & ->). done.
  - intros [=].
  - intros (l' & [=] & _).
  - intros [=].
  - intros (l' & [=] & _).
Qed.

(** What [get_AR_model_diminfo] computes from [AR_settings]: the time sizes
    are the lengths of 'input_k' and 'output_k', [input_shape] lists the input
    sizes along the dimensions of the dynamic array, and [output_shape] is
    read from the same table as [input_shape]. *)
Lemma get_AR_model_diminfo_shapes
    (dyn : DataArray) (static bc : option DataArray) (AR_settings : gmap string setting) d :
  has_dims ["time"; "node"; "feature"] dyn →
  (∀ s, static = Some s → has_dims ["node"; "feature"] s) →
  (∀ b, bc = Some b → has_dims ["time"; "node"; "feature"] b ∧ da_dims b = da_dims dyn) →
  get_AR_model_diminfo (PyDataArray dyn) (optional static) (optional bc) (Some AR_settings)
    = Return d →
  ∃ input_k output_k shape,
    AR_settings !! "input_k" = Some (SList input_k) ∧
    AR_settings !! "output_k" = Some (SList output_k) ∧
    d !! "input_time_dim" = Some (DInt (Z.of_nat (length input_k))) ∧
    d !! "output_time_dim" = Some (DInt (Z.of_nat (length output_k))) ∧
    d !! "input_shape" = Some (DShape shape) ∧
    d !! "output_shape" = Some (DShape shape) ∧
    Forall2 (λ k z,
        size_along (n_nodes dyn) (Z.of_nat (length input_k))
          (Z.of_nat (length (optional_vars static)) + Z.of_nat (length (optional_vars bc))
           + Z.of_nat (length (variables dyn))) k = Some z)
      (da_dims dyn) shape.
Proof.
  intros Hdyn Hst Hbcs. rewrite get_AR_model_diminfo_unfold by done. cbv zeta.
  intros (input_time_dim & (input_k & Hin & ->)%len_setting_Return &
          (output_time_dim & (output_k & Hout & ->)%len_setting_Return &
           (input_shape & Hshape & (output_shape & Hshape' & [= <-])%bind_Return)
             %bind_Return)%bind_Return)%bind_Return.
  rewrite Hshape in Hshape'. injection Hshape' as <-.
  exists input_k, output_k, input_shape. repeat split; try done.
  apply mapM_getitem_Return in Hshape.
  eapply Forall2_impl; [exact Hshape|]. intros k z Hk. cbv beta in Hk |- *.
  by rewrite lookup_dim_input in Hk.
Qed.

(** C2 (evaluation on the sample arrays, with a static array and settings
    {'input_k': [-2, -1], 'output_k': [0]}).  The output sizes are 4 nodes,
    1 time step and 2 features, so in the order (time, node, feature) of
    [dim_order[1:]] the output shape is (1, 4, 2); the dictionary returned has
    [output_shape] = (2, 4, 3), the input shape: line 380 indexes [dim_input]
    where [dim_output] was built for it. *)
Theorem get_AR_model_diminfo_output_shape_sample :
  get_AR_model_diminfo (PyDataArray sample_dynamic) (PyDataArray sample_static)
    PyNone (Some sample_settings) = Return sample_diminfo ∧
  sample_diminfo !! "dim_order" = Some (DNames ["sample"; "time"; "node"; "feature"]) ∧
  sample_diminfo !! "output_time_dim" = Some (DInt 1) ∧
  sample_diminfo !! "output_node_dim" = Some (DInt 4) ∧
  sample_diminfo !! "output_feature_dim" = Some (DInt 2) ∧
  sample_diminfo !! "input_shape" = Some (DShape [2; 4; 3]) ∧
  sample_diminfo !! "output_shape" = Some (DShape [2; 4; 3]) ∧
  sample_diminfo !! "output_shape" ≠ Some (DShape [1; 4; 2]).
Proof.
  repeat split; try (vm_compute; reflexivity). vm_compute. intros [=].
Qed.

Lemma check_dimnames_DataArray_ValueError da required name :
  is_ValueError (check_dimnames_DataArray (PyDataArray da) required name) ↔
  ∃ r, r ∈ required ∧ r ∉ da_dims da.
Proof.
  split.
  - intros [m Hm]. destruct (decide (Forall (λ r, r ∈ da_dims da) required)) as [Hall|Hex].
    + rewrite Forall_forall in Hall.
      apply (check_dimnames_DataArray_Return da required name) in Hall. congruence.
    + apply not_Forall_Exists in Hex; [|apply _].
      apply Exists_exists in Hex as (r & Hr & Hn). eauto.
  - intros (r & Hr & Hn).
    destruct (check_dimnames_DataArray_cases da required name) as [Hok|Herr]; [|done].
    apply check_dimnames_DataArray_Return in Hok. exfalso. by apply Hn, Hok.
Qed.

Lemma unless_None_optional (o : option DataArray) required name :
  unless_None (optional o) (check_dimnames_DataArray (optional o) required name) = Return tt ↔
  ∀ da, o = Some da → has_dims required da.
Proof.
  destruct o as [da|].
  - unfold unless_None, optional, is_None. rewrite check_dimnames_DataArray_Return.
    split; [by intros H ? [= <-] | eauto].
  - split; [by intros _ ? [=] | done].
Qed.

Lemma bind_unit_Return (c k : result unit) :
  (c ;; k) = Return tt ↔ c = Return tt ∧ k = Return tt.
Proof.
  rewrite bind_Return. split.
  - by intros ([] & ? & ?).
  - intros [? ?]. by exists tt.
Qed.

Lemma _check_AR_DataArray_dimnames_Return (dyn bc static : option DataArray) :
  _check_AR_DataArray_dimnames (optional dyn) (optional bc) (optional static) = Return tt ↔
  (∀ d, dyn = Some d → has_dims ["time"; "node"; "feature"] d) ∧
  (∀ b, bc = Some b → has_dims ["time"; "node"; "feature"] b) ∧
  (∀ s, static = Some s → has_dims ["node"; "feature"] s).
Proof.
  unfold _check_AR_DataArray_dimnames, time_dim, node_dim, variable_dim.
  rewrite !bind_unit_Return, !unless_None_optional. tauto.
Qed.

(** C6. On a DataArray, [check_dimnames_DataArray] raises ValueError exactly
    when a required name is not a dimension of the array, and returns
    otherwise.  So [_check_AR_DataArray_dimnames] passes exactly when the
    dynamic and the bc array (if given) have 'time', 'node' and 'feature' and
    the static array (if given) has 'node' and 'feature': a static array
    without a 'time' dimension passes. *)
Theorem check_dimnames_DataArray_required
    (da : DataArray) (required_dimnames : list string) (da_name : string) :
  (is_ValueError (check_dimnames_DataArray (PyDataArray da) required_dimnames da_name) ↔
     ∃ r, r ∈ required_dimnames ∧ r ∉ da_dims da) ∧
  (check_dimnames_DataArray (PyDataArray da) required_dimnames da_name = Return tt ↔
     ∀ r, r ∈ required_dimnames → r ∈ da_dims da) ∧
  (∀ dyn bc static : option DataArray,
     _check_AR_DataArray_dimnames (optional dyn) (optional bc) (optional static) = Return tt ↔
     (∀ d, dyn = Some d → has_dims ["time"; "node"; "feature"] d) ∧
     (∀ b, bc = Some b → has_dims ["time"; "node"; "feature"] b) ∧
     (∀ s, static = Some s → has_dims ["node"; "feature"] s)) ∧
  (("time" ∉ da_dims sample_static) ∧
   _check_AR_DataArray_dimnames PyNone PyNone (PyDataArray sample_static) = Return tt ∧
   is_ValueError (_check_AR_DataArray_dimnames (PyDataArray sample_static) PyNone PyNone) ∧
   is_ValueError (_check_AR_DataArray_dimnames PyNone (PyDataArray sample_static) PyNone)).
Proof.
  split; [apply check_dimnames_DataArray_ValueError|].
  split; [apply check_dimnames_DataArray_Return|].
  split; [apply _check_AR_DataArray_dimnames_Return|].
  split; [|split; [reflexivity|split; eexists; reflexivity]].
  intros H. by repeat (apply elem_of_cons in H as [[=]|H]); apply elem_of_nil in H.
Qed.

(** *** Sorted distinct values *)

Lemma unique_insert_keys x u k :
  k ∈ (unique_insert x u).*1 ↔ k = x ∨ k ∈ u.*1.
Proof.
  induction u as [|[y c] u IH]; simpl.
  - rewrite elem_of_cons, elem_of_nil. tauto.
  - destruct (decide (x = y)) as [->|Hxy]; [|destruct (decide (x < y))]; simpl.
    + rewrite !elem_of_cons. tauto.
    + rewrite !elem_of_cons. tauto.
    + rewrite !elem_of_cons, IH. tauto.
Qed.

Lemma unique_insert_sorted x u :
  StronglySorted Z.lt u.*1 → StronglySorted Z.lt (unique_insert x u).*1.
Proof.
  induction u as [|[y c] u IH]; simpl; intros Hs.
  - repeat constructor.
  - apply StronglySorted_inv in Hs as [Hs Hy]. simpl in *.
    destruct (decide (x = y)) as [->|Hxy]; [|destruct (decide (x < y))]; simpl.
    + by constructor.
    + constructor; [by constructor|].
      constructor; [done|]. eapply Forall_impl; [exact Hy|]. intros; simpl in *; lia.
    + constructor; [by apply IH|].
      apply Forall_forall. intros k [->|Hk]%unique_insert_keys; [lia|].
      rewrite Forall_forall in Hy. by apply Hy.
Qed.

Lemma np_unique_keys a k : k ∈ (np_unique a).1 ↔ k ∈ a.
Proof.
  unfold np_unique. simpl. induction a as [|x a IH]; simpl.
  - done.
  - rewrite unique_insert_keys, elem_of_cons, IH. tauto.
Qed.

Lemma np_unique_sorted a : StronglySorted Z.lt (np_unique a).1.
Proof.
  unfold np_unique. simpl. induction a as [|x a IH]; simpl.
  - constructor.
  - by apply unique_insert_sorted.
Qed.

Lemma np_unique_length a : length (np_unique a).2 = length (np_unique a).1.
Proof. unfold np_unique. simpl. by rewrite !length_fmap. Qed.

(** More than one distinct value is found exactly when two elements differ. *)
Lemma np_unique_counts_gt_1 a :
  (1 < length (np_unique a).2)%nat ↔ ∃ x y, x ∈ a ∧ y ∈ a ∧ x ≠ y.
Proof.
  rewrite np_unique_length.
  pose proof (np_unique_sorted a) as Hs. pose proof (np_unique_keys a) as Hk.
  destruct (np_unique a).1 as [|k1 [|k2 ks]]; simpl in *.
  - split; [lia|]. intros (x & _ & Hx & _). by apply Hk, elem_of_nil in Hx.
  - split; [lia|]. intros (x & y & Hx & Hy & Hne).
    apply Hk, list_elem_of_singleton in Hx. apply Hk, list_elem_of_singleton in Hy. congruence.
  - split; [intros _|lia]. exists k1, k2.
    apply StronglySorted_inv in Hs as [_ Hlt]. apply Forall_cons in Hlt as [Hlt _].
    split; [apply Hk; in_list|]. split; [apply Hk; in_list|]. lia.
Qed.

(** *** Consecutive differences *)

Lemma int64_fits z :
  -9223372036854775808 ≤ z < 9223372036854775808 → int64 z = z.
Proof. intros Hz. unfold int64. rewrite Z.mod_small by lia. lia. Qed.

Lemma np_diff_consecutive timesteps d :
  d ∈ np_diff timesteps ↔ consecutive_timedelta timesteps d.
Proof.
  unfold consecutive_timedelta.
  induction timesteps as [|x [|y ts] IH].
  - simpl. split; [by intros ?%elem_of_nil | by intros (i & a & b & [=] & _)].
  - simpl. split; [by intros ?%elem_of_nil|].
    intros (i & a & b & _ & Hb & _). by destruct i.
  - change (np_diff (x :: y :: ts)) with (int64 (y - x) :: np_diff (y :: ts)).
    rewrite elem_of_cons, IH. split.
    + intros [->|(i & a & b & Ha & Hb & ->)].
      * by exists 0%nat, x, y.
      * by exists (S i), a, b.
    + intros (i & a & b & Ha & Hb & ->). destruct i as [|i].
      * left. simpl in *. congruence.
      * right. by exists i, a, b.
Qed.

Lemma has_gaps_np_diff timesteps :
  has_gaps64 timesteps ↔ ∃ x y, x ∈ np_diff timesteps ∧ y ∈ np_diff timesteps ∧ x ≠ y.
Proof.
  unfold has_gaps64. split; intros (x & y & Hx & Hy & Hne); exists x, y.
  - by rewrite !np_diff_consecutive.
  - by rewrite <- !np_diff_consecutive.
Qed.

(** The differences of an array of [datetime.datetime] objects are exact. *)
Lemma np_diff_object_datetime (l : list Z) :
  ∃ ds, np_diff_object (EDatetime <$> l) = Return ds ∧
        ∀ d, d ∈ ds ↔ consecutive_difference l d.
Proof.
  unfold consecutive_difference.
  induction l as [|x [|y ts] IH].
  - exists []. split; [done|]. intros d.
    split; [by intros ?%elem_of_nil | by intros (i & a & b & [=] & _)].
  - exists []. split; [done|]. intros d. split; [by intros ?%elem_of_nil|].
    intros (i & a & b & _ & Hb & _). by destruct i.
  - destruct IH as (ds & Hds & Hin). exists ((y - x) :: ds). split.
    + change (np_diff_object (EDatetime <$> x :: y :: ts))
        with (d ← sub_object (EDatetime y) (EDatetime x);
              ds ← np_diff_object (EDatetime <$> y :: ts); Return (d :: ds)).
      simpl sub_object. change (Return ?a ≫= ?k) with (k a). cbv beta.
      by rewrite Hds.
    + intros d. rewrite elem_of_cons, Hin. split.
      * intros [->|(i & a & b & Ha & Hb & ->)].
        -- by exists 0%nat, x, y.
        -- by exists (S i), a, b.
      * intros (i & a & b & Ha & Hb & ->). destruct i as [|i].
        -- left. simpl in *. congruence.
        -- right. by exists i, a, b.
Qed.

(** Where no difference overflows, the timedelta64 are the differences. *)
Lemma consecutive_timedelta_fits ts d :
  fits_int64 ts → consecutive_timedelta ts d ↔ consecutive_difference ts d.
Proof.
  intros Hfits. split; intros (i & a & b & Ha & Hb & ->); exists i, a, b;
    (split; [done|]; split; [done|]).
  - apply int64_fits, Hfits. by exists i, a, b.
  - symmetry. apply int64_fits, Hfits. by exists i, a, b.
Qed.

Lemma has_gaps64_fits ts : fits_int64 ts → has_gaps64 ts ↔ has_gaps ts.
Proof.
  intros Hfits. unfold has_gaps64, has_gaps.
  by setoid_rewrite (consecutive_timedelta_fits ts _ Hfits).
Qed.

(** Two distinct timedelta64 come from two distinct differences. *)
Lemma has_gaps64_has_gaps ts : has_gaps64 ts → has_gaps ts.
Proof.
  intros (d1 & d2 & (i & a & b & Ha & Hb & ->) & (j & c & d & Hc & Hd & ->) & Hne).
  exists (b - a), (d - c). split; [by exists i, a, b|]. split; [by exists j, c, d|].
  congruence.
Qed.

(** *** [_check_timesteps] *)

Lemma datetime64s_length l ts : datetime64s l = Some ts → length ts = length l.
Proof.
  revert ts. induction l as [|[t|t|] l IH]; intros ts; simpl; try done.
  - by intros [= <-].
  - destruct (datetime64s l) as [ts'|]; [|done]. simpl. intros [= <-].
    simpl. f_equal. by apply IH.
Qed.

Lemma np_array_size l : arr_size (np_array l) = length l.
Proof.
  unfold np_array. destruct (datetime64s l) as [ts|] eqn:Hts; [|done].
  simpl. by apply datetime64s_length.
Qed.

(** [np.array] of a list of [datetime.datetime] is an array of objects, of a
    list of [np.datetime64] a datetime64 array. *)
Lemma np_array_datetime (l : list Z) :
  l ≠ [] → np_array (EDatetime <$> l) = ArrObject (EDatetime <$> l).
Proof. by destruct l. Qed.

Lemma np_array_datetime64 (l : list Z) : np_array (EDatetime64 <$> l) = ArrDatetime64 l.
Proof.
  unfold np_array. assert (datetime64s (EDatetime64 <$> l) = Some l) as ->; [|done].
  induction l as [|t l IH]; [done|].
  change (datetime64s (EDatetime64 <$> t :: l))
    with (ts ← datetime64s (EDatetime64 <$> l); Some (t :: ts)).
  by rewrite IH.
Qed.

(** Whatever [_check_timesteps] returns has at least one element. *)
Lemma _check_timesteps_nonempty np_datetime64 timesteps a :
  _check_timesteps np_datetime64 timesteps = Return a → arr_size a ≠ 0%nat.
Proof.
  destruct timesteps as [s| |t|t|l|arr|shape|len|objs]; simpl; try done.
  - by intros (t & _ & [= <-])%bind_Return.
  - destruct (decide (length l = 0%nat)) as [|Hl]; [done|].
    destruct (forallb is_datetime l); [|done]. intros [= <-].
    by rewrite np_array_size.
  - destruct (decide (nd_len arr = 0%nat)) as [|Hl]; [done|].
    destruct arr as [l|l|l]; try done. by intros [= <-].
  - destruct shape as [|n shape]; [done|]. simpl. by destruct (decide (n = 0%nat)).
  - destruct len as [n|]; [|done]. simpl. by destruct (decide (n = 0%nat)).
  - by destruct (decide (length objs = 0%nat)).
Qed.

(** An array of objects is returned for a list only, and holds datetimes of
    which one at least is a [datetime.datetime]. *)
Lemma _check_timesteps_object np_datetime64 timesteps l :
  _check_timesteps np_datetime64 timesteps = Return (ArrObject l) →
  timesteps = TList l ∧ forallb is_datetime l = true ∧ datetime64s l = None.
Proof.
  destruct timesteps as [s| |t|t|l'|arr|shape|len|objs]; simpl; try done.
  - by intros (t & _ & [=])%bind_Return.
  - destruct (decide (length l' = 0%nat)) as [|Hl]; [done|].
    destruct (forallb is_datetime l') eqn:Hall; [|done]. unfold np_array.
    destruct (datetime64s l') eqn:Hd; [done|]. by intros [= <-].
  - destruct (decide (nd_len arr = 0%nat)) as [|Hl]; [done|]. by destruct arr.
  - destruct shape as [|n shape]; [done|]. simpl. by destruct (decide (n = 0%nat)).
  - destruct len as [n|]; [|done]. simpl. by destruct (decide (n = 0%nat)).
  - by destruct (decide (length objs = 0%nat)).
Qed.

Lemma check_no_missing_timesteps_unfold np_datetime64 timesteps verbose ts :
  _check_timesteps np_datetime64 timesteps = Return (ArrDatetime64 ts) →
  check_no_missing_timesteps np_datetime64 timesteps verbose =
    raise_if (bool_decide (1 < length (np_unique (np_diff ts)).2)%nat)
      (ValueError (Msg "The process has been interrupted")).
Proof.
  intros Hts. unfold check_no_missing_timesteps. rewrite Hts.
  apply _check_timesteps_nonempty in Hts. simpl in Hts.
  change (Return ?a ≫= ?k) with (k a). cbv beta.
  by rewrite (bool_decide_eq_false_2 (arr_size (ArrDatetime64 ts) = 0%nat)) by done.
Qed.

(** The same for a list of [datetime.datetime] objects, with their exact
    differences. *)
Lemma check_no_missing_timesteps_datetime np_datetime64 (l : list Z) verbose :
  l ≠ [] →
  ∃ ds, (∀ d, d ∈ ds ↔ consecutive_difference l d) ∧
        check_no_missing_timesteps np_datetime64 (TList (EDatetime <$> l)) verbose =
          raise_if (bool_decide (1 < length (np_unique ds).2)%nat)
            (ValueError (Msg "The process has been interrupted")).
Proof.
  intros Hl. destruct (np_diff_object_datetime l) as (ds & Hds & Hin).
  exists ds. split; [done|]. unfold check_no_missing_timesteps.
  assert (_check_timesteps np_datetime64 (TList (EDatetime <$> l))
          = Return (ArrObject (EDatetime <$> l))) as ->.
  { simpl. rewrite length_fmap. destruct (decide (length l = 0%nat)); [by destruct l|].
    assert (forallb is_datetime (EDatetime <$> l) = true) as ->.
    { clear. induction l as [|t l IH]; [done|]. done. }
    by rewrite np_array_datetime. }
  change (Return ?a ≫= ?k) with (k a). cbv beta.
  rewrite (bool_decide_eq_false_2 (arr_size _ = 0%nat))
    by (simpl; rewrite length_fmap; by destruct l).
  change (Return ?a ≫= ?k) with (k a). cbv beta.
  simpl np_diff_array. rewrite Hds. done.
Qed.

(** Hence the 'No data available !' branch of [check_no_missing_timesteps]
    is never taken (the parser of datetime strings has its own messages). *)
Lemma check_no_missing_timesteps_data np_datetime64 timesteps verbose :
  (∀ s, np_datetime64 s ≠ Raise (ValueError (Msg "No data available !"))) →
  check_no_missing_timesteps np_datetime64 timesteps verbose
  ≠ Raise (ValueError (Msg "No data available !")).
Proof.
  intros Hparser.
  unfold check_no_missing_timesteps.
  destruct (_check_timesteps np_datetime64 timesteps) as [a|e] eqn:Hts.
  - pose proof (_check_timesteps_nonempty _ _ _ Hts) as Hne.
    change (Return a ≫= ?k) with (k a). cbv beta.
    rewrite (bool_decide_eq_false_2 (arr_size a = 0%nat)) by done.
    change (Return ?x ≫= ?k) with (k x). cbv beta.
    destruct (np_diff_array a) as [dt|e] eqn:Hdt.
    + change (Return ?x ≫= ?k) with (k x). cbv beta zeta.
      unfold raise_if. by case_bool_decide.
    + simpl. intros [= ->]. destruct a as [ts|l]; [done|]. simpl in Hdt.
      clear -Hdt. induction l as [|x [|y l] IH]; try done.
      change (np_diff_object (x :: y :: l))
        with (d ← sub_object y x; ds ← np_diff_object (y :: l); Return (d :: ds)) in Hdt.
      destruct (sub_object y x) as [d|e] eqn:Hsub.
      * change (Return ?a ≫= ?k) with (k a) in Hdt. cbv beta in Hdt.
        destruct (np_diff_object (y :: l)) as [ds|e]; [done|].
        apply IH. simpl in Hdt. by injection Hdt as ->.
      * simpl in Hdt. destruct y, x; simpl in Hsub; by simplify_eq.
  - simpl. intros [= ->].
    destruct timesteps as [s| |t|t|l|a|shape|len|objs]; simpl in Hts; try done.
    + specialize (Hparser s).
      destruct (np_datetime64 s) as [t|e]; simpl in Hts; [done|congruence].
    + destruct (decide (length l = 0%nat)); [done|]. by destruct (forallb is_datetime l).
    + destruct (decide (nd_len a = 0%nat)); [done|]. by destruct a.
    + destruct shape as [|n shape]; [done|]. simpl in Hts. by destruct (decide (n = 0%nat)).
    + destruct len as [n|]; [|done]. simpl in Hts. by destruct (decide (n = 0%nat)).
    + by destruct (decide (length objs = 0%nat)).
Qed.




(** The checks on sample time axes: 6-hourly steps pass, as a datetime64 array
    and as a list of [datetime.datetime]; a missing step is reported; a list
    that mixes the two kinds of datetime raises TypeError in [np.diff]. *)
Example check_no_missing_timesteps_samples :
  check_no_missing_timesteps no_datetime64 (TArray (NdTime [0; 6; 12; 18])) false = Return tt ∧
  check_no_missing_timesteps no_datetime64 (TArray (NdTime [0])) false = Return tt ∧
  check_no_missing_timesteps no_datetime64 (TList [EDatetime 0; EDatetime 6]) false
    = Return tt ∧
  check_no_missing_timesteps no_datetime64 (TList [EDatetime64 0; EDatetime64 6]) false
    = Return tt ∧
  check_no_missing_timesteps no_datetime64 (TList [EDatetime 0; EDatetime64 6]) false
    = Raise (TypeError (Msg "unsupported operand type(s) for -")) ∧
  check_no_missing_timesteps no_datetime64 (TArray (NdTime [0; 6; 18])) false
    = Raise (ValueError (Msg "The process has been interrupted")) ∧
  np_unique [6; 6; 12; 6] = ([6; 12], [3%nat; 1%nat]).
Proof. repeat split. Qed.

(** C10 (evaluation on a single datetime).  [len(timesteps)] is evaluated
    before the test for a single [np.datetime64] or [datetime.datetime], which
    has no length: the call raises TypeError, and the branch that would wrap
    the datetime in a one-element array is never reached.  An object without
    a length that is not a datetime raises the same TypeError, where a
    ValueError is announced.  What is returned is never empty. *)
Theorem _check_timesteps_single_datetime (np_datetime64 : string → result Z) (t : Z) :
  _check_timesteps np_datetime64 (TDatetime t) = Raise (TypeError (Msg "object has no len()")) ∧
  _check_timesteps np_datetime64 (TDatetime64 t) = Raise (TypeError (Msg "object has no len()")) ∧
  _check_timesteps np_datetime64 (TOther None) = Raise (TypeError (Msg "object has no len()")) ∧
  (∀ timesteps a, _check_timesteps np_datetime64 timesteps = Return a → arr_size a ≠ 0%nat).
Proof.
  repeat split. intros timesteps a Hts. by apply _check_timesteps_nonempty in Hts.
Qed.

(** The inputs [_check_timesteps] handles as announced: [None] and empty or
    non-datetime lists and arrays raise ValueError, a string becomes a
    one-element array, and a non-empty list or array of datetimes is returned
    as an array: a datetime64 array for a list of [np.datetime64], an array of
    objects for a list of [datetime.datetime]. *)
Lemma _check_timesteps_handled (np_datetime64 : string → result Z) :
  is_ValueError (_check_timesteps np_datetime64 TNone) ∧
  is_ValueError (_check_timesteps np_datetime64 (TList [])) ∧
  (∀ a, nd_len a = 0%nat → is_ValueError (_check_timesteps np_datetime64 (TArray a))) ∧
  (∀ l, forallb is_datetime l = false → is_ValueError (_check_timesteps np_datetime64 (TList l))) ∧
  (∀ l, is_ValueError (_check_timesteps np_datetime64 (TArray (NdStr l)))) ∧
  (∀ l, is_ValueError (_check_timesteps np_datetime64 (TArray (NdInt l)))) ∧
  (∀ l, is_ValueError (_check_timesteps np_datetime64 (TObjectArray l))) ∧
  (∀ s t, np_datetime64 s = Return t →
          _check_timesteps np_datetime64 (TStr s) = Return (ArrDatetime64 [t])) ∧
  (∀ l, l ≠ [] →
        _check_timesteps np_datetime64 (TArray (NdTime l)) = Return (ArrDatetime64 l)) ∧
  (∀ l, l ≠ [] → forallb is_datetime l = true →
        _check_timesteps np_datetime64 (TList l) = Return (np_array l)) ∧
  (∀ l, l ≠ [] →
        _check_timesteps np_datetime64 (TList (EDatetime64 <$> l)) = Return (ArrDatetime64 l)) ∧
  (∀ l, l ≠ [] →
        _check_timesteps np_datetime64 (TList (EDatetime <$> l))
        = Return (ArrObject (EDatetime <$> l))).
Proof.
  unfold is_ValueError. repeat split.
  - by eexists.
  - by eexists.
  - intros a Ha. simpl. rewrite Ha. by eexists.
  - intros l Hl. simpl. destruct (decide (length l = 0%nat)); [by eexists|].
    rewrite Hl. by eexists.
  - intros l. simpl. destruct (decide (length l = 0%nat)); by eexists.
  - intros l. simpl. destruct (decide (length l = 0%nat)); by eexists.
  - intros l. simpl. destruct (decide (length l = 0%nat)); by eexists.
  - intros s t Hs. simpl. by rewrite Hs.
  - intros l Hl. simpl. destruct (decide (length l = 0%nat)) as [Hz|]; [|done].
    by destruct l.
  - intros l Hl Hall. simpl. destruct (decide (length l = 0%nat)) as [Hz|]; [by destruct l|].
    by rewrite Hall.
  - intros l Hl. simpl. rewrite length_fmap.
    destruct (decide (length l = 0%nat)) as [Hz|]; [by destruct l|].
    assert (forallb is_datetime (EDatetime64 <$> l) = true) as ->.
    { clear. by induction l. }
    by rewrite np_array_datetime64.
  - intros l Hl. simpl. rewrite length_fmap.
    destruct (decide (length l = 0%nat)) as [Hz|]; [by destruct l|].
    assert (forallb is_datetime (EDatetime <$> l) = true) as ->.
    { clear. by induction l. }
    by rewrite np_array_datetime.
Qed.

(** *** Finite values *)

Lemma np_sum_nonzero (p : float → bool) (data : list float) :
  np_sum (map p data) ≠ 0 ↔ existsb p data = true.
Proof.
  unfold np_sum. induction data as [|x data IH]; simpl; [done|].
  destruct (p x) eqn:Hp.
  - rewrite filter_cons_True by done. simpl. split; [done|lia].
  - by rewrite filter_cons_False by done.
Qed.

Lemma flagged_variables_from (p : float → bool) (vars : list (string * list float))
    (list_vars : list string) (flag : bool) :
  foldl (λ '(list_vars, flag_raise_error) '(var, mask),
           if decide (np_sum mask ≠ 0) then (list_vars ++ [var], true)
           else (list_vars, flag_raise_error))
        (list_vars, flag) (prod_map id (map p) <$> vars)
  = (list_vars ++ (filter (λ vd, existsb p vd.2 = true) vars).*1,
     flag || existsb (λ vd, existsb p vd.2) vars).
Proof.
  revert list_vars flag. induction vars as [|[var data] vars IH]; intros list_vars flag.
  - simpl. by rewrite app_nil_r, orb_false_r.
  - cbn [fmap list_fmap foldl prod_map id fst snd existsb].
    rewrite filter_cons. cbn [snd].
    destruct (decide (np_sum (map p data) ≠ 0)) as [Hs|Hs];
      rewrite np_sum_nonzero in Hs.
    + rewrite decide_True by done. rewrite IH, Hs. cbn [fmap list_fmap fst orb].
      by rewrite <- app_assoc, orb_true_r.
    + rewrite decide_False by done. rewrite IH.
      apply not_true_is_false in Hs. by rewrite Hs.
Qed.

Lemma flagged_variables_with (p : float → bool) (ds : Dataset) :
  flagged_variables (prod_map id (map p) <$> ds_data_vars ds)
  = (variables_with p ds, existsb (λ vd, existsb p vd.2) (ds_data_vars ds)).
Proof. unfold flagged_variables. by rewrite flagged_variables_from. Qed.

Lemma contains_existsb (p : float → bool) (ds : Dataset) :
  existsb (λ vd, existsb p vd.2) (ds_data_vars ds) = true ↔ contains p ds.
Proof.
  unfold contains. rewrite existsb_exists. split.
  - intros ([var data] & Hin & (x & Hx & Hp)%existsb_exists).
    exists var, data, x. by rewrite !list_elem_of_In.
  - intros (var & data & x & Hin & Hx & Hp). exists (var, data).
    rewrite <- list_elem_of_In. split; [done|]. apply existsb_exists.
    exists x. by rewrite <- list_elem_of_In.
Qed.

Lemma all_finite_contains (ds : Dataset) :
  all_finite ds ↔ ¬ contains isnan ds ∧ ¬ contains isinf ds.
Proof.
  unfold all_finite, contains. split.
  - intros Hfin. split; intros (var & data & x & Hin & Hx & Hp);
      specialize (Hfin var data x Hin Hx); by destruct x.
  - intros [Hnan Hinf] var data x Hin Hx. destruct x as [m e| |neg]; [done| |].
    + destruct Hnan. by exists var, data, FNaN.
    + destruct Hinf. by exists var, data, (FInf neg).
Qed.

(** C4. On a Dataset, [check_finite_Dataset] raises ValueError exactly when
    some data variable holds a NaN or an infinite value, and returns [None]
    when every value is finite.  The NaN check comes first: with a NaN present
    the error names the variables with NaN, whatever infinities there are; the
    error on infinities is raised only without any NaN.  An argument that is
    not a Dataset raises TypeError. *)
Theorem check_finite_Dataset_finite (ds : Dataset) :
  (is_ValueError (check_finite_Dataset (PyDataset ds)) ↔ contains isnan ds ∨ contains isinf ds) ∧
  (all_finite ds → check_finite_Dataset (PyDataset ds) = Return tt) ∧
  (contains isnan ds →
     check_finite_Dataset (PyDataset ds)
     = Raise (ValueError (Fmt "The variables {} contain NaN values"
                              [ANames (variables_with isnan ds)]))) ∧
  (¬ contains isnan ds → contains isinf ds →
     check_finite_Dataset (PyDataset ds)
     = Raise (ValueError (Fmt "The variables {} contain Inf values."
                              [ANames (variables_with isinf ds)]))) ∧
  (∀ o, isinstance_Dataset o = false →
     check_finite_Dataset o = Raise (TypeError (Msg "'ds' must be an xarray Dataset."))).
Proof.
  assert (∀ o, isinstance_Dataset o = false →
     check_finite_Dataset o = Raise (TypeError (Msg "'ds' must be an xarray Dataset.")))
    as Htype by (by intros []).
  rewrite all_finite_contains. unfold check_finite_Dataset. cbv zeta.
  rewrite !flagged_variables_with. cbn [fst snd].
  pose proof (contains_existsb isnan ds) as Hnan.
  pose proof (contains_existsb isinf ds) as Hinf.
  destruct (existsb (λ vd, existsb isnan vd.2) (ds_data_vars ds)).
  - assert (contains isnan ds) as Hc by (by apply Hnan).
    simpl. unfold is_ValueError. repeat split; try done; eauto; tauto.
  - assert (¬ contains isnan ds) as Hc by (rewrite <- Hnan; done).
    simpl. destruct (existsb (λ vd, existsb isinf vd.2) (ds_data_vars ds)).
    + assert (contains isinf ds) as Hc' by (by apply Hinf).
      simpl. unfold is_ValueError. repeat split; try done; eauto; tauto.
    + assert (¬ contains isinf ds) as Hc' by (rewrite <- Hinf; done).
      simpl. unfold is_ValueError. repeat split; try done; try tauto.
      by intros [m [=]].
Qed.

(** The sample Dataset has a NaN in [t850] and an infinity in [z500]: the
    error raised is the one on NaN. *)
Example check_finite_Dataset_sample :
  check_finite_Dataset (PyDataset sample_dataset)
  = Raise (ValueError (Fmt "The variables {} contain NaN values" [ANames ["t850"]])).
Proof. reflexivity. Qed.

(** *** Time alignment *)

Lemma forallb_zip_eq (a b : list label) :
  length a = length b →
  forallb id (zip_with (λ x y, bool_decide (x = y)) a b) = true ↔ a = b.
Proof.
  revert b. induction a as [|x a IH]; intros [|y b]; simpl; try done.
  intros [= Hlen]. rewrite andb_true_iff, bool_decide_eq_true, (IH b Hlen).
  split; [by intros [-> ->] | by intros [= -> ->]].
Qed.

(** On time axes of one length, the comparison holds everywhere exactly when
    the axes are equal. *)
Lemma np_eq_same_length release (a b : list label) :
  length a = length b →
  ∃ c, np_eq release a b = Return c ∧ (np_all c = true ↔ a = b) ∧
       builtin_all c = Return (np_all c).
Proof.
  intros Hlen. unfold np_eq. rewrite decide_True by done.
  eexists. split; [done|]. split; [|done]. by apply forallb_zip_eq.
Qed.

(** An axis of one timestep is broadcast: the comparison with an axis that
    repeats this timestep holds everywhere. *)
Lemma np_eq_broadcast release (x : label) (n : nat) :
  ∃ c, np_eq release (replicate n x) [x] = Return c ∧ np_all c = true.
Proof.
  unfold np_eq. destruct (decide (length (replicate n x) = length [x])) as [Hl|Hl].
  - rewrite length_replicate in Hl. simpl in Hl. subst n. simpl.
    eexists. split; [done|]. simpl. by rewrite bool_decide_eq_true_2.
  - assert (∃ c, Return (CmpArray ((λ x0, bool_decide (x0 = x)) <$> replicate n x))
               = Return c ∧ np_all c = true) as Hc.
    { eexists. split; [done|]. simpl. clear Hl. induction n as [|n IH]; [done|].
      simpl. by rewrite bool_decide_eq_true_2. }
    destruct n as [|[|n]]; simpl; try done.
Qed.

(** C5 (evaluation on a dynamic array whose time index is [t, t] and a bc
    array whose time index is [t]).  The two time axes differ, each passes
    [check_no_missing_timesteps], and [==] broadcasts the single timestep of
    the bc array against the two of the dynamic array: both
    [check_AR_DataArrays] and [check_AR_Datasets] return without an error, for
    either behaviour of numpy on shapes that do not broadcast.  On time axes
    of three and of two timesteps, [check_AR_Datasets] with a numpy before
    1.25 raises TypeError from the builtin [all], where [check_AR_DataArrays]
    raises the ValueError on timesteps through [np.all]. *)
Theorem check_AR_alignment_broadcast
    (np_datetime64 : string → result Z) (release : numpy_release) :
  da_time_values (PyDataArray repeated_dynamic) = Return (NdTime [0; 0]) ∧
  da_time_values (PyDataArray single_bc) = Return (NdTime [0]) ∧
  check_AR_DataArrays np_datetime64 release
    (PyDataArray repeated_dynamic) PyNone (PyDataArray single_bc) PyNone PyNone false
  = Return tt ∧
  check_AR_Datasets np_datetime64 release
    (PyDataset repeated_dynamic_ds) PyNone PyNone (PyDataset single_bc_ds) PyNone false
  = Return tt ∧
  check_AR_Datasets np_datetime64 numpy_before_1_25
    (PyDataset three_steps_ds) PyNone PyNone (PyDataset two_steps_ds) PyNone false
  = Raise (TypeError (Msg "'bool' object is not iterable")).
Proof. repeat split. Qed.

(** *** Training and validation arrays *)

Lemma optional_variables_Return (o : option DataArray) required name dims vars :
  optional_variables (optional o) required name = Return (dims, vars) →
  (∀ da, o = Some da → has_dims required da) ∧ dims = da_dims <$> o.
Proof.
  destruct o as [da|]; [|by intros [= <- <-]].
  unfold optional_variables, optional, is_None.
  intros ([] & Hck%check_dimnames_DataArray_Return &
          (da' & [= <-] & (a & _ & [= <- <-])%bind_Return)%bind_Return)%bind_Return.
  split; [by intros ? [= <-] | done].
Qed.

(** When [get_AR_model_diminfo] returns, its arguments passed its checks. *)
Lemma get_AR_model_diminfo_Return_inv (dyn : DataArray) (static bc : option DataArray)
    AR_settings d :
  get_AR_model_diminfo (PyDataArray dyn) (optional static) (optional bc) AR_settings
    = Return d →
  has_dims ["time"; "node"; "feature"] dyn ∧
  (∀ s, static = Some s → has_dims ["node"; "feature"] s) ∧
  (∀ b, bc = Some b → has_dims ["time"; "node"; "feature"] b ∧ da_dims b = da_dims dyn).
Proof.
  unfold get_AR_model_diminfo, time_dim, node_dim, variable_dim.
  simpl isinstance_DataArray. simpl negb. simpl raise_if.
  change (Return tt ≫= ?k) with (k tt). cbv beta.
  intros ([] & Hdyn%check_dimnames_DataArray_Return & H)%bind_Return.
  simpl da_of in H. change (Return dyn ≫= ?k) with (k dyn) in H. cbv beta in H.
  apply bind_Return in H as (values & _ & H). cbv zeta in H.
  apply bind_Return in H as ([dims_static vars_static] & Hst%optional_variables_Return & H).
  apply bind_Return in H as ([dims_bc vars_bc] & Hbcs%optional_variables_Return & H).
  apply bind_Return in H as ([] & Horder & _).
  destruct Hst as [Hst _]. destruct Hbcs as [Hbcs ->].
  split; [done|]. split; [done|]. intros b ->. split; [by apply Hbcs|].
  simpl in Horder. apply raise_if_Return, negb_false_iff, bool_decide_eq_true in Horder.
  done.
Qed.

Lemma checked_raise_if cond m : checked (raise_if cond (ValueError m)).
Proof. destruct cond; [right; by eexists | by left]. Qed.

Lemma checked_bind (c k : result unit) :
  checked c → (c = Return tt → checked k) → checked (c ;; k).
Proof.
  intros [->|[m ->]] Hk; [by apply Hk | right; by eexists].
Qed.

Lemma checked_unless_None o c : (is_None o = false → checked c) → checked (unless_None o c).
Proof. unfold unless_None. destruct (is_None o); [by left | auto]. Qed.

Lemma checked_dimnames da required name :
  checked (check_dimnames_DataArray (PyDataArray da) required name).
Proof. apply check_dimnames_DataArray_cases. Qed.

Lemma checked_AR_dimnames (dyn bc static : option DataArray) :
  checked (_check_AR_DataArray_dimnames (optional dyn) (optional bc) (optional static)).
Proof.
  unfold _check_AR_DataArray_dimnames.
  repeat (apply checked_bind; [|intros _]);
    apply checked_unless_None; intros Ho.
  - destruct dyn; [apply checked_dimnames|done].
  - destruct static; [apply checked_dimnames|done].
  - destruct bc; [apply checked_dimnames|done].
Qed.

Lemma checked_no_missing_timesteps np_datetime64 a verbose :
  checked (check_no_missing_timesteps np_datetime64 (TArray a) verbose).
Proof.
  destruct a as [l|l|l];
    try (right; unfold check_no_missing_timesteps; simpl;
         destruct (decide (length l = 0%nat)); by eexists).
  destruct l as [|t l]; [right; by eexists|].
  rewrite (check_no_missing_timesteps_unfold _ _ _ (t :: l)) by done.
  apply checked_raise_if.
Qed.

Lemma checked_da_check_time np_datetime64 da verbose :
  "time" ∈ da_dims da → checked (da_check_time np_datetime64 (PyDataArray da) verbose).
Proof.
  intros Ht. unfold da_check_time, da_time_values. simpl da_of.
  change (Return da ≫= ?k) with (k da). cbv beta.
  rewrite coord_values_index_of by done.
  apply checked_no_missing_timesteps.
Qed.

Lemma checked_same_timesteps release a b m :
  "time" ∈ da_dims a → "time" ∈ da_dims b →
  checked (same ← da_same_timesteps release (PyDataArray a) (PyDataArray b);
           raise_if (negb (np_all same)) (ValueError m)).
Proof.
  intros Ha Hb. unfold da_same_timesteps, da_time_values. simpl da_of.
  change (Return ?x ≫= ?k) with (k x). cbv beta.
  rewrite !coord_values_index_of by done.
  change (Return ?x ≫= ?k) with (k x). cbv beta.
  change (Return ?x ≫= ?k) with (k x). cbv beta.
  destruct (np_eq release _ _) as [c|e] eqn:Heq.
  - apply checked_raise_if.
  - right. unfold np_eq in Heq. destruct (decide _); [done|].
    destruct (tolist (index_of "time" a)) as [|? [|? ?]];
      destruct (tolist (index_of "time" b)) as [|? [|? ?]]; try done;
      destruct release; try done; injection Heq as <-; by eexists.
Qed.

Lemma checked_alignment np_datetime64 release (train : DataArray)
    (val tbc vbc static : option DataArray) verbose :
  checked (check_AR_DataArrays_alignment np_datetime64 release (PyDataArray train)
             (optional val) (optional tbc) (optional vbc) (optional static) verbose).
Proof.
  unfold check_AR_DataArrays_alignment.
  apply checked_bind; [apply checked_raise_if|intros _].
  apply checked_bind; [apply checked_raise_if|intros _].
  apply checked_bind; [apply (checked_AR_dimnames (Some train))|].
  intros (Htrain & Htbc & Hst)%(_check_AR_DataArray_dimnames_Return (Some train)).
  apply checked_bind; [apply checked_AR_dimnames|].
  intros (Hval & Hvbc & _)%(_check_AR_DataArray_dimnames_Return val vbc static).
  specialize (Htrain train eq_refl).
  apply checked_bind; [apply checked_unless_None; intros _; apply checked_raise_if|intros _].
  apply checked_bind; [apply checked_da_check_time, Htrain; in_list|intros _].
  apply checked_bind.
  { apply checked_unless_None. destruct val as [v|]; [intros _|done].
    apply checked_da_check_time, (Hval v eq_refl); in_list. }
  intros _. apply checked_bind.
  { apply checked_unless_None. destruct tbc as [b|]; [intros _|done].
    apply checked_da_check_time, (Htbc b eq_refl); in_list. }
  intros _. apply checked_bind.
  { apply checked_unless_None. destruct vbc as [b|]; [intros _|done].
    apply checked_da_check_time, (Hvbc b eq_refl); in_list. }
  intros _. apply checked_bind.
  { apply checked_unless_None. destruct tbc as [b|]; [intros _|done].
    apply checked_same_timesteps; [apply Htrain|apply (Htbc b eq_refl)]; in_list. }
  intros _. destruct val as [v|], vbc as [b|]; simpl; try (by left).
  apply checked_same_timesteps; [apply (Hval v eq_refl)|apply (Hvbc b eq_refl)]; in_list.
Qed.

Lemma get_AR_model_diminfo_Return_features (dyn : DataArray) (static bc : option DataArray)
    AR_settings d :
  get_AR_model_diminfo (PyDataArray dyn) (optional static) (optional bc) AR_settings
    = Return d →
  diminfo_features dyn static bc d.
Proof.
  intros Hd. pose proof Hd as (Hdyn & Hst & Hbcs)%get_AR_model_diminfo_Return_inv.
  rewrite get_AR_model_diminfo_unfold in Hd by done. cbv zeta in Hd.
  destruct AR_settings as [ar|].
  - apply bind_Return in Hd as (input_time_dim & _ & Hd).
    apply bind_Return in Hd as (output_time_dim & _ & Hd).
    apply bind_Return in Hd as (input_shape & _ & Hd).
    apply bind_Return in Hd as (output_shape & _ & [= <-]).
    unfold diminfo_features. by repeat split.
  - injection Hd as <-. unfold diminfo_features. by repeat split.
Qed.

Lemma check_AR_DataArrays_diminfo_unfold (train val : DataArray)
    (tbc vbc static : option DataArray) d1 d2 :
  get_AR_model_diminfo (PyDataArray train) (optional static) (optional tbc) None = Return d1 →
  get_AR_model_diminfo (PyDataArray val) (optional static) (optional vbc) None = Return d2 →
  check_AR_DataArrays_diminfo (PyDataArray train) (PyDataArray val)
    (optional tbc) (optional vbc) (optional static)
  = raise_if (negb (bool_decide (d1 = d2)))
      (ValueError (Msg "The dimension order of training and validation DataArrays do not coincide!")).
Proof.
  intros H1 H2. unfold check_AR_DataArrays_diminfo, unless_None. simpl is_None. cbv iota.
  by rewrite H1, H2.
Qed.

(** C9. With a validation dynamic DataArray, when [check_AR_DataArrays]
    returns, [get_AR_model_diminfo] gave one and the same dictionary for the
    training and for the validation arrays: the same output and input feature
    names, hence the same feature counts, the same number of nodes and the
    same dimension order.  Conversely, when the two dictionaries differ the
    call raises ValueError, and it is the error on the dimension order as soon
    as the checks before it pass; the sample training and validation arrays
    have the same dimension order and differ in one variable name, and the
    check passes on a validation array with the variables of the training
    array. *)
Theorem check_AR_DataArrays_same_diminfo
    (np_datetime64 : string → result Z) (release : numpy_release)
    (train val : DataArray) (tbc vbc static : option DataArray) (verbose : bool) :
  (check_AR_DataArrays np_datetime64 release (PyDataArray train) (PyDataArray val)
     (optional tbc) (optional vbc) (optional static) verbose = Return tt →
   ∃ d,
     get_AR_model_diminfo (PyDataArray train) (optional static) (optional tbc) None = Return d ∧
     get_AR_model_diminfo (PyDataArray val) (optional static) (optional vbc) None = Return d ∧
     variables train = variables val ∧
     optional_vars static ++ optional_vars tbc ++ variables train
       = optional_vars static ++ optional_vars vbc ++ variables val ∧
     length (variables train) = length (variables val) ∧
     length (optional_vars static ++ optional_vars tbc ++ variables train)
       = length (optional_vars static ++ optional_vars vbc ++ variables val) ∧
     n_nodes train = n_nodes val ∧
     da_dims train = da_dims val) ∧
  (∀ d1 d2,
     get_AR_model_diminfo (PyDataArray train) (optional static) (optional tbc) None = Return d1 →
     get_AR_model_diminfo (PyDataArray val) (optional static) (optional vbc) None = Return d2 →
     d1 ≠ d2 →
     is_ValueError
       (check_AR_DataArrays np_datetime64 release (PyDataArray train) (PyDataArray val)
          (optional tbc) (optional vbc) (optional static) verbose) ∧
     (check_AR_DataArrays_alignment np_datetime64 release (PyDataArray train)
        (PyDataArray val) (optional tbc) (optional vbc) (optional static) verbose = Return tt →
      check_AR_DataArrays np_datetime64 release (PyDataArray train) (PyDataArray val)
        (optional tbc) (optional vbc) (optional static) verbose
      = Raise (ValueError (Msg "The dimension order of training and validation DataArrays do not coincide!")))) ∧
  (da_dims sample_dynamic = da_dims sample_validation ∧
   check_AR_DataArrays np_datetime64 release (PyDataArray sample_dynamic)
     (PyDataArray sample_validation) PyNone PyNone PyNone verbose
   = Raise (ValueError (Msg "The dimension order of training and validation DataArrays do not coincide!")) ∧
   check_AR_DataArrays np_datetime64 release (PyDataArray sample_dynamic)
     (PyDataArray later_validation) PyNone PyNone PyNone verbose
   = Return tt).
Proof.
  split; [|split].
  - unfold check_AR_DataArrays. intros [_ Hinfo]%bind_unit_Return.
    unfold check_AR_DataArrays_diminfo, unless_None in Hinfo.
    simpl is_None in Hinfo. cbv iota in Hinfo.
    apply bind_Return in Hinfo as (d1 & H1 & Hinfo).
    apply bind_Return in Hinfo as (d2 & H2 & Hinfo).
    apply raise_if_Return, negb_false_iff, bool_decide_eq_true in Hinfo. subst d2.
    exists d1. split; [done|]. split; [done|].
    apply get_AR_model_diminfo_Return_features in H1 as (Hi1 & _ & Ho1 & _ & Hn1 & _ & Hd1).
    apply get_AR_model_diminfo_Return_features in H2 as (Hi2 & _ & Ho2 & _ & Hn2 & _ & Hd2).
    rewrite Hi1 in Hi2. rewrite Ho1 in Ho2. rewrite Hn1 in Hn2. rewrite Hd1 in Hd2.
    injection Hi2 as Hi. injection Ho2 as Ho. injection Hn2 as Hn. injection Hd2 as Hd.
    by rewrite Hi, Ho.
  - intros d1 d2 H1 H2 Hne.
    assert (check_AR_DataArrays_diminfo (PyDataArray train) (PyDataArray val)
              (optional tbc) (optional vbc) (optional static)
            = Raise (ValueError (Msg "The dimension order of training and validation DataArrays do not coincide!")))
      as Hinfo.
    { rewrite (check_AR_DataArrays_diminfo_unfold _ _ _ _ _ _ _ H1 H2).
      by rewrite bool_decide_eq_false_2. }
    unfold check_AR_DataArrays. rewrite Hinfo. split.
    + destruct (checked_alignment np_datetime64 release train (Some val) tbc vbc static verbose)
        as [Hok|[m Hm]]; simpl optional in *.
      * rewrite Hok. by eexists.
      * rewrite Hm. by eexists.
    + by intros ->.
  - split; [reflexivity|]. split; destruct verbose; vm_compute; reflexivity.
Qed.

(** *** The store *)

Lemma run_bind {A B} (c : Store.M A) (k : A → Store.M B) (h : Store.heap) :
  (c ≫= k) h = match c h with
               | (Return a, h') => k a h'
               | (Raise e, h') => (Raise e, h')
               end.
Proof. reflexivity. Qed.

Lemma run_deref (l : Store.loc) (h : Store.heap) (o : Store.object) :
  h !! l = Some o → Store.deref l h = (Return o, h).
Proof. intros Hl. unfold Store.deref. by rewrite Hl. Qed.

Lemma keeps_ret {A} h0 (a : A) : keeps h0 (mret a : Store.M A).
Proof. by intros h Hh. Qed.

Lemma keeps_lift {A} h0 (r : result A) : keeps h0 (Store.lift r).
Proof. by intros h Hh. Qed.

Lemma keeps_deref h0 l : keeps h0 (Store.deref l).
Proof. intros h Hh. unfold Store.deref. by destruct (h !! l). Qed.

Lemma keeps_bind {A B} h0 (c : Store.M A) (k : A → Store.M B) :
  keeps h0 c → (∀ a, keeps h0 (k a)) → keeps h0 (c ≫= k).
Proof.
  intros Hc Hk h Hh. rewrite run_bind.
  specialize (Hc h Hh). destruct (c h) as [[a|e] h']; simpl in *; [exact (Hk a h' Hc)|done].
Qed.

Lemma fresh_not_in (h0 h : Store.heap) : h0 ⊆ h → h0 !! fresh (dom h) = None.
Proof.
  intros Hh. apply not_elem_of_dom. intros Hin.
  apply (is_fresh (dom h)). by apply (subseteq_dom h0 h).
Qed.

(** A new object is not one of the objects of [h0]. *)
Lemma keeps_alloc_bind {B} h0 (o : Store.object) (k : Store.value → Store.M B) :
  (∀ l, h0 !! l = None → keeps h0 (k (Store.VRef l))) → keeps h0 (Store.alloc o ≫= k).
Proof.
  intros Hk h Hh. rewrite run_bind. unfold Store.alloc. cbv zeta.
  pose proof (fresh_not_in h0 h Hh) as Hl.
  apply Hk; [done|]. by apply insert_subseteq_r.
Qed.

Lemma keeps_alloc h0 (o : Store.object) : keeps h0 (Store.alloc o).
Proof.
  intros h Hh. unfold Store.alloc. cbv zeta. simpl.
  apply insert_subseteq_r; [|done]. by apply fresh_not_in.
Qed.

(** Assignment to an item of a dictionary that is not an object of [h0]. *)
Lemma keeps_setitem h0 l k v : h0 !! l = None → keeps h0 (Store.setitem (Store.VRef l) k v).
Proof.
  intros Hl h Hh. unfold Store.setitem. rewrite run_bind. unfold Store.deref.
  destruct (h !! l) as [[]|]; simpl; try done. by apply insert_subseteq_r.
Qed.

Lemma keeps_getitem h0 d k : keeps h0 (Store.getitem d k).
Proof.
  intros h Hh. unfold Store.getitem. destruct d; try done.
  rewrite run_bind. unfold Store.deref.
  destruct (h !! l) as [[]|]; simpl; try done. by destruct (items !! k).
Qed.

Lemma keeps_items_of h0 v : keeps h0 (Store.items_of v).
Proof.
  intros h Hh. unfold Store.items_of. destruct v; try done.
  rewrite run_bind. unfold Store.deref. by destruct (h !! l) as [[]|].
Qed.

Lemma keeps_len h0 v : keeps h0 (Store.len v).
Proof.
  intros h Hh. unfold Store.len. destruct v as [|[]| |l]; try done.
  rewrite run_bind. unfold Store.deref. by destruct (h !! l) as [[]|].
Qed.

Lemma keeps_load h0 v : keeps h0 (Store.load v).
Proof.
  intros h Hh. unfold Store.load. destruct v; try done.
  rewrite run_bind. unfold Store.deref. by destruct (h !! l) as [[]|].
Qed.

Lemma keeps_int_of h0 v : keeps h0 (Store.int_of v).
Proof. intros h Hh. unfold Store.int_of. by destruct v as [|[]| |]. Qed.

Lemma keeps_comprehension h0 table keys : keeps h0 (Store.comprehension table keys).
Proof.
  induction keys as [|key keys IH]; [apply keeps_ret|].
  destruct key as [|[]| |]; try apply keeps_lift. simpl.
  apply keeps_bind; [apply keeps_getitem|intros v].
  apply keeps_bind; [apply keeps_int_of|intros z].
  apply keeps_bind; [apply IH|intros zs]. apply keeps_ret.
Qed.

(** One step of a proof that a computation keeps the objects of [h0]. *)
Ltac keeps_step :=
  lazymatch goal with
  | |- keeps _ (mret _) => apply keeps_ret
  | |- keeps _ (Store.ret _) => apply keeps_ret
  | |- keeps _ (Store.lift _) => apply keeps_lift
  | |- keeps _ (Store.alloc _) => apply keeps_alloc
  | |- keeps _ (Store.getitem _ _) => apply keeps_getitem
  | |- keeps _ (Store.items_of _) => apply keeps_items_of
  | |- keeps _ (Store.len _) => apply keeps_len
  | |- keeps _ (Store.load _) => apply keeps_load
  | |- keeps _ (Store.int_of _) => apply keeps_int_of
  | |- keeps _ (Store.comprehension _ _) => apply keeps_comprehension
  | |- keeps _ (Store.setitem (Store.VRef _) _ _) => apply keeps_setitem; assumption
  | |- keeps _ (Store.alloc _ ≫= _) => apply keeps_alloc_bind; intros ? ?
  | |- keeps _ (_ ≫= _) => apply keeps_bind; [|intros ?]
  | |- keeps _ (match ?v with _ => _ end) => destruct v
  end.

Lemma keeps_optional_variables h0 da required name :
  keeps h0 (Store.optional_variables da required name).
Proof.
  unfold Store.optional_variables, Store.new_names, Store.new_labels.
  repeat keeps_step.
Qed.

(** Every object of the store is unchanged by a call, whether it returns or
    raises. *)
Lemma get_AR_model_diminfo_keeps h0 da_dynamic da_static da_bc AR_settings :
  keeps h0 (Store.get_AR_model_diminfo da_dynamic da_static da_bc AR_settings).
Proof.
  unfold Store.get_AR_model_diminfo, Store.new_names, Store.new_labels.
  repeat first [apply keeps_optional_variables | keeps_step].
Qed.

(** *** Running a computation on the store *)

Lemma wp_bind {A B} (c : Store.M A) (k : A → Store.M B) h Q :
  wp c h (λ r h', match r with
                  | Return a => wp (k a) h' Q
                  | Raise e => Q (Raise e) h'
                  end) →
  wp (c ≫= k) h Q.
Proof. unfold wp. rewrite run_bind. by destruct (c h) as [[a|e] h']. Qed.

Lemma wp_lift_bind {A B} (r : result A) (k : A → Store.M B) h Q :
  match r with
  | Return a => wp (k a) h Q
  | Raise e => Q (Raise e) h
  end →
  wp (Store.lift r ≫= k) h Q.
Proof. intros H. apply wp_bind. by destruct r. Qed.

Lemma wp_alloc {B} (o : Store.object) (k : Store.value → Store.M B) h Q :
  (∀ l h', h ⊆ h' → h !! l = None → h' !! l = Some o → wp (k (Store.VRef l)) h' Q) →
  wp (Store.alloc o ≫= k) h Q.
Proof.
  intros H. apply wp_bind. unfold wp at 1, Store.alloc. cbv zeta. simpl.
  assert (h !! fresh (dom h) = None) as Hl by (apply not_elem_of_dom, is_fresh).
  apply H; [by apply insert_subseteq | done | apply lookup_insert_eq].
Qed.

Lemma list_at_mono h h' v items : h ⊆ h' → list_at h v items → list_at h' v items.
Proof.
  intros Hh (l & -> & Hl). exists l. split; [done|]. by eapply lookup_weaken.
Qed.

Lemma dims_at_mono h h' v dims : h ⊆ h' → dims_at h v dims → dims_at h' v dims.
Proof. destruct dims; simpl; [apply list_at_mono|done]. Qed.

Lemma list_at_alloc (h : Store.heap) l items :
  h !! l = Some (Store.OList items) → list_at h (Store.VRef l) items.
Proof. intros Hl. by exists l. Qed.

Lemma valid_mono h h' v : h ⊆ h' → valid h v → valid h' v.
Proof.
  intros Hh. destruct v; simpl; try done. intros [o Ho]. exists o. by eapply lookup_weaken.
Qed.

Lemma object_at_mono h h' v : h ⊆ h' → valid h v → object_at h' v = object_at h v.
Proof.
  intros Hh. destruct v as [| | |l]; try done. intros [o Ho].
  pose proof (lookup_weaken _ _ _ _ Ho Hh) as Ho'.
  unfold object_at. by rewrite Ho', Ho.
Qed.

Lemma wp_load {B} (v : Store.value) (k : pyobj → Store.M B) h Q :
  valid h v → wp (k (object_at h v)) h Q → wp (Store.load v ≫= k) h Q.
Proof.
  intros Hv H. apply wp_bind. unfold wp at 1. destruct v; simpl in *; try done.
  destruct Hv as [o Ho]. rewrite run_bind, (run_deref _ _ _ Ho). rewrite Ho in H.
  by destruct o.
Qed.

Lemma wp_items_of {B} (v : Store.value) items (k : list Store.value → Store.M B) h Q :
  list_at h v items → wp (k items) h Q → wp (Store.items_of v ≫= k) h Q.
Proof.
  intros (l & -> & Hl) H. apply wp_bind. unfold wp at 1. simpl.
  by rewrite run_bind, (run_deref _ _ _ Hl).
Qed.

Lemma wp_len {B} (v : Store.value) items (k : Z → Store.M B) h Q :
  list_at h v items → wp (k (Z.of_nat (length items))) h Q → wp (Store.len v ≫= k) h Q.
Proof.
  intros (l & -> & Hl) H. apply wp_bind. unfold wp at 1. simpl.
  by rewrite run_bind, (run_deref _ _ _ Hl).
Qed.

(** [d = {}; d[k1] = v1; d[k2] = v2; d[k3] = v3] *)
Lemma run_new_dict {B} k1 v1 k2 v2 k3 v3 (k : Store.value → Store.M B) (h : Store.heap) :
  (Store.alloc (Store.ODict ∅) ≫= λ d,
     Store.setitem d k1 v1 ;; Store.setitem d k2 v2 ;; Store.setitem d k3 v3 ;; k d) h
  = k (Store.VRef (fresh (dom h)))
      (<[fresh (dom h) := Store.ODict (<[k3 := v3]> (<[k2 := v2]> (<[k1 := v1]> ∅)))]> h).
Proof.
  rewrite run_bind. unfold Store.alloc at 1. cbv zeta.
  set (l := fresh (dom h)).
  rewrite run_bind. unfold Store.setitem at 1.
  rewrite run_bind, (run_deref _ _ (Store.ODict ∅)) by apply lookup_insert_eq.
  rewrite insert_insert_eq.
  rewrite run_bind. unfold Store.setitem at 1.
  rewrite run_bind, (run_deref _ _ (Store.ODict (<[k1:=v1]> ∅))) by apply lookup_insert_eq.
  rewrite insert_insert_eq.
  rewrite run_bind. unfold Store.setitem at 1.
  rewrite run_bind, (run_deref _ _ (Store.ODict (<[k2:=v2]> (<[k1:=v1]> ∅))))
    by apply lookup_insert_eq.
  by rewrite insert_insert_eq.
Qed.

Lemma wp_new_dict {B} k1 v1 k2 v2 k3 v3 (k : Store.value → Store.M B) h Q :
  (∀ l h', h ⊆ h' → h !! l = None →
     h' !! l = Some (Store.ODict (<[k3 := v3]> (<[k2 := v2]> (<[k1 := v1]> ∅)))) →
     wp (k (Store.VRef l)) h' Q) →
  wp (Store.alloc (Store.ODict ∅) ≫= λ d,
        Store.setitem d k1 v1 ;; Store.setitem d k2 v2 ;; Store.setitem d k3 v3 ;; k d) h Q.
Proof.
  intros H. unfold wp. rewrite run_new_dict.
  assert (h !! fresh (dom h) = None) as Hl by (apply not_elem_of_dom, is_fresh).
  apply H; [by apply insert_subseteq | done | apply lookup_insert_eq].
Qed.

(** [[table[k] for k in keys]] reads the table of sizes. *)
Lemma run_comprehension (h : Store.heap) l (table : gmap string Z) (keys : list string) :
  h !! l = Some (Store.ODict (Store.VInt <$> table)) →
  Store.comprehension (Store.VRef l) ((λ s, Store.VAtom (LStr s)) <$> keys) h
  = (mapM (getitem table) keys, h).
Proof.
  intros Hl. induction keys as [|k keys IH]; [done|].
  cbn [fmap list_fmap Store.comprehension mapM].
  rewrite run_bind. unfold Store.getitem at 1. rewrite run_bind, (run_deref _ _ _ Hl).
  rewrite lookup_fmap.
  destruct (table !! k) as [z|] eqn:Hk.
  - assert (getitem table k = Return z) as -> by (unfold getitem; by rewrite Hk).
    change (Return z ≫= ?f) with (f z). cbv beta.
    change (Store.VInt <$> Some z) with (Some (Store.VInt z)). cbv iota.
    change (Store.ret (Store.VInt z) h) with (Return (Store.VInt z), h). cbv iota beta.
    rewrite run_bind.
    change (Store.int_of (Store.VInt z) h) with (Return z, h). cbv iota beta.
    rewrite run_bind, IH.
    by destruct (mapM (getitem table) keys).
  - assert (getitem table k = Raise (KeyError k)) as -> by (unfold getitem; by rewrite Hk).
    done.
Qed.

(** [len(AR_settings[key])] *)
Lemma wp_len_setting {B} (v : Store.value) settings key (k : Z → Store.M B) h Q :
  settings_at h v (Some settings) →
  match len_setting settings key with
  | Return n => wp (k n) h Q
  | Raise e => Q (Raise e) h
  end →
  wp (Store.getitem v key ≫= λ x, Store.len x ≫= k) h Q.
Proof.
  intros (l & items & -> & Hl & Hitems) H. unfold wp. rewrite run_bind.
  unfold Store.getitem. rewrite run_bind, (run_deref _ _ _ Hl).
  unfold len_setting in H. specialize (Hitems key).
  destruct Hitems as [x s Hx|]; [|done]. simpl.
  destruct s as [zs|z]; simpl in Hx.
  - destruct Hx as (l' & -> & Hl'). rewrite run_bind. simpl.
    rewrite run_bind, (run_deref _ _ _ Hl'). simpl. by rewrite length_fmap.
  - subst x. rewrite run_bind. done.
Qed.

(** *** The call on the store computes the function *)

Lemma wp_ret {A} (a : A) h (Q : result A → Store.heap → Prop) :
  Q (Return a) h → wp (Store.ret a) h Q.
Proof. done. Qed.

Lemma wp_lift {A} (r : result A) h (Q : result A → Store.heap → Prop) :
  Q r h → wp (Store.lift r) h Q.
Proof. done. Qed.

Lemma wp_optional_variables {B} v required name
    (k : Store.value * Store.value → Store.M B) h Q :
  valid h v →
  (∀ h' r, h ⊆ h' →
     same_variables h' r (optional_variables (object_at h v) required name) →
     match r with
     | Return a => wp (k a) h' Q
     | Raise e => Q (Raise e) h'
     end) →
  wp (Store.optional_variables v required name ≫= k) h Q.
Proof.
  intros Hv H. apply wp_bind. unfold Store.optional_variables.
  apply wp_load; [done|]. unfold optional_variables in H.
  destruct (is_None (object_at h v)).
  - apply wp_alloc. intros l h' Hh Hl Hl'. apply wp_ret.
    apply (H h' (Return (Store.VNone, Store.VRef l)) Hh). split; [done|].
    by apply list_at_alloc.
  - apply wp_lift_bind.
    destruct (check_dimnames_DataArray (object_at h v) required name) as [[]|e];
      [|by apply (H h (Raise e))].
    change (Return tt ≫= ?f) with (f tt) in H. cbv beta in H.
    apply wp_lift_bind.
    destruct (da_of (object_at h v)) as [a|e]; [|by apply (H h (Raise e))].
    change (Return a ≫= ?f) with (f a) in H. cbv beta zeta in H.
    unfold Store.new_names. apply wp_alloc. intros l1 h1 Hh1 Hl1 Hl1'.
    apply wp_lift_bind.
    destruct (coord_values (da_coords a) variable_dim) as [values|e];
      [|by apply (H h1 (Raise e))].
    change (Return values ≫= ?f) with (f values) in H. cbv beta in H.
    unfold Store.new_labels. apply wp_alloc. intros l2 h2 Hh2 Hl2 Hl2'.
    apply wp_ret.
    apply (H h2 (Return (Store.VRef l1, Store.VRef l2))); [by etrans|].
    split; [|by apply list_at_alloc].
    apply (list_at_mono h1); [done|]. by apply list_at_alloc.
Qed.

Lemma wp_alloc_end (o : Store.object) h (Q : result Store.value → Store.heap → Prop) :
  (∀ l h', h ⊆ h' → h' !! l = Some o → Q (Return (Store.VRef l)) h') →
  wp (Store.alloc o) h Q.
Proof.
  intros H. unfold wp, Store.alloc. cbv zeta. simpl.
  assert (h !! fresh (dom h) = None) as Hl by (apply not_elem_of_dom, is_fresh).
  apply H; [by apply insert_subseteq | apply lookup_insert_eq].
Qed.

Lemma wp_comprehension {B} l (table : gmap string Z) (keys : list string)
    (k : list Z → Store.M B) h Q :
  h !! l = Some (Store.ODict (Store.VInt <$> table)) →
  match mapM (getitem table) keys with
  | Return zs => wp (k zs) h Q
  | Raise e => Q (Raise e) h
  end →
  wp (Store.comprehension (Store.VRef l) ((λ s, Store.VAtom (LStr s)) <$> keys) ≫= k) h Q.
Proof.
  intros Hl H. apply wp_bind. unfold wp at 1. by rewrite (run_comprehension _ _ _ _ Hl).
Qed.

Lemma names_inj (x y : list string) :
  (λ s, Store.VAtom (LStr s)) <$> x = (λ s, Store.VAtom (LStr s)) <$> y ↔ x = y.
Proof.
  split; [|by intros ->]. revert y. induction x as [|s x IH]; intros [|t y]; try done.
  intros [= -> Hxy]. f_equal. by apply IH.
Qed.

(** A computation that leaves the store as it is and has a known result. *)
Lemma wp_pure {A} (c : Store.M A) (p : result A) h (Q : result A → Store.heap → Prop) :
  wp c h (λ r h', h' = h ∧ r = p) → Q p h → wp c h Q.
Proof. unfold wp. by intros [-> ->]. Qed.

Lemma settings_at_mono h h' v settings :
  h ⊆ h' → settings_at h v settings → settings_at h' v settings.
Proof.
  intros Hh. destruct settings as [s|]; [|done].
  intros (l & items & -> & Hl & Hitems). exists l, items.
  split; [done|]. split; [by eapply lookup_weaken|].
  intros k. specialize (Hitems k). destruct Hitems as [x y Hxy|]; constructor.
  destruct y; simpl in *; [by eapply list_at_mono|done].
Qed.

Lemma sizes_fmap (node time feature : Z) :
  <["feature" := Store.VInt feature]>
    (<["time" := Store.VInt time]> (<["node" := Store.VInt node]> (∅ : gmap string Store.value)))
  = Store.VInt <$> (<["feature" := feature]> (<["time" := time]> (<["node" := node]> ∅))).
Proof. by rewrite !fmap_insert, fmap_empty. Qed.

(** The dictionary just built reads as the dictionary of the function:
    case analysis on the key. *)
Ltac dict_reads_keys :=
  rewrite ?fmap_insert, ?fmap_empty;
  let k := fresh "k" in
  intros k; rewrite !lookup_insert;
  repeat (case_decide; [constructor; simpl|]);
  [..|rewrite !lookup_empty; constructor].
Lemma get_AR_model_diminfo_refines (h : Store.heap)
    (da_dynamic da_static da_bc AR_settings : Store.value)
    (settings : option (gmap string setting)) :
  valid h da_dynamic → valid h da_static → valid h da_bc →
  settings_at h AR_settings settings →
  wp (Store.get_AR_model_diminfo da_dynamic da_static da_bc AR_settings) h
     (λ r h', same_outcome h' r
        (get_AR_model_diminfo (object_at h da_dynamic) (object_at h da_static)
           (object_at h da_bc) settings)).
Proof.
  intros Hdyn Hstatic Hbcv Hsettings.
  unfold Store.get_AR_model_diminfo, get_AR_model_diminfo.
  apply wp_load; [done|]. set (dyn := object_at h da_dynamic).
  apply wp_lift_bind.
  destruct (raise_if (negb (isinstance_DataArray dyn)) _) as [[]|e]; [|done].
  change (Return tt ≫= ?f) with (f tt). cbv beta.
  apply wp_lift_bind.
  destruct (check_dimnames_DataArray dyn _ _) as [[]|e]; [|done].
  change (Return tt ≫= ?f) with (f tt). cbv beta.
  apply wp_lift_bind.
  destruct (da_of dyn) as [a|e]; [|done].
  change (Return a ≫= ?f) with (f a). cbv beta.
  apply wp_lift_bind.
  destruct (coord_values (da_coords a) variable_dim) as [values|e]; [|done].
  change (Return values ≫= ?f) with (f values). cbv beta zeta.
  unfold Store.new_labels at 1. apply wp_alloc. intros l1 h1 Hh1 _ Hl1%list_at_alloc.
  eapply wp_len; [exact Hl1|]. rewrite length_fmap.
  unfold Store.new_names at 1. apply wp_alloc. intros l2 h2 Hh2 _ Hl2%list_at_alloc.
  apply (list_at_mono _ _ _ _ Hh2) in Hl1.
  assert (h ⊆ h2) as Hh02 by (by etrans).
  apply wp_optional_variables; [by apply (valid_mono h)|].
  intros h3 r3 Hh3 Hr3.
  rewrite (object_at_mono h) in Hr3 by done.
  assert (h ⊆ h3) as Hh03 by (by etrans).
  destruct (optional_variables (object_at h da_static) _ _) as [[pdims_static pstatic]|e];
    destruct r3 as [[dims_static static_variables]|e3]; try done.
  destruct Hr3 as [_ Hstat].
  change (Return ?x ≫= ?f) with (f x). cbv beta iota zeta.
  apply (list_at_mono _ _ _ _ Hh3) in Hl1, Hl2.
  eapply wp_len; [exact Hstat|]. rewrite length_fmap.
  apply wp_optional_variables; [by apply (valid_mono h)|].
  intros h4 r4 Hh4 Hr4.
  rewrite (object_at_mono h) in Hr4 by done.
  assert (h ⊆ h4) as Hh04 by (by etrans).
  destruct (optional_variables (object_at h da_bc) _ _) as [[pdims_bc pbc]|e];
    destruct r4 as [[dims_bc bc_variables]|e4]; try done.
  destruct Hr4 as [Hdims_bc Hbc].
  change (Return ?x ≫= ?f) with (f x). cbv beta iota zeta.
  apply (list_at_mono _ _ _ _ Hh4) in Hl1, Hl2, Hstat.
  eapply wp_len; [exact Hbc|]. rewrite length_fmap.
  apply wp_bind.
  assert (wp
    match dims_bc with
    | Store.VNone => Store.ret ()
    | _ =>
        Store.items_of (Store.VRef l2)
        ≫= λ x : list Store.value,
             Store.items_of dims_bc
             ≫= λ y : list Store.value,
                  Store.lift
                    (raise_if (negb (bool_decide (x = y)))
                       (ValueError
                          (Msg "Dimension order of dynamic and bc DataArrays must be equal.")))
    end h4
    (λ r h', h' = h4 ∧
       r = match pdims_bc with
           | Some dims_bc0 =>
               raise_if (negb (bool_decide (da_dims a = dims_bc0)))
                 (ValueError
                    (Msg "Dimension order of dynamic and bc DataArrays must be equal."))
           | None => Return ()
           end)) as Horder.
  { destruct pdims_bc as [names|]; simpl in Hdims_bc.
    - assert (wp (Store.items_of (Store.VRef l2)
        ≫= λ x : list Store.value,
             Store.items_of dims_bc
             ≫= λ y : list Store.value,
                  Store.lift
                    (raise_if (negb (bool_decide (x = y)))
                       (ValueError
                          (Msg "Dimension order of dynamic and bc DataArrays must be equal."))))
          h4 (λ r h', h' = h4 ∧
               r = raise_if (negb (bool_decide (da_dims a = names)))
                 (ValueError
                    (Msg "Dimension order of dynamic and bc DataArrays must be equal.")))) as H.
      { eapply wp_items_of; [exact Hl2|]. eapply wp_items_of; [exact Hdims_bc|].
        apply wp_lift. split; [done|]. f_equal. f_equal.
        apply bool_decide_ext, names_inj. }
      by destruct Hdims_bc as (l & -> & _).
    - subst dims_bc. by apply wp_ret. }
  apply (wp_pure _ _ _ _ Horder). clear Horder.
  destruct (match pdims_bc with Some _ => _ | None => _ end) as [[]|e]; [|done].
  change (Return ?x ≫= ?f) with (f x). cbv beta iota zeta.
  eapply wp_items_of; [exact Hstat|]. eapply wp_items_of; [exact Hbc|].
  eapply wp_items_of; [exact Hl1|].
  apply wp_alloc. intros l5 h5 Hh5 _ Hl5%list_at_alloc.
  assert (h ⊆ h5) as Hh05 by (by etrans).
  apply (list_at_mono _ _ _ _ Hh5) in Hl1, Hl2.
  apply wp_lift_bind.
  destruct (coord_values (da_coords a) "node") as [nodes|e]; [|done].
  change (Return ?x ≫= ?f) with (f x). cbv beta iota zeta.
  apply wp_alloc. intros l6 h6 Hh6 _ Hl6%list_at_alloc.
  assert (h ⊆ h6) as Hh06 by (by etrans).
  eapply wp_items_of; [exact Hl6|].
  apply wp_alloc. intros l7 h7 Hh7 _ Hl7%list_at_alloc.
  assert (h ⊆ h7) as Hh07 by (by etrans).
  assert (h5 ⊆ h7) as Hh57 by (by etrans).
  apply (list_at_mono _ _ _ _ Hh57) in Hl1, Hl5.
  clear Hl2 Hl6 Hstat Hbc Hdims_bc.
  destruct settings as [settings|].
  - apply (settings_at_mono _ _ _ _ Hh07) in Hsettings.
    pose proof Hsettings as (ls & items & -> & Hls & Hitems).
    cbv iota.
    apply (wp_len_setting _ settings); [done|].
    destruct (len_setting settings "input_k") as [input_time_dim|e]; [|done].
    apply (wp_len_setting _ settings); [done|].
    destruct (len_setting settings "output_k") as [output_time_dim|e]; [|done].
    change (Return ?x ≫= ?f) with (f x). cbv beta iota zeta.
    apply wp_new_dict. intros l8 h8 Hh8 _ Hl8. rewrite sizes_fmap in Hl8.
    apply (list_at_mono _ _ _ _ Hh8) in Hl1, Hl5, Hl7.
    eapply wp_items_of; [exact Hl7|]. cbn [tail].
    apply (wp_comprehension _ _ _ _ _ _ Hl8).
    destruct (mapM _ (da_dims a)) as [input_shape|e] eqn:Hshape; [|done].
    change (Return ?x ≫= ?f) with (f x). cbv beta iota zeta.
    apply wp_new_dict. intros l9 h9 Hh9 _ Hl9.
    apply (list_at_mono _ _ _ _ Hh9) in Hl1, Hl5, Hl7.
    apply (lookup_weaken _ _ _ _ Hl8) in Hh9 as Hl8'.
    eapply wp_items_of; [exact Hl7|]. cbn [tail].
    apply (wp_comprehension _ _ _ _ _ _ Hl8'). rewrite Hshape.
    apply wp_alloc_end. intros l10 h10 Hh10 Hl10.
    apply (list_at_mono _ _ _ _ Hh10) in Hl1, Hl5, Hl7.
    exists l10. eexists. split; [done|]. split; [exact Hl10|].
    dict_reads_keys; try reflexivity.
    + by rewrite !fmap_app.
    + done.
    + change (list_at h10 (Store.VRef l7)
                (Store.VAtom (LStr "sample") :: (Store.VAtom <$> (LStr <$> da_dims a)))).
      by rewrite <- list_fmap_compose.
  - simpl in Hsettings. subst AR_settings. cbv iota.
    apply wp_alloc_end. intros l10 h10 Hh10 Hl10.
    apply (list_at_mono _ _ _ _ Hh10) in Hl1, Hl5, Hl7.
    exists l10. eexists. split; [done|]. split; [exact Hl10|].
    dict_reads_keys; try reflexivity.
    + by rewrite !fmap_app.
    + done.
    + change (list_at h10 (Store.VRef l7)
                (Store.VAtom (LStr "sample") :: (Store.VAtom <$> (LStr <$> da_dims a)))).
      by rewrite <- list_fmap_compose.
Qed.

Lemma dict_reads_mono h h' v d : h ⊆ h' → dict_reads h v d → dict_reads h' v d.
Proof.
  intros Hh (l & items & -> & Hl & Hitems). exists l, items.
  split; [done|]. split; [by eapply lookup_weaken|].
  intros k. specialize (Hitems k). destruct Hitems as [x y Hxy|]; constructor.
  destruct y; simpl in *; try done. by eapply list_at_mono.
Qed.

(** C7. [get_AR_model_diminfo] on a store of Python objects.  Whether the
    call returns or raises, every object that was in the store before the
    call (the arrays, the [AR_settings] dictionary and its lists among them)
    is in the store after the call, unchanged.  The outcome is the one of the
    function on the values of the arguments: the exception it raises, or a new
    dictionary that reads as the dictionary it returns.  So a second call
    with the same arguments, made after the first, has the same outcome as the
    first: the same exception, or a dictionary equal to the first one. *)
Theorem get_AR_model_diminfo_pure
    (h : Store.heap) (da_dynamic da_static da_bc AR_settings : Store.value) :
  (∀ l o,
     h !! l = Some o →
     (Store.get_AR_model_diminfo da_dynamic da_static da_bc AR_settings h).2 !! l = Some o) ∧
  (∀ settings,
     valid h da_dynamic → valid h da_static → valid h da_bc →
     settings_at h AR_settings settings →
     same_outcome
       (Store.get_AR_model_diminfo da_dynamic da_static da_bc AR_settings h).2
       (Store.get_AR_model_diminfo da_dynamic da_static da_bc AR_settings h).1
       (get_AR_model_diminfo (object_at h da_dynamic) (object_at h da_static)
          (object_at h da_bc) settings)) ∧
  (∀ settings,
     valid h da_dynamic → valid h da_static → valid h da_bc →
     settings_at h AR_settings settings →
     ∀ r1 h1 r2 h2,
       Store.get_AR_model_diminfo da_dynamic da_static da_bc AR_settings h = (r1, h1) →
       Store.get_AR_model_diminfo da_dynamic da_static da_bc AR_settings h1 = (r2, h2) →
       (∀ l o, h !! l = Some o → h2 !! l = Some o) ∧ same_results h2 r1 r2).
Proof.
  assert (∀ h0 : Store.heap,
            h0 ⊆ (Store.get_AR_model_diminfo da_dynamic da_static da_bc AR_settings h0).2)
    as Hkeeps by (intros h0; by apply get_AR_model_diminfo_keeps).
  split; [|split].
  - intros l o Hl. by eapply lookup_weaken.
  - intros settings Hdyn Hst Hbcv Hsettings.
    by apply (get_AR_model_diminfo_refines h _ _ _ _ settings).
  - intros settings Hdyn Hst Hbcv Hsettings r1 h1 r2 h2 Hrun1 Hrun2.
    pose proof (Hkeeps h) as Hh1. rewrite Hrun1 in Hh1. simpl in Hh1.
    pose proof (Hkeeps h1) as Hh2. rewrite Hrun2 in Hh2. simpl in Hh2.
    split; [intros l o Hl; eapply lookup_weaken; [exact Hl|by etrans]|].
    pose proof (get_AR_model_diminfo_refines h _ _ _ _ settings Hdyn Hst Hbcv Hsettings)
      as Hfirst.
    pose proof (get_AR_model_diminfo_refines h1 da_dynamic da_static da_bc AR_settings settings)
      as Hsecond.
    unfold wp in Hfirst, Hsecond. rewrite Hrun1 in Hfirst. rewrite Hrun2 in Hsecond.
    simpl in Hfirst, Hsecond.
    rewrite !(object_at_mono h h1) in Hsecond by done.
    specialize (Hsecond (valid_mono _ _ _ Hh1 Hdyn) (valid_mono _ _ _ Hh1 Hst)
                  (valid_mono _ _ _ Hh1 Hbcv) (settings_at_mono _ _ _ _ Hh1 Hsettings)).
    unfold same_outcome in Hfirst, Hsecond. unfold same_results.
    destruct (get_AR_model_diminfo _ _ _ settings) as [d|e];
      destruct r1 as [v1|e1]; destruct r2 as [v2|e2]; try done.
    + exists (canon <$> d). split; [by eapply dict_reads_mono|done].
    + congruence.
Qed.

(** The arguments in the sample store are valid, and the call returns a new
    dictionary that reads as the sample dictionary, leaving the five objects
    of the store as they were. *)
Example get_AR_model_diminfo_sample_heap :
  valid sample_heap (Store.VRef 0%nat) ∧ valid sample_heap (Store.VRef 1%nat) ∧
  settings_at sample_heap (Store.VRef 2%nat) (Some sample_settings) ∧
  (Store.get_AR_model_diminfo (Store.VRef 0%nat) (Store.VRef 1%nat) Store.VNone
     (Store.VRef 2%nat) sample_heap).1 = Return (Store.VRef 15%nat) ∧
  get_AR_model_diminfo (object_at sample_heap (Store.VRef 0%nat))
    (object_at sample_heap (Store.VRef 1%nat)) (object_at sample_heap Store.VNone)
    (Some sample_settings) = Return sample_diminfo.
Proof.
  split; [by eexists|]. split; [by eexists|]. split.
  - exists 2%nat, (<["input_k" := Store.VRef 3%nat]> (<["output_k" := Store.VRef 4%nat]> ∅)).
    split; [done|]. split; [vm_compute; reflexivity|].
    intros k. unfold sample_settings. rewrite !lookup_insert.
    repeat (case_decide; [constructor; simpl; by eexists|]).
    rewrite !lookup_empty. constructor.
  - split; vm_compute; reflexivity.
Qed.

(** *** The tutorial script *)

(** C8 (the script run from top to bottom in a module of its own).  The only
    names bound when line 13 is reached are [pg], [ccrs] and [data_dir]; the
    line reads [xr], which is neither bound nor a builtin.  So whatever the
    libraries do, the script does not complete: it raises NameError on [xr]
    when the two imports succeed, and the error of the import otherwise.  No
    dataset is loaded, no score is computed and nothing is plotted. *)
Theorem w_verif_does_not_complete (lib : Tutorial.library) :
  (∃ e, Tutorial.w_verif lib ∅ = Raise e) ∧
  (is_Return (Tutorial.import_module lib "pygsp") →
   is_Return (Tutorial.import_module lib "cartopy.crs") →
   Tutorial.w_verif lib ∅ = Raise (NameError "xr")).
Proof.
  assert (∀ pg ccrs,
            Tutorial.import_module lib "pygsp" = Return pg →
            Tutorial.import_module lib "cartopy.crs" = Return ccrs →
            Tutorial.w_verif lib ∅ = Raise (NameError "xr")) as Hrun.
  { intros pg ccrs Hpg Hccrs.
    unfold Tutorial.w_verif, Tutorial.import_as, mbind, Tutorial.M_bind, Tutorial.mbind.
    rewrite Hpg, Hccrs. reflexivity. }
  split.
  - destruct (Tutorial.import_module lib "pygsp") as [pg|e] eqn:Hpg.
    + destruct (Tutorial.import_module lib "cartopy.crs") as [ccrs|e] eqn:Hccrs.
      * eexists. by eapply Hrun.
      * exists e. unfold Tutorial.w_verif, Tutorial.import_as, mbind, Tutorial.M_bind,
          Tutorial.mbind. rewrite Hpg, Hccrs. reflexivity.
    + exists e. unfold Tutorial.w_verif, Tutorial.import_as, mbind, Tutorial.M_bind,
        Tutorial.mbind. rewrite Hpg. reflexivity.
  - intros [pg Hpg] [ccrs Hccrs]. by eapply Hrun.
Qed.
(** * Further properties *)

(** *** Constant steps *)

Lemma arithmetic_no_gaps ts : arithmetic ts → ¬ has_gaps ts.
Proof.
  intros (t0 & step & Hts) (d1 & d2 & (i & a & b & Ha & Hb & ->) & (j & c & d & Hc & Hd & ->) & Hne).
  apply Hts in Ha, Hb, Hc, Hd. lia.
Qed.

Lemma no_gaps_arithmetic ts : ¬ has_gaps ts → arithmetic ts.
Proof.
  intros Hgaps. destruct ts as [|t0 [|t1 ts]].
  - exists 0, 0. by intros i t [=].
  - exists t0, 0. intros [|i] t; [|done]. intros [= <-]. lia.
  - exists t0, (t1 - t0). intros i. induction i as [|i IH]; intros t Ht.
    + injection Ht as <-. lia.
    + assert (is_Some ((t0 :: t1 :: ts) !! i)) as [u Hu].
      { apply lookup_lt_is_Some. apply lookup_lt_Some in Ht. lia. }
      specialize (IH u Hu). destruct (decide (t - u = t1 - t0)) as [Heq|Hne]; [nia|].
      destruct Hgaps. exists (t1 - t0), (t - u).
      split; [by exists 0%nat, t0, t1|]. split; [by exists i, u, t|]. congruence.
Qed.

Lemma steady_no_gaps ts : steady ts ↔ ¬ has_gaps64 ts.
Proof.
  split.
  - by intros [step Hstep] (d1 & d2 & ->%Hstep & ->%Hstep & ?).
  - intros Hgaps. destruct ts as [|t0 [|t1 ts]].
    + exists 0. intros d (i & a & b & [=] & _).
    + exists 0. intros d (i & a & b & _ & Hb & _). by destruct i.
    + exists (int64 (t1 - t0)). intros d Hd.
      destruct (decide (d = int64 (t1 - t0))) as [|Hne]; [done|].
      destruct Hgaps. exists d, (int64 (t1 - t0)).
      split; [done|]. split; [by exists 0%nat, t0, t1|done].
Qed.

(** The timedelta64 from [b] to [a] is the opposite, as an int64, of the one
    from [a] to [b]. *)
Lemma int64_opp (a b : Z) : int64 (a - b) = int64 (- int64 (b - a)).
Proof. unfold int64. Z.div_mod_to_equations. lia. Qed.

Lemma steady_reverse ts : steady ts → steady (reverse ts).
Proof.
  intros [step Hstep]. exists (int64 (- step)). intros d (i & a & b & Ha & Hb & ->).
  assert (S i < length ts)%nat as Hi.
  { apply lookup_lt_Some in Hb. by rewrite length_reverse in Hb. }
  rewrite reverse_lookup in Ha by lia. rewrite reverse_lookup in Hb by lia.
  rewrite int64_opp. f_equal. f_equal. apply Hstep.
  exists (length ts - S (S i))%nat, b, a. split; [done|]. split; [|done].
  rewrite <- Ha. f_equal. lia.
Qed.

Lemma steady_arithmetic ts : fits_int64 ts → steady ts ↔ arithmetic ts.
Proof.
  intros Hfits. rewrite steady_no_gaps, (has_gaps64_fits ts Hfits).
  split; [apply no_gaps_arithmetic|apply arithmetic_no_gaps].
Qed.



(** X2. A datetime64 array that [_check_timesteps] returns is an array it
    accepts unchanged: checking the result again gives the same array, and
    [check_no_missing_timesteps] has the same outcome on the result as on the
    original object.  This fails for a list of [datetime.datetime] objects:
    the array of objects returned for it is rejected, with a ValueError, when
    it is checked again. *)
Theorem _check_timesteps_again
    (np_datetime64 : string → result Z) (timesteps : timesteps_obj) (ts : list Z)
    (verbose : bool) :
  _check_timesteps np_datetime64 timesteps = Return (ArrDatetime64 ts) →
  _check_timesteps np_datetime64 (TArray (NdTime ts)) = Return (ArrDatetime64 ts) ∧
  check_no_missing_timesteps np_datetime64 (TArray (NdTime ts)) verbose
  = check_no_missing_timesteps np_datetime64 timesteps verbose ∧
  (∀ l, l ≠ [] →
     _check_timesteps np_datetime64 (TList (EDatetime <$> l))
     = Return (ArrObject (EDatetime <$> l)) ∧
     _check_timesteps np_datetime64 (TObjectArray l)
     = Raise (ValueError (Msg "The numpy array must contain datetime objects."))).
Proof.
  intros Hts.
  assert (ts ≠ []) as Hne.
  { apply _check_timesteps_nonempty in Hts. simpl in Hts. by destruct ts. }
  assert (_check_timesteps np_datetime64 (TArray (NdTime ts)) = Return (ArrDatetime64 ts))
    as Hagain.
  { simpl. by destruct ts. }
  split; [done|]. split.
  - by rewrite (check_no_missing_timesteps_unfold _ _ _ _ Hts),
      (check_no_missing_timesteps_unfold _ _ _ _ Hagain).
  - intros l Hl. split.
    + simpl. rewrite length_fmap.
      destruct (decide (length l = 0%nat)) as [Hz|]; [by destruct l|].
      assert (forallb is_datetime (EDatetime <$> l) = true) as ->.
      { clear. by induction l. }
      by rewrite np_array_datetime.
    + simpl. destruct (decide (length l = 0%nat)) as [Hz|]; [by destruct l|done].
Qed.

Lemma _check_timesteps_again_witness :
  _check_timesteps no_datetime64 (TArray (NdTime [0; 6])) = Return (ArrDatetime64 [0; 6]) ∧
  check_no_missing_timesteps no_datetime64 (TArray (NdTime [0; 6])) true
  = check_no_missing_timesteps no_datetime64 (TList [EDatetime64 0; EDatetime64 6]) true ∧
  (∀ l, l ≠ [] →
     _check_timesteps no_datetime64 (TList (EDatetime <$> l))
     = Return (ArrObject (EDatetime <$> l)) ∧
     _check_timesteps no_datetime64 (TObjectArray l)
     = Raise (ValueError (Msg "The numpy array must contain datetime objects."))).
Proof.
  apply (_check_timesteps_again no_datetime64 (TList [EDatetime64 0; EDatetime64 6])).
  reflexivity.
Defined.

(** *** Indices of a subset of timesteps *)

(** The indices kept by the comprehension
    [[idx for idx, v in enumerate(timesteps) if v in set(subset)]]. *)
Lemma subset_idxs_from (k : nat) (ts s : list Z) :
  let kept := filter (λ iv : nat * Z, iv.2 ∈ s) (zip (seq k (length ts)) ts) in
  kept.*2 = filter (λ v, v ∈ s) ts ∧
  StronglySorted lt kept.*1 ∧
  (∀ i, i ∈ kept.*1 ↔ ∃ v, (k ≤ i)%nat ∧ ts !! (i - k)%nat = Some v ∧ v ∈ s).
Proof.
  revert k. induction ts as [|t ts IH]; intros k; cbn zeta.
  - split; [done|]. split; [constructor|]. intros i. split; [by intros ?%elem_of_nil|].
    by intros (v & _ & [=] & _).
  - destruct (IH (S k)) as (Hvals & Hsorted & Hidx). cbn zeta in *.
    cbn [length seq zip zip_with]. rewrite !filter_cons. cbn [snd].
    assert (∀ i, (∃ v, (k ≤ i)%nat ∧ (t :: ts) !! (i - k)%nat = Some v ∧ v ∈ s) ↔
                 (i = k ∧ t ∈ s) ∨
                 (∃ v, (S k ≤ i)%nat ∧ ts !! (i - S k)%nat = Some v ∧ v ∈ s)) as Hcons.
    { intros i. split.
      - intros (v & Hk & Hv & Hs). destruct (decide (i = k)) as [->|Hne].
        + left. rewrite Nat.sub_diag in Hv. injection Hv as ->. done.
        + right. exists v. split; [lia|]. split; [|done].
          replace (i - k)%nat with (S (i - S k)) in Hv by lia. done.
      - intros [[-> Ht]|(v & Hk & Hv & Hs)].
        + exists t. rewrite Nat.sub_diag. done.
        + exists v. split; [lia|]. split; [|done].
          replace (i - k)%nat with (S (i - S k)) by lia. done. }
    destruct (decide (t ∈ s)) as [Ht|Ht]; cbn [fmap list_fmap fst snd].
    + split; [by f_equal|]. split.
      * constructor; [done|]. apply Forall_forall. intros i (v & Hk & _)%Hidx. lia.
      * intros i. rewrite elem_of_cons, Hidx, Hcons. tauto.
    + split; [done|]. split; [done|].
      intros i. rewrite Hidx, Hcons. tauto.
Qed.

Lemma subset_idxs_spec (ts s : list Z) :
  let idxs := (filter (λ iv : nat * Z, iv.2 ∈ s) (enumerate ts)).*1 in
  length idxs = length (filter (λ v, v ∈ s) ts) ∧
  StronglySorted lt idxs ∧
  (∀ i, i ∈ idxs ↔ ∃ v, ts !! i = Some v ∧ v ∈ s).
Proof.
  destruct (subset_idxs_from 0 ts s) as (Hvals & Hsorted & Hidx). cbn zeta in *.
  unfold enumerate. split; [|split; [done|]].
  - by rewrite <- Hvals, !length_fmap.
  - intros i. rewrite Hidx. setoid_rewrite Nat.sub_0_r.
    split; [intros (v & _ & ?); (by exists v) | intros (v & ?); exists v; split; [lia|done]].
Qed.

(** The function on two datetime64 arrays. *)
Lemma _get_subset_timesteps_idxs_unfold np_datetime64 astype obj timesteps subset_timesteps
    strict_match ts subset :
  _check_timesteps np_datetime64 subset_timesteps = Return (ArrDatetime64 subset) →
  _check_timesteps np_datetime64 timesteps = Return (ArrDatetime64 ts) →
  _get_subset_timesteps_idxs np_datetime64 astype obj timesteps subset_timesteps strict_match =
    let s := astype <$> subset in
    let idxs := (filter (λ iv : nat * Z, iv.2 ∈ s) (enumerate ts)).*1 in
    if decide (length idxs = 0%nat) then
      Raised (Exn (ValueError
        (Msg "The 'subset_timesteps' are not within the available 'timesteps'.")))
    else if decide (length idxs ≠ length s) then
      if strict_match then
        Raised (ValueErrorWith "The following 'subset_timesteps' are not within 'timesteps':"
                  (ArrDatetime64 (np_mask s (np_isin_time s ts true))))
      else
        Raised (WarningWith "The following 'subset_timesteps' are not within 'timesteps':"
                  (ArrDatetime64 (np_mask s (np_isin_time s ts true))))
    else Returned idxs.
Proof. intros Hs Hts. unfold _get_subset_timesteps_idxs. by rewrite Hs, Hts. Qed.

(** The indices kept by a comprehension
    [[idx for idx, v in enumerate(a) if ...]], whatever the test. *)
Lemma kept_idxs_from {A} (P : A → Prop) `{∀ x, Decision (P x)} (k : nat) (a : list A) :
  let kept := filter (λ iv : nat * A, P iv.2) (zip (seq k (length a)) a) in
  StronglySorted lt kept.*1 ∧
  (∀ i, i ∈ kept.*1 ↔ ∃ v, (k ≤ i)%nat ∧ a !! (i - k)%nat = Some v ∧ P v).
Proof.
  revert k. induction a as [|t a IH]; intros k; cbn zeta.
  - split; [constructor|]. intros i. split; [by intros ?%elem_of_nil|].
    by intros (v & _ & [=] & _).
  - destruct (IH (S k)) as (Hsorted & Hidx). cbn zeta in *.
    cbn [length seq zip zip_with]. rewrite !filter_cons. cbn [snd].
    assert (∀ i, (∃ v, (k ≤ i)%nat ∧ (t :: a) !! (i - k)%nat = Some v ∧ P v) ↔
                 (i = k ∧ P t) ∨
                 (∃ v, (S k ≤ i)%nat ∧ a !! (i - S k)%nat = Some v ∧ P v)) as Hcons.
    { intros i. split.
      - intros (v & Hk & Hv & Hs). destruct (decide (i = k)) as [->|Hne].
        + left. rewrite Nat.sub_diag in Hv. injection Hv as ->. done.
        + right. exists v. split; [lia|]. split; [|done].
          replace (i - k)%nat with (S (i - S k)) in Hv by lia. done.
      - intros [[-> Ht]|(v & Hk & Hv & Hs)].
        + exists t. rewrite Nat.sub_diag. done.
        + exists v. split; [lia|]. split; [|done].
          replace (i - k)%nat with (S (i - S k)) by lia. done. }
    destruct (decide (P t)) as [Ht|Ht]; cbn [fmap list_fmap fst snd].
    + split.
      * constructor; [done|]. apply Forall_forall. intros i (v & Hk & _)%Hidx. lia.
      * intros i. rewrite elem_of_cons, Hidx, Hcons. tauto.
    + split; [done|]. intros i. rewrite Hidx, Hcons. tauto.
Qed.

Lemma kept_idxs_spec {A} (P : A → Prop) `{∀ x, Decision (P x)} (a : list A) :
  let idxs := (filter (λ iv : nat * A, P iv.2) (enumerate a)).*1 in
  StronglySorted lt idxs ∧ (∀ i, i ∈ idxs ↔ ∃ v, a !! i = Some v ∧ P v).
Proof.
  destruct (kept_idxs_from P 0 a) as (Hsorted & Hidx). cbn zeta in *.
  unfold enumerate. split; [done|].
  intros i. rewrite Hidx. setoid_rewrite Nat.sub_0_r.
  split; [intros (v & _ & ?); (by exists v) | intros (v & ?); exists v; split; [lia|done]].
Qed.

Lemma matching_idxs_spec obj (timesteps subset_timesteps : timesteps_array) :
  StronglySorted lt (matching_idxs obj timesteps subset_timesteps) ∧
  (∀ i, i ∈ matching_idxs obj timesteps subset_timesteps
        ↔ selected obj timesteps subset_timesteps i).
Proof.
  destruct timesteps as [ts|lt], subset_timesteps as [ss|ls]; unfold matching_idxs, selected.
  - exact (kept_idxs_spec (λ v, v ∈ ss) ts).
  - exact (kept_idxs_spec (λ v, in_set obj v (elements (ArrObject ls)) = true) _).
  - exact (kept_idxs_spec (λ v, in_set obj v (elements (ArrDatetime64 ss)) = true) _).
  - exact (kept_idxs_spec (λ v, in_set obj v (elements (ArrObject ls)) = true) _).
Qed.

Lemma _get_subset_timesteps_idxs_Returned np_datetime64 astype obj timesteps subset_timesteps
    strict_match idxs :
  _get_subset_timesteps_idxs np_datetime64 astype obj timesteps subset_timesteps strict_match
    = Returned idxs →
  ∃ a subset converted,
    _check_timesteps np_datetime64 timesteps = Return a ∧
    _check_timesteps np_datetime64 subset_timesteps = Return subset ∧
    astype_as astype obj subset a = Return converted ∧
    idxs = matching_idxs obj a converted ∧
    length idxs ≠ 0%nat ∧ length idxs = arr_size converted.
Proof.
  unfold _get_subset_timesteps_idxs.
  destruct (_check_timesteps np_datetime64 subset_timesteps) as [subset|]; [|done].
  destruct (_check_timesteps np_datetime64 timesteps) as [a|]; [|done].
  destruct (astype_as astype obj subset a) as [converted|] eqn:Hconv; [|done].
  cbv zeta. destruct (decide _) as [|Hlen]; [done|].
  destruct (decide _) as [|Heq]; [by destruct strict_match|].
  intros [= <-]. exists a, subset, converted. apply dec_stable in Heq.
  do 5 (split; [done|]). done.
Qed.



(** X4. [strict_match] never changes whether [_get_subset_timesteps_idxs]
    returns: with [strict_match=False] the function raises a [Warning] with
    the same text and the same list wherever it raises the [ValueError] with
    [strict_match=True], returns the same indices where that returns, and
    raises the same exception otherwise.  So the lenient call returns exactly
    where the strict call returns. *)
Theorem _get_subset_timesteps_idxs_strict_match
    (np_datetime64 : string → result Z) (astype : Z → Z) (obj : objects)
    (timesteps subset_timesteps : timesteps_obj) :
  strict_as_lenient
    (_get_subset_timesteps_idxs np_datetime64 astype obj timesteps subset_timesteps true)
    (_get_subset_timesteps_idxs np_datetime64 astype obj timesteps subset_timesteps false) ∧
  (∀ idxs,
     _get_subset_timesteps_idxs np_datetime64 astype obj timesteps subset_timesteps false
       = Returned idxs ↔
     _get_subset_timesteps_idxs np_datetime64 astype obj timesteps subset_timesteps true
       = Returned idxs).
Proof.
  unfold _get_subset_timesteps_idxs, strict_as_lenient.
  destruct (_check_timesteps np_datetime64 subset_timesteps) as [subset|]; [|done].
  destruct (_check_timesteps np_datetime64 timesteps) as [ts|]; [|done].
  destruct (astype_as astype obj subset ts) as [converted|]; [|done].
  cbv zeta. destruct (decide _); [done|]. by destruct (decide _).
Qed.

(** What is compared is the number of matching positions with the length of
    the subset: on timesteps that repeat one, a subset with a timestep that
    is not among them is returned, in both modes. *)
Example _get_subset_timesteps_idxs_counts (strict_match : bool) :
  _get_subset_timesteps_idxs no_datetime64 id sample_objects
    (TArray (NdTime [0; 6; 6; 12])) (TArray (NdTime [6; 0; 30])) strict_match
  = Returned [0; 1; 2]%nat.
Proof. by destruct strict_match. Qed.

(** *** Subsets without repetition *)

Lemma missing_timesteps (s ts : list Z) :
  np_mask s (np_isin_time s ts true) = filter (λ v, v ∉ ts) s.
Proof.
  induction s as [|v s IH]; [done|].
  cbn [np_isin_time fmap list_fmap np_mask]. fold (np_isin_time s ts true).
  rewrite IH. destruct (decide (v ∈ ts)) as [Hin|Hin].
  - rewrite bool_decide_eq_true_2 by done. simpl.
    by rewrite filter_cons_False by (intros ?; contradiction).
  - rewrite bool_decide_eq_false_2 by done. simpl.
    by rewrite filter_cons_True by done.
Qed.

Lemma filter_length_all {A} (P : A → Prop) `{∀ x, Decision (P x)} (l : list A) :
  length (filter P l) = length l ↔ ∀ x, x ∈ l → P x.
Proof.
  split.
  - intros Hlen x Hx. destruct (decide (P x)) as [|Hn]; [done|].
    pose proof (length_filter_lt P l x Hx Hn). lia.
  - intros Hall. induction l as [|x l IH]; [done|].
    rewrite filter_cons_True by (apply Hall; left). simpl. f_equal.
    apply IH. intros y Hy. apply Hall. by right.
Qed.

Lemma filter_nil_none {A} (P : A → Prop) `{∀ x, Decision (P x)} (l : list A) :
  length (filter P l) = 0%nat ↔ ∀ x, x ∈ l → ¬ P x.
Proof.
  split.
  - intros Hlen x Hx HP.
    assert (x ∈ filter P l) as Hin by (by apply list_elem_of_filter).
    destruct (filter P l); [by apply elem_of_nil in Hin|done].
  - intros Hnone. induction l as [|x l IH]; [done|].
    rewrite filter_cons_False by (apply Hnone; left).
    apply IH. intros y Hy. apply Hnone. by right.
Qed.

(** The timesteps of [ts] that are in [s] and the timesteps of [s] that are
    in [ts] are the same, up to their order, when neither repeats one. *)
Lemma filter_common (ts s : list Z) :
  NoDup ts → NoDup s →
  filter (λ v, v ∈ s) ts ≡ₚ filter (λ v, v ∈ ts) s.
Proof.
  intros Hts Hs. apply NoDup_Permutation; [by apply NoDup_filter..|].
  intros x. rewrite !list_elem_of_filter. tauto.
Qed.

Lemma timesteps_at_idxs (k : nat) (ts s pre : list Z) :
  length pre = k →
  (λ i, (pre ++ ts) !!! i) <$>
    (filter (λ iv : nat * Z, iv.2 ∈ s) (zip (seq k (length ts)) ts)).*1
  = filter (λ v, v ∈ s) ts.
Proof.
  revert k pre. induction ts as [|t ts IH]; intros k pre Hk; [done|].
  cbn [length seq zip zip_with]. rewrite !filter_cons. cbn [snd].
  specialize (IH (S k) (pre ++ [t])). rewrite <- app_assoc in IH. cbn [app] in IH.
  rewrite length_app in IH. simpl in IH. specialize (IH ltac:(lia)).
  destruct (decide (t ∈ s)); cbn [fmap list_fmap fst]; [|done].
  f_equal; [|done]. subst k. by rewrite list_lookup_total_middle.
Qed.

Lemma timesteps_at_subset_idxs (ts s : list Z) :
  timesteps_at ts (filter (λ iv : nat * Z, iv.2 ∈ s) (enumerate ts)).*1
  = filter (λ v, v ∈ s) ts.
Proof. apply (timesteps_at_idxs 0 ts s []). done. Qed.







(** *** Dimension names of Datasets *)

Lemma check_dimnames_Dataset_Return ds required name :
  check_dimnames_Dataset (PyDataset ds) required name = Return tt ↔ ds_has_dims required ds.
Proof.
  unfold check_dimnames_Dataset, ds_has_dims. rewrite raise_if_Return, bool_decide_eq_false.
  rewrite <- missing_dims_nil.
  destruct (np_mask _ _); simpl; split; try done; try lia.
Qed.

Lemma check_dimnames_Dataset_cases ds required name :
  check_dimnames_Dataset (PyDataset ds) required name = Return tt ∨
  is_ValueError (check_dimnames_Dataset (PyDataset ds) required name).
Proof.
  unfold check_dimnames_Dataset, raise_if, is_ValueError.
  case_bool_decide; eauto.
Qed.

Lemma unless_None_optional_dataset (o : option Dataset) required name :
  unless_None (optional_dataset o)
    (check_dimnames_Dataset (optional_dataset o) required name) = Return tt ↔
  ∀ ds, o = Some ds → ds_has_dims required ds.
Proof.
  destruct o as [ds|].
  - unfold unless_None, optional_dataset, is_None. rewrite check_dimnames_Dataset_Return.
    split; [by intros H ? [= <-] | eauto].
  - split; [by intros _ ? [=] | done].
Qed.

(** X8. On a Dataset, [check_dimnames_Dataset] raises ValueError exactly
    when a required name is not a dimension of the Dataset, and returns
    otherwise; on a DataArray it raises TypeError, as
    [check_dimnames_DataArray] does on a Dataset.  [_check_AR_Dataset_dimnames]
    passes exactly when the dynamic and the bc Dataset (if given) have 'time'
    and 'node' and the static Dataset (if given) has 'node': no 'feature'
    dimension is asked of a Dataset. *)
Theorem check_dimnames_Dataset_required
    (ds : Dataset) (required_dimnames : list string) (ds_name : string) :
  (is_ValueError (check_dimnames_Dataset (PyDataset ds) required_dimnames ds_name) ↔
     ∃ r, r ∈ required_dimnames ∧ r ∉ ds_dims ds) ∧
  (check_dimnames_Dataset (PyDataset ds) required_dimnames ds_name = Return tt ↔
     ∀ r, r ∈ required_dimnames → r ∈ ds_dims ds) ∧
  (∀ da, check_dimnames_Dataset (PyDataArray da) required_dimnames ds_name
         = Raise (TypeError (Msg "'ds' must be an xarray Dataset"))) ∧
  check_dimnames_DataArray (PyDataset ds) required_dimnames ds_name
    = Raise (TypeError (Msg "'da' must be an xarray DataArray")) ∧
  (∀ dyn bc static : option Dataset,
     _check_AR_Dataset_dimnames (optional_dataset dyn) (optional_dataset bc)
       (optional_dataset static) = Return tt ↔
     (∀ d, dyn = Some d → ds_has_dims ["time"; "node"] d) ∧
     (∀ b, bc = Some b → ds_has_dims ["time"; "node"] b) ∧
     (∀ s, static = Some s → ds_has_dims ["node"] s)).
Proof.
  split; [|split; [apply check_dimnames_Dataset_Return|split; [done|split; [done|]]]].
  - split.
    + intros [m Hm].
      destruct (decide (Forall (λ r, r ∈ ds_dims ds) required_dimnames)) as [Hall|Hex].
      * rewrite Forall_forall in Hall.
        apply (check_dimnames_Dataset_Return ds required_dimnames ds_name) in Hall. congruence.
      * apply not_Forall_Exists in Hex; [|apply _].
        apply Exists_exists in Hex as (r & Hr & Hn). eauto.
    + intros (r & Hr & Hn).
      destruct (check_dimnames_Dataset_cases ds required_dimnames ds_name) as [Hok|Herr];
        [|done].
      apply check_dimnames_Dataset_Return in Hok. exfalso. by apply Hn, Hok.
  - intros dyn bc static.
    unfold _check_AR_Dataset_dimnames, time_dim, node_dim.
    rewrite !bind_unit_Return, !unless_None_optional_dataset. tauto.
Qed.

(** *** What a normal return of the checks of the arrays guarantees *)

Lemma unless_None_dimnames_Return o required name :
  unless_None o (check_dimnames_DataArray o required name) = Return tt →
  o = PyNone ∨ ∃ da, o = PyDataArray da ∧ has_dims required da.
Proof.
  destruct o as [|da|ds|]; [by left| |done|done].
  unfold unless_None. simpl is_None. cbv iota.
  intros Hck%check_dimnames_DataArray_Return. right. by exists da.
Qed.

Lemma check_no_missing_timesteps_array np_datetime64 values verbose :
  check_no_missing_timesteps np_datetime64 (TArray values) verbose = Return tt ↔
  ∃ ts, values = NdTime ts ∧ ts ≠ [] ∧ steady ts.
Proof.
  split.
  - intros Hck. destruct values as [l|l|ts];
      try (unfold check_no_missing_timesteps in Hck; simpl in Hck;
           by destruct (decide (length l = 0%nat))).
    destruct ts as [|t ts]; [done|].
    rewrite (check_no_missing_timesteps_unfold _ _ _ (t :: ts)) in Hck by done.
    exists (t :: ts). split; [done|]. split; [done|]. apply steady_no_gaps.
    apply raise_if_Return, bool_decide_eq_false in Hck.
    by rewrite np_unique_counts_gt_1, <- has_gaps_np_diff in Hck.
  - intros (ts & -> & Hne & Hts).
    rewrite (check_no_missing_timesteps_unfold _ _ _ ts) by (simpl; by destruct ts).
    apply raise_if_Return, bool_decide_eq_false.
    rewrite np_unique_counts_gt_1, <- has_gaps_np_diff. by apply steady_no_gaps.
Qed.

Lemma da_check_time_Return np_datetime64 o verbose :
  da_check_time np_datetime64 o verbose = Return tt →
  ∃ da, o = PyDataArray da ∧ regular_time (da_coords da).
Proof.
  unfold da_check_time, da_time_values.
  intros (values & (da & Hda & Hvalues)%bind_Return & Hck)%bind_Return.
  destruct o as [|da'|ds|]; try done. injection Hda as ->.
  apply check_no_missing_timesteps_array in Hck as (ts & -> & Hne & Hts).
  exists da. split; [done|]. by exists ts.
Qed.

Lemma unless_None_check_time np_datetime64 o verbose :
  unless_None o (da_check_time np_datetime64 o verbose) = Return tt →
  o = PyNone ∨ ∃ da, o = PyDataArray da ∧ regular_time (da_coords da).
Proof.
  destruct o as [|da|ds|]; [by left|..]; unfold unless_None; simpl is_None; cbv iota;
    intros H%da_check_time_Return; by right.
Qed.

Lemma checked_array_intro required o :
  (o = PyNone ∨ ∃ da, o = PyDataArray da ∧ has_dims required da) →
  (o = PyNone ∨ ∃ da, o = PyDataArray da ∧ regular_time (da_coords da)) →
  checked_array required o.
Proof.
  intros [->|(da & -> & Hdims)] [Hn|(da' & Hda' & Htime)]; [by left..|].
  injection Hda' as <-. right. exists da. done.
Qed.

Lemma fmap_LTime_inj (a b : list Z) : LTime <$> a = LTime <$> b → a = b.
Proof.
  revert b. induction a as [|x a IH]; intros [|y b]; try done.
  intros [= -> Hab]. f_equal. by apply IH.
Qed.

Lemma forallb_broadcast (t : Z) (b : list Z) :
  forallb id ((λ y, bool_decide (LTime t = y)) <$> (LTime <$> b)) = true →
  ∀ x, x ∈ b → x = t.
Proof.
  induction b as [|y b IH]; simpl; [by intros _ x ?%elem_of_nil|].
  intros [Hy Hb]%andb_true_iff x [->|Hx]%elem_of_cons; [|by apply IH].
  apply bool_decide_eq_true in Hy. congruence.
Qed.

Lemma forallb_broadcast_r (t : Z) (a : list Z) :
  forallb id ((λ x, bool_decide (x = LTime t)) <$> (LTime <$> a)) = true →
  ∀ x, x ∈ a → x = t.
Proof.
  induction a as [|y a IH]; simpl; [by intros _ x ?%elem_of_nil|].
  intros [Hy Ha]%andb_true_iff x [->|Hx]%elem_of_cons; [|by apply IH].
  apply bool_decide_eq_true in Hy. congruence.
Qed.

(** What [np.all(a == b)] and the builtin [all] accept on two time axes. *)
Lemma np_eq_aligned release (a b : list Z) c :
  np_eq release (LTime <$> a) (LTime <$> b) = Return c →
  (np_all c = true ∨ builtin_all c = Return true) → aligned a b.
Proof.
  unfold np_eq. destruct (decide _) as [Hlen|Hlen].
  - intros [= <-] Hall. left. apply fmap_LTime_inj, forallb_zip_eq; [done|].
    destruct Hall as [Hall|[= Hall]]; done.
  - destruct a as [|x [|x' a]]; destruct b as [|y [|y' b]]; simpl in *; try done;
      try (destruct release; [|done]; intros [= <-] [|]; done).
    + intros [= <-] _. right. right. exists y. split; [done|]. by intros ? ?%elem_of_nil.
    + intros [= <-] _. right. left. exists x. split; [done|]. by intros ? ?%elem_of_nil.
    + intros [= <-] Hall. right. left. exists x. split; [done|].
      apply (forallb_broadcast x (y :: y' :: b)).
      destruct Hall as [Hall|[= Hall]]; done.
    + intros [= <-] Hall. right. right. exists y. split; [done|].
      apply (forallb_broadcast_r y (x :: x' :: a)).
      destruct Hall as [Hall|[= Hall]]; done.
Qed.

Lemma regular_time_axis_da da ts :
  coord_values (da_coords da) "time" = Return (NdTime ts) → time_axis (PyDataArray da) = ts.
Proof. intros H. unfold time_axis. by rewrite H. Qed.

Lemma da_same_timesteps_aligned release a b m :
  regular_time (da_coords a) → regular_time (da_coords b) →
  (same ← da_same_timesteps release (PyDataArray a) (PyDataArray b);
   raise_if (negb (np_all same)) (ValueError m)) = Return tt →
  aligned (time_axis (PyDataArray a)) (time_axis (PyDataArray b)).
Proof.
  intros (ta & Ha & _) (tb & Hb & _).
  rewrite (regular_time_axis_da _ _ Ha), (regular_time_axis_da _ _ Hb).
  unfold da_same_timesteps, da_time_values. simpl da_of.
  change (Return ?x ≫= ?f) with (f x). cbv beta. rewrite Ha, Hb.
  change (Return ?x ≫= ?f) with (f x). cbv beta.
  change (Return ?x ≫= ?f) with (f x). cbv beta.
  intros (c & Hc & Hall%raise_if_Return%negb_false_iff)%bind_Return.
  eapply np_eq_aligned; [exact Hc|by left].
Qed.

(** The checks of [check_AR_DataArrays] before the comparison of the
    dimension information, one by one. *)
Lemma check_AR_DataArrays_alignment_inv np_datetime64 release
    train val tbc vbc static verbose :
  check_AR_DataArrays_alignment np_datetime64 release train val tbc vbc static verbose
    = Return tt →
  isinstance_DataArray train = true ∧
  (is_None vbc = false → isinstance_DataArray val = true) ∧
  (is_None val = false → is_None tbc = false → is_None vbc = false) ∧
  (∀ o required,
     (o, required) ∈ [(train, ["time"; "node"; "feature"]); (val, ["time"; "node"; "feature"]);
                      (tbc, ["time"; "node"; "feature"]); (vbc, ["time"; "node"; "feature"]);
                      (static, ["node"; "feature"])] →
     o = PyNone ∨ ∃ da, o = PyDataArray da ∧ has_dims required da) ∧
  (∀ o, o ∈ [train; val; tbc; vbc] →
     o = PyNone ∨ ∃ da, o = PyDataArray da ∧ regular_time (da_coords da)) ∧
  unless_None tbc
    (same ← da_same_timesteps release train tbc;
     raise_if (negb (np_all same))
       (ValueError (Msg "The training dynamic DataArray and the training boundary conditions DataArray does not have the same timesteps!")))
    = Return tt ∧
  (if negb (is_None val) && negb (is_None vbc) then
     same ← da_same_timesteps release val vbc;
     raise_if (negb (np_all same))
       (ValueError (Msg "The validation dynamic DataArray and the validation boundary conditions DataArray does not have the same timesteps!"))
   else Return tt) = Return tt.
Proof.
  unfold check_AR_DataArrays_alignment. intros Hal.
  apply bind_unit_Return in Hal as [Htrain Hal].
  apply bind_unit_Return in Hal as [Hvbc_val Hal].
  apply bind_unit_Return in Hal as [Hdims1 Hal].
  apply bind_unit_Return in Hal as [Hdims2 Hal].
  apply bind_unit_Return in Hal as [Hprovided Hal].
  apply bind_unit_Return in Hal as [Ht1 Hal].
  apply bind_unit_Return in Hal as [Ht2 Hal].
  apply bind_unit_Return in Hal as [Ht3 Hal].
  apply bind_unit_Return in Hal as [Ht4 Hal].
  apply bind_unit_Return in Hal as [Hsame1 Hsame2].
  unfold _check_AR_DataArray_dimnames, time_dim, node_dim, variable_dim in Hdims1, Hdims2.
  apply bind_unit_Return in Hdims1 as [Hd_train Hdims1].
  apply bind_unit_Return in Hdims1 as [Hd_static Hd_tbc].
  apply bind_unit_Return in Hdims2 as [Hd_val Hdims2].
  apply bind_unit_Return in Hdims2 as [_ Hd_vbc].
  apply unless_None_dimnames_Return in Hd_train, Hd_static, Hd_tbc, Hd_val, Hd_vbc.
  apply da_check_time_Return in Ht1 as Htime.
  apply unless_None_check_time in Ht2, Ht3, Ht4.
  apply raise_if_Return in Htrain, Hvbc_val.
  split; [by destruct train|].
  split; [intros Hvbc; rewrite Hvbc in Hvbc_val; by destruct val|].
  split.
  { intros Hval Htbc. unfold unless_None in Hprovided. rewrite Hval, Htbc in Hprovided.
    simpl in Hprovided. by destruct (is_None vbc). }
  split.
  { intros o required Hin.
    repeat (apply elem_of_cons in Hin as [[= -> ->]|Hin]; [done|]).
    by apply elem_of_nil in Hin. }
  split; [|done].
  intros o Hin. apply elem_of_cons in Hin as [->|Hin]; [by right|].
  repeat (apply elem_of_cons in Hin as [->|Hin]; [done|]).
  by apply elem_of_nil in Hin.
Qed.



(** X10. When [check_AR_DataArrays] returns, the time axes of the dynamic
    and of the bc array (of the training pair, and of the validation pair) are
    aligned in the sense of [np.all(a == b)]: they are the same axis, or one
    of them is a single timestep and the other consists of that timestep only.
    In particular two axes of the same length are equal. *)
Theorem check_AR_DataArrays_aligned
    (np_datetime64 : string → result Z) (release : numpy_release)
    (da_training_dynamic da_validation_dynamic da_training_bc da_validation_bc
     da_static : pyobj) (verbose : bool) :
  check_AR_DataArrays np_datetime64 release da_training_dynamic da_validation_dynamic
    da_training_bc da_validation_bc da_static verbose = Return tt →
  (da_training_bc ≠ PyNone →
     aligned (time_axis da_training_dynamic) (time_axis da_training_bc) ∧
     (length (time_axis da_training_dynamic) = length (time_axis da_training_bc) →
      time_axis da_training_dynamic = time_axis da_training_bc)) ∧
  (da_validation_dynamic ≠ PyNone → da_validation_bc ≠ PyNone →
     aligned (time_axis da_validation_dynamic) (time_axis da_validation_bc) ∧
     (length (time_axis da_validation_dynamic) = length (time_axis da_validation_bc) →
      time_axis da_validation_dynamic = time_axis da_validation_bc)).
Proof.
  assert (∀ a b : list Z, aligned a b → length a = length b → a = b) as Hsame.
  { intros a b [->|[(t & -> & Hb)|(t & -> & Ha)]] Hlen; [done|..].
    - destruct b as [|x [|? ?]]; try done. f_equal. symmetry. apply Hb. by left.
    - destruct a as [|x [|? ?]]; try done. f_equal. apply Ha. by left. }
  unfold check_AR_DataArrays. intros [Hal _]%bind_unit_Return.
  apply check_AR_DataArrays_alignment_inv in Hal
    as (Htrain & _ & _ & _ & Htimes & Hsame1 & Hsame2).
  assert (∀ o, o ∈ [da_training_dynamic; da_validation_dynamic; da_training_bc;
                    da_validation_bc] → o ≠ PyNone →
               ∃ da, o = PyDataArray da ∧ regular_time (da_coords da)) as Hreg.
  { intros o Hin Ho. by destruct (Htimes o Hin). }
  split.
  - intros Htbc.
    destruct (Hreg da_training_dynamic) as (a & -> & Ha);
      [in_list|by destruct da_training_dynamic|].
    destruct (Hreg da_training_bc) as (b & -> & Hb); [in_list|done|].
    unfold unless_None in Hsame1. simpl is_None in Hsame1. cbv iota in Hsame1.
    apply da_same_timesteps_aligned in Hsame1; [|done..]. split; [done|by apply Hsame].
  - intros Hval Hvbc.
    destruct (Hreg da_validation_dynamic) as (a & -> & Ha); [in_list|done|].
    destruct (Hreg da_validation_bc) as (b & -> & Hb); [in_list|done|].
    simpl in Hsame2. apply da_same_timesteps_aligned in Hsame2; [|done..].
    split; [done|by apply Hsame].
Qed.

Lemma check_AR_DataArrays_aligned_witness :
  (PyDataArray sample_bc ≠ PyNone →
     aligned (time_axis (PyDataArray sample_dynamic)) (time_axis (PyDataArray sample_bc)) ∧
     (length (time_axis (PyDataArray sample_dynamic))
        = length (time_axis (PyDataArray sample_bc)) →
      time_axis (PyDataArray sample_dynamic) = time_axis (PyDataArray sample_bc))) ∧
  (PyNone ≠ PyNone → PyNone ≠ PyNone →
     aligned (time_axis PyNone) (time_axis PyNone) ∧
     (length (time_axis PyNone) = length (time_axis PyNone) →
      time_axis PyNone = time_axis PyNone)).
Proof.
  apply (check_AR_DataArrays_aligned no_datetime64 numpy_from_1_25
           (PyDataArray sample_dynamic) PyNone (PyDataArray sample_bc) PyNone PyNone false).
  vm_compute. reflexivity.
Defined.

(** *** What a normal return of the checks of the Datasets guarantees *)

Lemma unless_None_dimnames_Dataset_Return o required name :
  unless_None o (check_dimnames_Dataset o required name) = Return tt →
  o = PyNone ∨ ∃ ds, o = PyDataset ds ∧ ds_has_dims required ds.
Proof.
  destruct o as [|da|ds|]; [by left|done| |done].
  unfold unless_None. simpl is_None. cbv iota.
  intros Hck%check_dimnames_Dataset_Return. right. by exists ds.
Qed.

Lemma ds_check_time_Return np_datetime64 o verbose :
  ds_check_time np_datetime64 o verbose = Return tt →
  (∃ ds, o = PyDataset ds ∧ regular_time (ds_coords ds)) ∨
  (∃ da, o = PyDataArray da ∧ regular_time (da_coords da)).
Proof.
  unfold ds_check_time, ds_time_values.
  intros (values & Hvalues & Hck)%bind_Return.
  apply check_no_missing_timesteps_array in Hck as (ts & -> & Hne & Hts).
  destruct o as [|da|ds|]; try done; [right; exists da|left; exists ds];
    (split; [done|]; by exists ts).
Qed.

Lemma checked_dataset_intro np_datetime64 required o verbose :
  (o = PyNone ∨ ∃ ds, o = PyDataset ds ∧ ds_has_dims required ds) →
  unless_None o (ds_check_time np_datetime64 o verbose) = Return tt →
  checked_dataset required o.
Proof.
  intros [->|(ds & -> & Hdims)] Htime; [by left|]. right. exists ds.
  split; [done|]. split; [done|]. intros _.
  unfold unless_None in Htime. simpl is_None in Htime. cbv iota in Htime.
  apply ds_check_time_Return in Htime as [(ds' & [= <-] & H)|(da & [=] & _)]. done.
Qed.

Lemma ds_same_timesteps_aligned release a b m :
  regular_time (ds_coords a) → regular_time (ds_coords b) →
  (same_timesteps ← ds_same_timesteps release (PyDataset a) (PyDataset b);
   all_same ← builtin_all same_timesteps;
   raise_if (negb all_same) (ValueError m)) = Return tt →
  aligned (time_axis (PyDataset a)) (time_axis (PyDataset b)).
Proof.
  intros (ta & Ha & _) (tb & Hb & _). unfold time_axis. rewrite Ha, Hb.
  unfold ds_same_timesteps, ds_time_values. rewrite Ha, Hb.
  change (Return ?x ≫= ?f) with (f x). cbv beta.
  change (Return ?x ≫= ?f) with (f x). cbv beta.
  intros (c & Hc & (all_same & Hall & Hraise%raise_if_Return%negb_false_iff)%bind_Return)
    %bind_Return.
  subst all_same. eapply np_eq_aligned; [exact Hc|by right].
Qed.



(** *** When the checks of the arrays pass *)

Lemma check_no_missing_timesteps_regular np_datetime64 ts verbose :
  ts ≠ [] → steady ts →
  check_no_missing_timesteps np_datetime64 (TArray (NdTime ts)) verbose = Return tt.
Proof.
  intros Hne Hts. apply check_no_missing_timesteps_array. by exists ts.
Qed.

Lemma da_check_time_regular np_datetime64 da verbose :
  regular_time (da_coords da) → da_check_time np_datetime64 (PyDataArray da) verbose = Return tt.
Proof.
  intros (ts & Hts & Hne & Harith). unfold da_check_time, da_time_values. simpl da_of.
  change (Return ?x ≫= ?f) with (f x). cbv beta. rewrite Hts.
  change (Return ?x ≫= ?f) with (f x). cbv beta.
  by apply check_no_missing_timesteps_regular.
Qed.

Lemma forallb_all_equal (t : Z) (b : list Z) :
  (∀ x, x ∈ b → x = t) →
  forallb id ((λ y, bool_decide (LTime t = y)) <$> (LTime <$> b)) = true ∧
  forallb id ((λ y, bool_decide (y = LTime t)) <$> (LTime <$> b)) = true.
Proof.
  induction b as [|y b IH]; [done|]. intros Hb.
  destruct IH as [IH1 IH2]; [intros x Hx; apply Hb; by right|].
  assert (y = t) as -> by (apply Hb; by left).
  split; simpl; apply andb_true_iff; (split; [by apply bool_decide_eq_true|done]).
Qed.

Lemma np_eq_of_aligned release (a b : list Z) :
  aligned a b → ∃ c, np_eq release (LTime <$> a) (LTime <$> b) = Return c ∧ np_all c = true.
Proof.
  intros [->|[(t & -> & Hb)|(t & -> & Ha)]].
  - destruct (np_eq_same_length release (LTime <$> b) (LTime <$> b) eq_refl)
      as (c & Hc & Hall & _).
    exists c. split; [done|]. by apply Hall.
  - destruct (forallb_all_equal t b Hb) as [H1 _].
    unfold np_eq. destruct (decide _) as [Hlen|Hlen].
    + destruct b as [|x [|? ?]]; try done. eexists. split; [done|]. exact H1.
    + simpl. eexists. split; [done|]. exact H1.
  - destruct (forallb_all_equal t a Ha) as [H1 H2].
    unfold np_eq. destruct (decide _) as [Hlen|Hlen].
    + destruct a as [|x [|? ?]]; try done. eexists. split; [done|].
      simpl in *. rewrite andb_true_r in *. apply bool_decide_eq_true in H1.
      by rewrite bool_decide_eq_true_2.
    + destruct a as [|x [|x' a]]; simpl in *; try done.
      * by eexists.
      * eexists. split; [done|]. exact H2.
Qed.

Lemma da_same_timesteps_iff release a b m :
  regular_time (da_coords a) → regular_time (da_coords b) →
  (same ← da_same_timesteps release (PyDataArray a) (PyDataArray b);
   raise_if (negb (np_all same)) (ValueError m)) = Return tt ↔
  aligned (time_axis (PyDataArray a)) (time_axis (PyDataArray b)).
Proof.
  intros Ha Hb. split; [by apply da_same_timesteps_aligned|].
  destruct Ha as (ta & Ha & _), Hb as (tb & Hb & _).
  rewrite (regular_time_axis_da _ _ Ha), (regular_time_axis_da _ _ Hb).
  intros (c & Hc & Hall)%(np_eq_of_aligned release).
  unfold da_same_timesteps, da_time_values. simpl da_of.
  change (Return ?x ≫= ?f) with (f x). cbv beta. rewrite Ha, Hb.
  change (Return ?x ≫= ?f) with (f x). cbv beta.
  change (Return ?x ≫= ?f) with (f x). cbv beta.
  unfold tolist. rewrite Hc.
  change (Return ?x ≫= ?f) with (f x). cbv beta. by rewrite Hall.
Qed.


(** *** Dimension information: when it is returned, and the shapes *)

Lemma size_along_is_Some node time feature k :
  is_Some (size_along node time feature k) ↔ k ∈ ["time"; "node"; "feature"].
Proof.
  unfold size_along. split.
  - intros [z Hz]. repeat case_decide; subst; try done; in_list.
  - intros Hk. repeat (apply elem_of_cons in Hk as [->|Hk]; [by eexists|]).
    by apply elem_of_nil in Hk.
Qed.

Lemma mapM_getitem_is_Return (m : gmap string Z) (dims : list string) :
  is_Return (mapM (getitem m) dims) ↔ ∀ k, k ∈ dims → is_Some (m !! k).
Proof.
  split.
  - intros [shape Hshape%mapM_getitem_Return] k Hk.
    apply list_elem_of_lookup in Hk as [i Hi].
    destruct (Forall2_lookup_l _ _ _ _ _ Hshape Hi) as (z & _ & Hz). by exists z.
  - intros Hdims. induction dims as [|k dims IH]; [by eexists|].
    destruct (Hdims k) as [z Hz]; [by left|].
    destruct IH as [shape Hshape]; [intros k' Hk'; apply Hdims; by right|].
    exists (z :: shape). apply mapM_getitem_Return. constructor; [done|].
    by apply mapM_getitem_Return.
Qed.

Lemma mapM_getitem_Raise (m : gmap string Z) (dims : list string) i k :
  list_find (λ k, m !! k = None) dims = Some (i, k) →
  mapM (getitem m) dims = Raise (KeyError k).
Proof.
  revert i. induction dims as [|k' dims IH]; intros i; [done|].
  cbn [list_find mapM]. unfold getitem in *. case_decide as Hk'.
  - intros ?. simplify_eq. by rewrite Hk'.
  - destruct (m !! k') as [z|] eqn:Hz; [|done].
    destruct (list_find _ dims) as [[j k'']|] eqn:Hfind; [|done].
    intros [= _ <-]. change (Return z ≫= ?f) with (f z). cbv beta.
    by rewrite (IH j eq_refl).
Qed.

(** X13. [get_AR_model_diminfo] on a dynamic DataArray and optional static
    and bc DataArrays returns a dictionary exactly when: the dynamic array has
    the dimensions 'time', 'node' and 'feature'; the static array has 'node'
    and 'feature'; the bc array has the three dimensions and lists its
    dimensions in the order of the dynamic array; and, when [AR_settings] is
    given, its 'input_k' and 'output_k' are lists and the dynamic array has no
    dimension other than 'time', 'node' and 'feature'.  So an array with a
    further dimension is accepted without [AR_settings] only. *)
Theorem get_AR_model_diminfo_returns
    (dyn : DataArray) (static bc : option DataArray)
    (AR_settings : option (gmap string setting)) :
  is_Return (get_AR_model_diminfo (PyDataArray dyn) (optional static) (optional bc)
               AR_settings) ↔
  has_dims ["time"; "node"; "feature"] dyn ∧
  (∀ s, static = Some s → has_dims ["node"; "feature"] s) ∧
  (∀ b, bc = Some b → has_dims ["time"; "node"; "feature"] b ∧ da_dims b = da_dims dyn) ∧
  (∀ settings, AR_settings = Some settings →
     (∃ input_k, settings !! "input_k" = Some (SList input_k)) ∧
     (∃ output_k, settings !! "output_k" = Some (SList output_k)) ∧
     ∀ k, k ∈ da_dims dyn → k ∈ ["time"; "node"; "feature"]).
Proof.
  split.
  - intros [d Hd]. pose proof Hd as (Hdyn & Hst & Hbcs)%get_AR_model_diminfo_Return_inv.
    do 3 (split; [done|]). intros settings ->.
    rewrite get_AR_model_diminfo_unfold in Hd by done. cbv zeta in Hd.
    apply bind_Return in Hd as (input_time_dim & (input_k & Hin & ->)%len_setting_Return & Hd).
    apply bind_Return in Hd as (output_time_dim & (output_k & Hout & ->)%len_setting_Return & Hd).
    apply bind_Return in Hd as (input_shape & Hshape & _).
    split; [by exists input_k|]. split; [by exists output_k|].
    intros k Hk. assert (is_Return (mapM (getitem (<["feature" := _]> (<["time" := _]>
      (<["node" := _]> (∅ : gmap string Z))))) (da_dims dyn))) as Hret by (by eexists).
    pose proof (proj1 (mapM_getitem_is_Return _ _) Hret k Hk) as Hsome.
    rewrite lookup_dim_input in Hsome. by apply size_along_is_Some in Hsome.
  - intros (Hdyn & Hst & Hbcs & Hsettings).
    rewrite get_AR_model_diminfo_unfold by done. cbv zeta.
    destruct AR_settings as [settings|]; [|by eexists].
    destruct (Hsettings settings eq_refl) as ((input_k & Hin) & (output_k & Hout) & Hdims).
    unfold len_setting. rewrite Hin, Hout.
    change (Return ?x ≫= ?f) with (f x). cbv beta.
    change (Return ?x ≫= ?f) with (f x). cbv beta.
    match goal with
    | |- context [mapM (getitem ?m) (da_dims dyn)] =>
        destruct (proj2 (mapM_getitem_is_Return m (da_dims dyn))) as [shape Hshape]
    end.
    { intros k Hk. rewrite lookup_dim_input. by apply size_along_is_Some, Hdims. }
    rewrite Hshape.
    change (Return ?x ≫= ?f) with (f x). cbv beta.
    change (Return ?x ≫= ?f) with (f x). cbv beta.
    by eexists.
Qed.

(** X14. With arrays that pass the checks of [get_AR_model_diminfo] and
    [AR_settings] given: a missing 'input_k' raises KeyError 'input_k'; with
    'input_k' a list, a missing 'output_k' raises KeyError 'output_k'; and
    with both lists, a dynamic array with a dimension other than 'time',
    'node' and 'feature' raises KeyError on the first such dimension, although
    the same arrays without [AR_settings] return a dictionary. *)
Theorem get_AR_model_diminfo_KeyError
    (dyn : DataArray) (static bc : option DataArray) (settings : gmap string setting) :
  has_dims ["time"; "node"; "feature"] dyn →
  (∀ s, static = Some s → has_dims ["node"; "feature"] s) →
  (∀ b, bc = Some b → has_dims ["time"; "node"; "feature"] b ∧ da_dims b = da_dims dyn) →
  is_Return (get_AR_model_diminfo (PyDataArray dyn) (optional static) (optional bc) None) ∧
  (settings !! "input_k" = None →
   get_AR_model_diminfo (PyDataArray dyn) (optional static) (optional bc) (Some settings)
   = Raise (KeyError "input_k")) ∧
  (∀ input_k, settings !! "input_k" = Some (SList input_k) →
   settings !! "output_k" = None →
   get_AR_model_diminfo (PyDataArray dyn) (optional static) (optional bc) (Some settings)
   = Raise (KeyError "output_k")) ∧
  (∀ input_k output_k i k,
   settings !! "input_k" = Some (SList input_k) →
   settings !! "output_k" = Some (SList output_k) →
   list_find (λ k, k ∉ ["time"; "node"; "feature"]) (da_dims dyn) = Some (i, k) →
   get_AR_model_diminfo (PyDataArray dyn) (optional static) (optional bc) (Some settings)
   = Raise (KeyError k)).
Proof.
  intros Hdyn Hst Hbcs. rewrite !get_AR_model_diminfo_unfold by done. cbv zeta.
  split; [by eexists|]. unfold len_setting. split; [by intros ->|].
  split; [by intros input_k -> ->|].
  intros input_k output_k i k -> -> Hfind.
  change (Return ?x ≫= ?f) with (f x). cbv beta.
  change (Return ?x ≫= ?f) with (f x). cbv beta.
  match goal with
  | |- context [mapM (getitem ?m) (da_dims dyn)] =>
      rewrite (mapM_getitem_Raise m (da_dims dyn) i k)
  end; [done|].
  apply list_find_Some in Hfind as (Hi & Hk & Hbefore).
  apply list_find_Some. split; [done|]. split.
  - rewrite lookup_dim_input. apply eq_None_not_Some. by rewrite size_along_is_Some.
  - intros j y Hj Hlt. rewrite lookup_dim_input.
    intros Hnone. apply (Hbefore j y Hj Hlt).
    apply eq_None_not_Some in Hnone. by rewrite size_along_is_Some in Hnone.
Qed.

(** The sample array with pressure levels and the sample settings: the call
    raises KeyError 'level'. *)
Lemma get_AR_model_diminfo_KeyError_witness :
  is_Return (get_AR_model_diminfo (PyDataArray sample_levels) PyNone PyNone None) ∧
  get_AR_model_diminfo (PyDataArray sample_levels) PyNone PyNone (Some sample_settings)
  = Raise (KeyError "level").
Proof.
  assert (has_dims ["time"; "node"; "feature"] sample_levels) as Hdyn
    by (apply has_dims_forallb; reflexivity).
  destruct (get_AR_model_diminfo_KeyError sample_levels None None sample_settings Hdyn)
    as (Hnone & _ & _ & Hlevel); [done..|].
  split; [exact Hnone|].
  apply (Hlevel [-2; -1] [0] 1%nat "level"); reflexivity.
Defined.

Lemma shape_along_time_feature node time feature node' time' feature' dims shape :
  "time" ∈ dims → "feature" ∈ dims →
  shape_along node time feature dims shape →
  shape_along node' time' feature' dims shape →
  time = time' ∧ feature = feature'.
Proof.
  intros Ht Hf Hin Hout.
  assert (∀ k, k ∈ dims →
            ∃ z, size_along node time feature k = Some z ∧
                 size_along node' time' feature' k = Some z) as Hboth.
  { intros k [i Hi]%list_elem_of_lookup.
    destruct (Forall2_lookup_l _ _ _ _ _ Hin Hi) as (z & Hz & Hk).
    destruct (Forall2_lookup_l _ _ _ _ _ Hout Hi) as (z' & Hz' & Hk').
    exists z. split; [done|]. congruence. }
  destruct (Hboth "time" Ht) as (z1 & H1 & H1').
  destruct (Hboth "feature" Hf) as (z2 & H2 & H2').
  vm_compute in H1, H1', H2, H2'. split; congruence.
Qed.

(** X15. When [get_AR_model_diminfo] with [AR_settings] returns a dictionary:
    'input_time_dim' and 'output_time_dim' are the lengths of 'input_k' and of
    'output_k'; 'dim_order' is 'sample' followed by the dimensions of the
    dynamic array; 'input_shape' lists the input sizes along these dimensions
    and has one entry for each; and 'output_shape' is the same tuple as
    'input_shape'.  This tuple lists the output sizes (the nodes, the length
    of 'output_k' and the number of dynamic variables) exactly when 'input_k'
    and 'output_k' have the same length and there is no static and no bc
    variable. *)
Theorem get_AR_model_diminfo_shape_entries
    (dyn : DataArray) (static bc : option DataArray) (settings : gmap string setting)
    (d : gmap string dimval) :
  get_AR_model_diminfo (PyDataArray dyn) (optional static) (optional bc) (Some settings)
    = Return d →
  ∃ input_k output_k shape,
    settings !! "input_k" = Some (SList input_k) ∧
    settings !! "output_k" = Some (SList output_k) ∧
    d !! "input_time_dim" = Some (DInt (Z.of_nat (length input_k))) ∧
    d !! "output_time_dim" = Some (DInt (Z.of_nat (length output_k))) ∧
    d !! "dim_order" = Some (DNames ("sample" :: da_dims dyn)) ∧
    d !! "input_shape" = Some (DShape shape) ∧
    d !! "output_shape" = Some (DShape shape) ∧
    length shape = length (da_dims dyn) ∧
    shape_along (n_nodes dyn) (Z.of_nat (length input_k))
      (Z.of_nat (length (optional_vars static)) + Z.of_nat (length (optional_vars bc))
       + Z.of_nat (length (variables dyn)))
      (da_dims dyn) shape ∧
    (shape_along (n_nodes dyn) (Z.of_nat (length output_k))
       (Z.of_nat (length (variables dyn))) (da_dims dyn) shape ↔
     length input_k = length output_k ∧ optional_vars static = [] ∧ optional_vars bc = []).
Proof.
  intros Hd. pose proof Hd as (Hdyn & Hst & Hbcs)%get_AR_model_diminfo_Return_inv.
  destruct (get_AR_model_diminfo_shapes dyn static bc settings d Hdyn Hst Hbcs Hd)
    as (input_k & output_k & shape & Hin & Hout & Hit & Hot & His & Hos & Hshape).
  exists input_k, output_k, shape. do 4 (split; [done|]).
  split.
  { rewrite get_AR_model_diminfo_unfold in Hd by done. cbv zeta in Hd.
    apply bind_Return in Hd as (? & _ & Hd). apply bind_Return in Hd as (? & _ & Hd).
    apply bind_Return in Hd as (? & _ & Hd). apply bind_Return in Hd as (? & _ & [= <-]).
    done. }
  do 2 (split; [done|]).
  split; [symmetry; by eapply Forall2_length|].
  split; [done|]. split.
  - intros Hout_shape.
    destruct (shape_along_time_feature _ _ _ _ _ _ _ _
                ltac:(apply Hdyn; in_list) ltac:(apply Hdyn; in_list) Hshape Hout_shape)
      as [Htime Hfeature].
    split; [lia|]. split; apply length_zero_iff_nil; lia.
  - intros (Hlen & Hs & Hb). rewrite <- Hlen. rewrite Hs, Hb in Hshape. exact Hshape.
Qed.

(** The sample arrays with the sample settings: the tuple is (2, 4, 3). *)
Lemma get_AR_model_diminfo_shape_entries_witness :
  ∃ input_k output_k shape,
    sample_settings !! "input_k" = Some (SList input_k) ∧
    sample_settings !! "output_k" = Some (SList output_k) ∧
    sample_diminfo !! "input_time_dim" = Some (DInt (Z.of_nat (length input_k))) ∧
    sample_diminfo !! "output_time_dim" = Some (DInt (Z.of_nat (length output_k))) ∧
    sample_diminfo !! "dim_order" = Some (DNames ("sample" :: da_dims sample_dynamic)) ∧
    sample_diminfo !! "input_shape" = Some (DShape shape) ∧
    sample_diminfo !! "output_shape" = Some (DShape shape) ∧
    length shape = length (da_dims sample_dynamic) ∧
    shape_along (n_nodes sample_dynamic) (Z.of_nat (length input_k))
      (Z.of_nat (length (optional_vars (Some sample_static)))
       + Z.of_nat (length (optional_vars None))
       + Z.of_nat (length (variables sample_dynamic)))
      (da_dims sample_dynamic) shape ∧
    (shape_along (n_nodes sample_dynamic) (Z.of_nat (length output_k))
       (Z.of_nat (length (variables sample_dynamic))) (da_dims sample_dynamic) shape ↔
     length input_k = length output_k ∧ optional_vars (Some sample_static) = [] ∧
     optional_vars None = []).
Proof.
  apply (get_AR_model_diminfo_shape_entries sample_dynamic (Some sample_static) None
           sample_settings sample_diminfo).
  vm_compute. reflexivity.
Defined.

(** *** When the checks of the Datasets pass *)

Lemma _check_AR_Dataset_dimnames_Return (dyn bc static : option Dataset) :
  _check_AR_Dataset_dimnames (optional_dataset dyn) (optional_dataset bc)
    (optional_dataset static) = Return tt ↔
  (∀ d, dyn = Some d → ds_has_dims ["time"; "node"] d) ∧
  (∀ b, bc = Some b → ds_has_dims ["time"; "node"] b) ∧
  (∀ s, static = Some s → ds_has_dims ["node"] s).
Proof.
  unfold _check_AR_Dataset_dimnames, time_dim, node_dim.
  rewrite !bind_unit_Return, !unless_None_optional_dataset. tauto.
Qed.

Lemma ds_check_time_iff np_datetime64 ds verbose :
  ds_check_time np_datetime64 (PyDataset ds) verbose = Return tt ↔
  regular_time (ds_coords ds).
Proof.
  split.
  - intros [(ds' & [= <-] & H)|(da & [=] & _)]%ds_check_time_Return. done.
  - intros (ts & Hts & Hne & Harith). unfold ds_check_time, ds_time_values. rewrite Hts.
    change (Return ?x ≫= ?f) with (f x). cbv beta.
    by apply check_no_missing_timesteps_regular.
Qed.

Lemma np_eq_of_aligned_builtin release (a b : list Z) :
  aligned a b →
  ∃ c, np_eq release (LTime <$> a) (LTime <$> b) = Return c ∧ builtin_all c = Return true.
Proof.
  intros Hal. pose proof Hal as (c & Hc & Hall)%(np_eq_of_aligned release).
  exists c. split; [done|]. destruct c as [l|flag]; [simpl in *; by rewrite Hall|].
  exfalso. unfold np_eq in Hc. case_decide; [done|].
  destruct Hal as [->|[(t & -> & _)|(t & -> & _)]]; [done|done|].
  by destruct a as [|? [|? ?]].
Qed.

Lemma ds_same_timesteps_iff release a b m :
  regular_time (ds_coords a) → regular_time (ds_coords b) →
  (same_timesteps ← ds_same_timesteps release (PyDataset a) (PyDataset b);
   all_same ← builtin_all same_timesteps;
   raise_if (negb all_same) (ValueError m)) = Return tt ↔
  aligned (time_axis (PyDataset a)) (time_axis (PyDataset b)).
Proof.
  intros Ha Hb. split; [by apply ds_same_timesteps_aligned|].
  destruct Ha as (ta & Ha & _), Hb as (tb & Hb & _).
  unfold time_axis. rewrite Ha, Hb.
  intros (c & Hc & Hall)%(np_eq_of_aligned_builtin release).
  unfold ds_same_timesteps, ds_time_values. rewrite Ha, Hb.
  change (Return ?x ≫= ?f) with (f x). cbv beta.
  change (Return ?x ≫= ?f) with (f x). cbv beta.
  unfold tolist. rewrite Hc.
  change (Return ?x ≫= ?f) with (f x). cbv beta. by rewrite Hall.
Qed.


(** *** The names the tutorial script needs *)

Lemma run_script_bind {A B} (c : Tutorial.M A) (k : A → Tutorial.M B) g :
  (c ≫= k) g = match c g with
               | Return (a, g') => k a g'
               | Raise e => Raise e
               end.
Proof. reflexivity. Qed.

Lemma fails_bind_l {A B} x (c : Tutorial.M A) (k : A → Tutorial.M B) :
  fails_without x c → fails_without x (c ≫= k).
Proof.
  intros Hc g Hg [[b g'] Hret]. rewrite run_script_bind in Hret.
  destruct (c g) as [[a g1]|e] eqn:Hcg; [|done]. apply (Hc g Hg). by eexists.
Qed.

Lemma fails_bind_r {A B} x (c : Tutorial.M A) (k : A → Tutorial.M B) :
  keeps_unbound x c → (∀ a, fails_without x (k a)) → fails_without x (c ≫= k).
Proof.
  intros Hc Hk g Hg [[b g'] Hret]. rewrite run_script_bind in Hret.
  destruct (c g) as [[a g1]|e] eqn:Hcg; [|done].
  apply (Hk a g1); [by eapply Hc|by eexists].
Qed.

Lemma fails_name x :
  bool_decide (x ∈ Tutorial.builtins) = false → fails_without x (Tutorial.name x).
Proof.
  intros Hx g Hg [[v g'] Hret]. unfold Tutorial.name in Hret. by rewrite Hg, Hx in Hret.
Qed.

Lemma keeps_unbound_bind {A B} x (c : Tutorial.M A) (k : A → Tutorial.M B) :
  keeps_unbound x c → (∀ a, keeps_unbound x (k a)) → keeps_unbound x (c ≫= k).
Proof.
  intros Hc Hk g b g' Hg Hret. rewrite run_script_bind in Hret.
  destruct (c g) as [[a g1]|e] eqn:Hcg; [|done].
  eapply Hk; [|exact Hret]. by eapply Hc.
Qed.

Lemma keeps_unbound_ret {A} x (a : A) : keeps_unbound x (Tutorial.ret a).
Proof. intros g a' g' Hg [= _ <-]. done. Qed.

Lemma keeps_unbound_lift {A} x (r : result A) : keeps_unbound x (Tutorial.lift r).
Proof. intros g a g' Hg Hret. unfold Tutorial.lift in Hret. destruct r; by simplify_eq. Qed.

Lemma keeps_unbound_name x y : keeps_unbound x (Tutorial.name y).
Proof.
  intros g a g' Hg Hret. unfold Tutorial.name in Hret.
  destruct (g !! y); [by simplify_eq|]. case_bool_decide; by simplify_eq.
Qed.

Lemma keeps_unbound_assign x y v : x ≠ y → keeps_unbound x (Tutorial.assign y v).
Proof. intros Hxy g a g' Hg [= _ <-]. by rewrite lookup_insert_ne. Qed.

(** The statements unfolded to reads, assignments and operations of the
    library. *)
Ltac unfold_script :=
  unfold Tutorial.w_verif, Tutorial.set, Tutorial.expr, Tutorial.invoke, Tutorial.attr,
    Tutorial.item, Tutorial.plus, Tutorial.import_as, Tutorial.str, Tutorial.int,
    Tutorial.float;
  cbn [Tutorial.args Tutorial.kwargs].

Ltac keeps_unbound_step :=
  lazymatch goal with
  | |- keeps_unbound _ (_ ≫= _) => apply keeps_unbound_bind; [|intros ?]
  | |- keeps_unbound _ (Tutorial.ret _) => apply keeps_unbound_ret
  | |- keeps_unbound _ (Tutorial.lift _) => apply keeps_unbound_lift
  | |- keeps_unbound _ (Tutorial.name _) => apply keeps_unbound_name
  | |- keeps_unbound _ (Tutorial.assign _ _) => apply keeps_unbound_assign; discriminate
  end.

Ltac fails_without_name :=
  lazymatch goal with
  | |- fails_without _ (Tutorial.name _) => apply fails_name; reflexivity
  | |- fails_without _ (_ ≫= _) =>
      first [ solve [apply fails_bind_l; fails_without_name]
            | apply fails_bind_r; [solve [repeat keeps_unbound_step]
                                  |intros ?; fails_without_name] ]
  end.

Lemma w_verif_fails_without lib x : x ∈ free_names → fails_without x (Tutorial.w_verif lib).
Proof.
  intros Hx. unfold free_names in Hx.
  repeat (apply elem_of_cons in Hx as [->|Hx]; [unfold_script; fails_without_name|]).
  by apply elem_of_nil in Hx.
Qed.

Lemma bound_assign names g x v :
  bound names g → bound (x :: names) (<[x := v]> g).
Proof.
  intros Hg y Hy. destruct (decide (y = x)) as [->|Hne].
  - rewrite lookup_insert. by case_decide.
  - rewrite lookup_insert_ne by done. apply Hg.
    by apply elem_of_cons in Hy as [?|?].
Qed.

Lemma evaluates_bind names (e : Tutorial.M Tutorial.pyvalue)
    (k : Tutorial.pyvalue → Tutorial.M Tutorial.pyvalue) :
  evaluates names e → (∀ v, evaluates names (k v)) → evaluates names (e ≫= k).
Proof.
  intros He Hk g Hg. rewrite run_script_bind.
  destruct (He g Hg) as [v ->]. by apply Hk.
Qed.

Lemma evaluates_ret names v : evaluates names (Tutorial.ret v).
Proof. intros g _. by exists v. Qed.

Lemma evaluates_lift names (r : result Tutorial.pyvalue) :
  is_Return r → evaluates names (Tutorial.lift r).
Proof. intros [v ->] g _. by exists v. Qed.

Lemma evaluates_name_bound names x : x ∈ names → evaluates names (Tutorial.name x).
Proof.
  intros Hx g Hg. destruct (Hg x Hx) as [v Hv]. exists v. unfold Tutorial.name. by rewrite Hv.
Qed.

Lemma evaluates_name_builtin names x :
  bool_decide (x ∈ Tutorial.builtins) = true → evaluates names (Tutorial.name x).
Proof.
  intros Hx g Hg. unfold Tutorial.name. rewrite Hx. destruct (g !! x); by eexists.
Qed.

Lemma evaluates_attr lib names e a :
  total lib → evaluates names e → evaluates names (Tutorial.attr lib e a).
Proof.
  intros (_ & Hattr & _) He. apply evaluates_bind; [done|].
  intros o. by apply evaluates_lift.
Qed.

Lemma evaluates_item lib names e i :
  total lib → evaluates names e → evaluates names i →
  evaluates names (Tutorial.item lib e i).
Proof.
  intros (_ & _ & _ & Hsub & _) He Hi. apply evaluates_bind; [done|]. intros o.
  apply evaluates_bind; [done|]. intros k. by apply evaluates_lift.
Qed.

Lemma evaluates_plus lib names a b :
  total lib → evaluates names a → evaluates names b →
  evaluates names (Tutorial.plus lib a b).
Proof.
  intros (_ & _ & _ & _ & Hadd) Ha Hb. apply evaluates_bind; [done|]. intros x.
  apply evaluates_bind; [done|]. intros y. by apply evaluates_lift.
Qed.

Lemma evaluates_args names es g :
  Forall (evaluates names) es → bound names g → ∃ vs, Tutorial.args es g = Return (vs, g).
Proof.
  intros Hes Hg. induction Hes as [|e es He _ IH]; [by eexists|].
  destruct IH as [vs Hvs]. destruct (He g Hg) as [v Hv].
  exists (v :: vs). cbn [Tutorial.args]. rewrite run_script_bind, Hv.
  by rewrite run_script_bind, Hvs.
Qed.

Lemma evaluates_kwargs names (es : list (string * Tutorial.M Tutorial.pyvalue)) g :
  Forall (λ ke, evaluates names ke.2) es → bound names g →
  ∃ vs, Tutorial.kwargs es g = Return (vs, g).
Proof.
  intros Hes Hg. induction Hes as [|[k e] es He _ IH]; [by eexists|].
  destruct IH as [vs Hvs]. destruct (He g Hg) as [v Hv].
  exists ((k, v) :: vs). cbn [Tutorial.kwargs]. rewrite run_script_bind. simpl in Hv.
  rewrite Hv. by rewrite run_script_bind, Hvs.
Qed.

Lemma evaluates_invoke lib names f positional keyword :
  total lib → evaluates names f → Forall (evaluates names) positional →
  Forall (λ ke, evaluates names ke.2) keyword →
  evaluates names (Tutorial.invoke lib f positional keyword).
Proof.
  intros (_ & _ & Hcall & _) Hf Hps Hks g Hg. unfold Tutorial.invoke.
  rewrite run_script_bind. destruct (Hf g Hg) as [fv ->].
  rewrite run_script_bind. destruct (evaluates_args names positional g Hps Hg) as [ps ->].
  rewrite run_script_bind. destruct (evaluates_kwargs names keyword g Hks Hg) as [ks ->].
  destruct (Hcall fv ps ks) as [v Hv]. exists v. unfold Tutorial.lift. by rewrite Hv.
Qed.

Lemma runs_to_set names x e :
  evaluates names e → runs_to names (Tutorial.set x e) (x :: names).
Proof.
  intros He g Hg. unfold Tutorial.set. rewrite run_script_bind.
  destruct (He g Hg) as [v ->]. eexists. split; [done|]. by apply bound_assign.
Qed.

Lemma runs_to_expr names e : evaluates names e → runs_to names (Tutorial.expr e) names.
Proof.
  intros He g Hg. unfold Tutorial.expr. rewrite run_script_bind.
  destruct (He g Hg) as [v ->]. by exists g.
Qed.

Lemma runs_to_import_as lib names module x :
  total lib → runs_to names (Tutorial.import_as lib module x) (x :: names).
Proof.
  intros (Himport & _) g Hg. unfold Tutorial.import_as. rewrite run_script_bind.
  destruct (Himport module) as [m Hm]. unfold Tutorial.lift. rewrite Hm.
  eexists. split; [done|]. by apply bound_assign.
Qed.

Lemma completes_seq names names' (c k : Tutorial.M unit) :
  runs_to names c names' → completes names' k → completes names (c ;; k).
Proof.
  intros Hc Hk g Hg. rewrite run_script_bind.
  destruct (Hc g Hg) as (g' & -> & Hg'). by apply Hk.
Qed.

Lemma completes_last names names' (c : Tutorial.M unit) :
  runs_to names c names' → completes names c.
Proof. intros Hc g Hg. destruct (Hc g Hg) as (g' & -> & _). by eexists. Qed.

Ltac evaluates_expr :=
  lazymatch goal with
  | |- evaluates _ (Tutorial.name _) =>
      first [ apply evaluates_name_bound; solve [in_list]
            | apply evaluates_name_builtin; reflexivity ]
  | |- evaluates _ (Tutorial.ret _) => apply evaluates_ret
  | |- evaluates _ (Tutorial.str _) => apply evaluates_ret
  | |- evaluates _ (Tutorial.int _) => apply evaluates_ret
  | |- evaluates _ (Tutorial.float _) => apply evaluates_ret
  | |- evaluates _ (Tutorial.attr _ _ _) => apply evaluates_attr; [assumption|evaluates_expr]
  | |- evaluates _ (Tutorial.item _ _ _) =>
      apply evaluates_item; [assumption|evaluates_expr|evaluates_expr]
  | |- evaluates _ (Tutorial.plus _ _ _) =>
      apply evaluates_plus; [assumption|evaluates_expr|evaluates_expr]
  | |- evaluates _ (Tutorial.invoke _ _ _ _) =>
      apply evaluates_invoke; [assumption|evaluates_expr|evaluates_list|evaluates_list]
  end
with evaluates_list :=
  lazymatch goal with
  | |- Forall _ [] => constructor
  | |- Forall _ (_ :: _) =>
      constructor; [cbn beta iota delta [snd]; evaluates_expr|evaluates_list]
  end.

Ltac runs_statement :=
  lazymatch goal with
  | |- runs_to _ (Tutorial.set _ _) _ => apply runs_to_set; evaluates_expr
  | |- runs_to _ (Tutorial.expr _) _ => apply runs_to_expr; evaluates_expr
  | |- runs_to _ (Tutorial.import_as _ _ _) _ => apply runs_to_import_as; assumption
  end.

Ltac runs_script :=
  lazymatch goal with
  | |- completes _ (_ ≫= _) => eapply completes_seq; [runs_statement|runs_script]
  | |- completes _ _ => eapply completes_last; runs_statement
  end.

Lemma w_verif_completes lib : total lib → completes free_names (Tutorial.w_verif lib).
Proof. intros Htotal. unfold Tutorial.w_verif, free_names. runs_script. Qed.

(** X17. The tutorial script run on a dictionary of global names already
    bound (as in a session): whatever the libraries do, it completes only if
    [xr], [os], [deterministic], [global_summary], [latitudinal_summary],
    [longitudinal_summary], [plot_skill_maps] and [figs_dir] are all bound
    before it starts; and with these eight names bound it completes whenever
    every operation of the libraries returns, so it needs no other name. *)
Theorem w_verif_free_names (lib : Tutorial.library) (g : gmap string Tutorial.pyvalue) :
  (is_Return (Tutorial.w_verif lib g) → ∀ x, x ∈ free_names → is_Some (g !! x)) ∧
  (total lib → (∀ x, x ∈ free_names → is_Some (g !! x)) →
   is_Return (Tutorial.w_verif lib g)).
Proof.
  split.
  - intros Hret x Hx. destruct (g !! x) as [v|] eqn:Hg; [done|].
    by destruct (w_verif_fails_without lib x Hx g Hg).
  - intros Htotal Hg. by apply (w_verif_completes lib Htotal g).
Qed.

(** In a session that has bound the eight names, with the sample library, the
    script completes. *)
Example w_verif_sample_session : is_Return (Tutorial.w_verif sample_library sample_globals).
Proof.
  apply w_verif_completes.
  - repeat split; intros; by eexists.
  - intros x Hx. unfold free_names in Hx.
    repeat (apply elem_of_cons in Hx as [->|Hx]; [by eexists|]).
    by apply elem_of_nil in Hx.
Qed.
